(** * hcn/zsyscall_windows.go: the HCN syscall gateway

    A shallow embedding of the generated syscall wrappers of package [hcn]
    (Host Compute Network) and the properties of their marshalling:
    string conversion, lazy binding of the entry points, the native call
    and the decoding of the status word it returns. *)

From Stdlib Require Import ZArith List String Ascii Lia Bool.
From stdpp Require Import base gmap strings list.

Local Open Scope string_scope.
Local Open Scope list_scope.
Local Open Scope Z_scope.

(** ** Machine integers *)

(** The targets the package builds for; [uintptr] is as wide as a pointer. *)
Variant goarch := I386 | AMD64 | ARM | ARM64.

Definition ptr_bits (a : goarch) : Z :=
  match a with
  | I386 | ARM => 32
  | AMD64 | ARM64 => 64
  end.

(** Conversion to [uintptr]: the value modulo the pointer width. *)
Definition to_uintptr (a : goarch) (v : Z) : Z := v mod 2 ^ ptr_bits a.

(** [int32(r)]: the low 32 bits of [r], read in two's complement. *)
Definition int32 (r : Z) : Z :=
  let m := r mod 2 ^ 32 in
  if m <? 2 ^ 31 then m else m - 2 ^ 32.

(** [uint32(r)]: the low 32 bits of [r]. *)
Definition uint32 (r : Z) : Z := r mod 2 ^ 32.

(** ** Errors, outcomes and the state of a process *)

(** The values of Go's [error] the wrappers can hold; [nil] is [None] of
    [option error]. *)
Inductive error :=
| EINVAL                        (* syscall.EINVAL, from the string conversion *)
| DLLError (ObjName : string)   (* *windows.DLLError: library or procedure not found *)
| Errno (e : Z)                 (* syscall.Errno(e) *)
| NilDereference.               (* runtime error: nil pointer dereference *)

(** [errnoErr]: the boxed value of a common [Errno]. The wrappers below wrap
    the status word with [syscall.Errno] themselves and do not call it. *)
Definition errnoERROR_IO_PENDING : Z := 997.

Definition errnoErr (e : Z) : error :=
  if e =? 0 then EINVAL
  else if e =? errnoERROR_IO_PENDING then Errno errnoERROR_IO_PENDING
  else Errno e.

Definition is_nil (e : option error) : bool :=
  match e with
  | None => true
  | Some _ => false
  end.

(** A pointer to memory the caller owns ([*_guid], [*hcnNetwork], [**uint16]):
    its address. *)
Definition pointer := Z.

(** A [*uint16] that points at a NUL-terminated UTF-16 buffer allocated by the
    Go runtime: [nil], or the buffer it points at. *)
Definition utf16ptr := option (list Z).

(** The arguments of a native call, each a [uintptr] in the source. *)
Inductive arg :=
| Uintptr (v : Z)               (* uintptr(x), uintptr(unsafe.Pointer(p)) *)
| Utf16Ptr (p : utf16ptr).      (* uintptr(unsafe.Pointer(_p0)) *)

(** One native invocation: the address called and its arguments. *)
Definition invocation : Type := Z * list arg.

Record World := mkWorld {
  loaded : gset string;               (* LazyDLL.dll: the libraries already loaded *)
  bound : gmap (string * string) Z;   (* LazyProc.proc: the entry points already resolved *)
  mem : gmap Z Z;                     (* the memory the native layer reads and writes *)
  trace : list invocation             (* the native invocations so far, oldest first *)
}.

(** A call returns or panics. *)
Inductive outcome (A : Type) :=
| Returned (a : A)
| Panicked (e : error).
Arguments Returned {A} a.
Arguments Panicked {A} e.

Definition M (A : Type) : Type := World -> outcome A * World.

#[global] Instance M_ret : MRet M := fun A a w => (Returned a, w).

#[global] Instance M_bind : MBind M := fun A B f m w =>
  match m w with
  | (Returned a, w') => f a w'
  | (Panicked e, w') => (Panicked e, w')
  end.

Definition panic {A : Type} (e : error) : M A := fun w => (Panicked e, w).

Definition get : M World := fun w => (Returned w, w).

Definition put (w : World) : M unit := fun _ => (Returned tt, w).

(** ** Strings and their UTF-16 conversion (Go's standard library)

    A Go string is a sequence of bytes, as a Rocq [string] is. The conversion
    the wrappers call, [syscall.UTF16PtrFromString], belongs to the Go
    standard library and is not part of the sources; it is transcribed here
    with the functions of [unicode/utf8] and [unicode/utf16] it runs. *)

Definition byte_of_ascii (c : ascii) : Z := Z.of_N (N_of_ascii c).

Definition ascii_of_byte (b : Z) : ascii := ascii_of_N (Z.to_N (b mod 256)).

Fixpoint bytes (s : string) : list Z :=
  match s with
  | EmptyString => []
  | String c s' => byte_of_ascii c :: bytes s'
  end.

Fixpoint string_of_bytes (bs : list Z) : string :=
  match bs with
  | [] => EmptyString
  | b :: bs' => String (ascii_of_byte b) (string_of_bytes bs')
  end.

(** [byte(x)] and [uint16(x)] *)
Definition byte (x : Z) : Z := x mod 2 ^ 8.
Definition uint16 (x : Z) : Z := x mod 2 ^ 16.

(** [len(s)] *)
Definition len {A : Type} (s : list A) : Z := Z.of_nat (length s).

Module utf8.

Definition RuneError : Z := 0xFFFD.
Definition MaxRune : Z := 0x10FFFF.
Definition surrogateMin : Z := 0xD800.
Definition surrogateMax : Z := 0xDFFF.

Definition tx : Z := 0x80.
Definition t2 : Z := 0xC0.
Definition t3 : Z := 0xE0.
Definition t4 : Z := 0xF0.

Definition maskx : Z := 0x3F.
Definition mask2 : Z := 0x1F.
Definition mask3 : Z := 0x0F.
Definition mask4 : Z := 0x07.

Definition rune1Max : Z := 2 ^ 7 - 1.
Definition rune2Max : Z := 2 ^ 11 - 1.
Definition rune3Max : Z := 2 ^ 16 - 1.

Definition locb : Z := 0x80.
Definition hicb : Z := 0xBF.

Definition xx : Z := 0xF1.
Definition as_ : Z := 0xF0.
Definition s1 : Z := 0x02.
Definition s2 : Z := 0x13.
Definition s3 : Z := 0x03.
Definition s4 : Z := 0x23.
Definition s5 : Z := 0x34.
Definition s6 : Z := 0x04.
Definition s7 : Z := 0x44.

(** The table [first]: information about the first byte of an encoding. *)
Definition first (b : Z) : Z :=
  if b <? 0x80 then as_
  else if b <? 0xC2 then xx
  else if b <? 0xE0 then s1
  else if b =? 0xE0 then s2
  else if b <? 0xED then s3
  else if b =? 0xED then s4
  else if b <? 0xF0 then s3
  else if b =? 0xF0 then s5
  else if b <? 0xF4 then s6
  else if b =? 0xF4 then s7
  else xx.

(** The table [acceptRanges]: the range of a valid second byte. *)
Definition acceptRanges (i : Z) : Z * Z :=
  match i with
  | 0 => (locb, hicb)
  | 1 => (0xA0, hicb)
  | 2 => (locb, 0x9F)
  | 3 => (0x90, hicb)
  | 4 => (locb, 0x8F)
  | _ => (0, 0)
  end.

(** [utf8.DecodeRuneInString]: the first rune of [s] and its width in bytes;
    [(RuneError, 1)] for an encoding that is not valid. *)
Definition DecodeRuneInString (s : list Z) : Z * Z :=
  let n := len s in
  if n <? 1 then (RuneError, 0) else
  let s0 := nth 0 s 0 in
  let x := first s0 in
  if as_ <=? x then
    (* mask := rune(x) << 31 >> 31: all ones for xx, zero for as *)
    let mask := if Z.odd x then -1 else 0 in
    (Z.lor (Z.land s0 (Z.lnot mask)) (Z.land RuneError mask), 1)
  else
  let sz := Z.land x 7 in
  let '(lo, hi) := acceptRanges (Z.shiftr x 4) in
  if n <? sz then (RuneError, 1) else
  let s1 := nth 1 s 0 in
  if (s1 <? lo) || (hi <? s1) then (RuneError, 1) else
  if sz <=? 2 then
    (Z.lor (Z.shiftl (Z.land s0 mask2) 6) (Z.land s1 maskx), 2)
  else
  let s2 := nth 2 s 0 in
  if (s2 <? locb) || (hicb <? s2) then (RuneError, 1) else
  if sz <=? 3 then
    (Z.lor (Z.lor (Z.shiftl (Z.land s0 mask3) 12) (Z.shiftl (Z.land s1 maskx) 6))
           (Z.land s2 maskx), 3)
  else
  let s3 := nth 3 s 0 in
  if (s3 <? locb) || (hicb <? s3) then (RuneError, 1) else
  (Z.lor (Z.lor (Z.lor (Z.shiftl (Z.land s0 mask4) 18) (Z.shiftl (Z.land s1 maskx) 12))
                (Z.shiftl (Z.land s2 maskx) 6))
         (Z.land s3 maskx), 4).

(** [utf8.AppendRune] with [appendRuneNonASCII]: the UTF-8 encoding of [r]
    appended to [p]. *)
Definition AppendRune (p : list Z) (r : Z) : list Z :=
  let i := uint32 r in
  if i <=? rune1Max then p ++ [byte r]
  else if i <=? rune2Max then
    p ++ [Z.lor t2 (byte (Z.shiftr r 6)); Z.lor tx (Z.land (byte r) maskx)]
  else if (MaxRune <? i) || ((surrogateMin <=? i) && (i <=? surrogateMax)) then
    let r := RuneError in
    p ++ [Z.lor t3 (byte (Z.shiftr r 12));
          Z.lor tx (Z.land (byte (Z.shiftr r 6)) maskx);
          Z.lor tx (Z.land (byte r) maskx)]
  else if i <=? rune3Max then
    p ++ [Z.lor t3 (byte (Z.shiftr r 12));
          Z.lor tx (Z.land (byte (Z.shiftr r 6)) maskx);
          Z.lor tx (Z.land (byte r) maskx)]
  else
    p ++ [Z.lor t4 (byte (Z.shiftr r 18));
          Z.lor tx (Z.land (byte (Z.shiftr r 12)) maskx);
          Z.lor tx (Z.land (byte (Z.shiftr r 6)) maskx);
          Z.lor tx (Z.land (byte r) maskx)].

End utf8.

Module utf16.

Definition replacementChar : Z := 0xFFFD.
Definition maxRune : Z := 0x10FFFF.

Definition surr1 : Z := 0xd800.
Definition surr2 : Z := 0xdc00.
Definition surr3 : Z := 0xe000.
Definition surrSelf : Z := 0x10000.

(** [utf16.EncodeRune]: the surrogate pair of [r]. *)
Definition EncodeRune (r : Z) : Z * Z :=
  if (r <? surrSelf) || (maxRune <? r) then (replacementChar, replacementChar) else
  let r := r - surrSelf in
  (surr1 + Z.land (Z.shiftr r 10) 0x3ff, surr2 + Z.land r 0x3ff).

(** [utf16.DecodeRune]: the rune of a surrogate pair. *)
Definition DecodeRune (r1 r2 : Z) : Z :=
  if (surr1 <=? r1) && (r1 <? surr2) && (surr2 <=? r2) && (r2 <? surr3) then
    Z.lor (Z.shiftl (r1 - surr1) 10) (r2 - surr2) + surrSelf
  else replacementChar.

(** [utf16.AppendRune]: the UTF-16 encoding of [r] appended to [a]. *)
Definition AppendRune (a : list Z) (r : Z) : list Z :=
  if ((0 <=? r) && (r <? surr1)) || ((surr3 <=? r) && (r <? surrSelf)) then
    a ++ [uint16 r]
  else if (surrSelf <=? r) && (r <=? maxRune) then
    let '(r1, r2) := EncodeRune r in
    a ++ [uint16 r1; uint16 r2]
  else a ++ [replacementChar].

End utf16.

(** [encodeWTF16] of package [syscall]: the loop over [s[i:]], one rune per
    turn. Every turn consumes a byte at least, so [len(s)] turns suffice. *)
Fixpoint encodeWTF16_loop (turns : nat) (sc : list Z) (buf : list Z) : list Z :=
  match turns with
  | O => buf
  | S turns' =>
      if len sc <=? 0 then buf else
      let '(r, size) := utf8.DecodeRuneInString sc in
      if (r =? utf8.RuneError) && (3 <=? len sc) && (nth 0 sc 0 =? 0xED)
         && (0xA0 <=? nth 1 sc 0) && (nth 1 sc 0 <=? 0xBF)
         && (0x80 <=? nth 2 sc 0) && (nth 2 sc 0 <=? 0xBF)
      then
        (* a WTF-8 encoded surrogate *)
        let r := Z.shiftl (Z.land (nth 0 sc 0) utf8.mask3) 12
                 + Z.shiftl (Z.land (nth 1 sc 0) utf8.maskx) 6
                 + Z.land (nth 2 sc 0) utf8.maskx in
        encodeWTF16_loop turns' (skipn 3 sc) (buf ++ [uint16 r])
      else
        encodeWTF16_loop turns' (skipn (Z.to_nat size) sc) (utf16.AppendRune buf r)
  end.

Definition encodeWTF16 (s : string) (buf : list Z) : list Z :=
  encodeWTF16_loop (length (bytes s)) (bytes s) buf.

(** [decodeWTF16] of package [syscall]: the loop over [s[i:]]. *)
Fixpoint decodeWTF16_loop (turns : nat) (s : list Z) (buf : list Z) : list Z :=
  match turns with
  | O => buf
  | S turns' =>
      if len s <=? 0 then buf else
      let r := nth 0 s 0 in
      if (r <? utf16.surr1) || (utf16.surr3 <=? r) then
        (* normal rune *)
        decodeWTF16_loop turns' (skipn 1 s) (utf8.AppendRune buf r)
      else if (utf16.surr1 <=? r) && (r <? utf16.surr2) && (1 <? len s)
              && (utf16.surr2 <=? nth 1 s 0) && (nth 1 s 0 <? utf16.surr3) then
        (* valid surrogate sequence *)
        let ar := utf16.DecodeRune r (nth 1 s 0) in
        decodeWTF16_loop turns' (skipn 2 s) (utf8.AppendRune buf ar)
      else
        (* WTF-8 fallback: a lone surrogate in three bytes *)
        let ar := if utf8.MaxRune <? r then utf8.RuneError else r in
        decodeWTF16_loop turns' (skipn 1 s)
          (buf ++ [Z.lor utf8.t3 (byte (Z.shiftr ar 12));
                   Z.lor utf8.tx (Z.land (byte (Z.shiftr ar 6)) utf8.maskx);
                   Z.lor utf8.tx (Z.land (byte ar) utf8.maskx)])
  end.

Definition decodeWTF16 (s : list Z) (buf : list Z) : list Z :=
  decodeWTF16_loop (length s) s buf.

(** [bytealg.IndexByteString(s, 0) != -1] *)
Definition has_nul (s : string) : bool := existsb (Z.eqb 0) (bytes s).

(** Modelled from the spec: [syscall.UTF16FromString] of the Go standard
    library, which is not part of the sources: the UTF-16 encoding of [s]
    with a terminating NUL added, or [EINVAL] when [s] contains a NUL byte. *)
Definition UTF16FromString (s : string) : list Z * option error :=
  if has_nul s then ([], Some EINVAL) else
  let buf := encodeWTF16 s [] in
  (buf ++ [0], None).

(** Modelled from the spec: [syscall.UTF16PtrFromString] of the Go standard
    library, which is not part of the sources: a pointer to the first unit of
    the NUL-terminated UTF-16 encoding of [s]. *)
Definition UTF16PtrFromString (s : string) : utf16ptr * option error :=
  let '(a, err) := UTF16FromString s in
  if negb (is_nil err) then (None, err) else
  (Some a, None).

(** The units of [s] before its first NUL. *)
Fixpoint until_nul (s : list Z) : list Z :=
  match s with
  | [] => []
  | v :: s' => if v =? 0 then [] else v :: until_nul s'
  end.

(** Modelled from the spec: [syscall.UTF16ToString] of the Go standard
    library, which is not part of the sources: the text of the UTF-16
    sequence [s], with a terminating NUL removed. *)
Definition UTF16ToString (s : list Z) : string :=
  string_of_bytes (decodeWTF16 (until_nul s) []).

(** Valid text: decoding [sc] rune by rune never meets an invalid encoding
    (what [utf8.ValidString] reports). *)
Fixpoint valid_loop (turns : nat) (sc : list Z) : bool :=
  match turns with
  | O => len sc <=? 0
  | S turns' =>
      if len sc <=? 0 then true else
      let '(r, size) := utf8.DecodeRuneInString sc in
      if (r =? utf8.RuneError) && (size =? 1) then false
      else valid_loop turns' (skipn (Z.to_nat size) sc)
  end.

Definition ValidString (s : string) : bool :=
  valid_loop (length (bytes s)) (bytes s).

(** A byte sequence: every element is a byte. *)
Definition byte_range (sc : list Z) : Prop := Forall (fun b => 0 <= b < 256) sc.

(** A Unicode scalar value: a code point that is not a surrogate. *)
Definition scalar (r : Z) : Prop :=
  0 <= r <= 0x10FFFF /\ ~ (0xD800 <= r <= 0xDFFF).

(** The UTF-8 encoding of a scalar value, in arithmetic. *)
Definition utf8_bytes (r : Z) : list Z :=
  if r <? 0x80 then [r]
  else if r <? 0x800 then [0xC0 + r / 64; 0x80 + r mod 64]
  else if r <? 0x10000 then [0xE0 + r / 4096; 0x80 + (r / 64) mod 64; 0x80 + r mod 64]
  else [0xF0 + r / 262144; 0x80 + (r / 4096) mod 64; 0x80 + (r / 64) mod 64;
        0x80 + r mod 64].

(** The UTF-16 encoding of a scalar value, in arithmetic. *)
Definition utf16_units (r : Z) : list Z :=
  if r <? 0x10000 then [r]
  else [0xD800 + (r - 0x10000) / 1024; 0xDC00 + (r - 0x10000) mod 1024].

(** ** Lazy binding (golang.org/x/sys/windows) *)

Record LazyDLL := NewLazySystemDLL { dllName : string }.

Record LazyProc := mkLazyProc { procDLL : LazyDLL; procName : string }.

Definition NewProc (d : LazyDLL) (name : string) : LazyProc := mkLazyProc d name.

Definition proc_key (p : LazyProc) : string * string := (dllName (procDLL p), procName p).

Definition set_loaded (s : gset string) (w : World) : World :=
  mkWorld s (bound w) (mem w) (trace w).

Definition set_bound (b : gmap (string * string) Z) (w : World) : World :=
  mkWorld (loaded w) b (mem w) (trace w).

(** ** Hosts and inputs the properties are tried on *)

(** A host on which every library loads and exports every procedure. *)
Definition every_dll (d : string) : bool := true.
Definition every_proc (d p : string) : option Z := Some 0x1000.

(** A host without the HCN feature: computenetwork.dll does not load. *)
Definition no_hcn_dll (d : string) : bool := negb (String.eqb d "computenetwork.dll").

(** A host on which no library loads. *)
Definition no_dll (d : string) : bool := false.

(** Native code that returns the status word [r] and leaves the memory. *)
Definition native_status (r : Z) (trap : Z) (args : list arg) (m : gmap Z Z) :
    Z * gmap Z Z :=
  (r, m).

(** Native code that succeeds and stores [v] at its last argument, the result
    pointer. *)
Definition native_result (v : Z) (trap : Z) (args : list arg) (m : gmap Z Z) :
    Z * gmap Z Z :=
  match List.last args (Uintptr 0) with
  | Uintptr p => (0, <[p := v]> m)
  | Utf16Ptr _ => (0, m)
  end.

(** A process that has loaded nothing and called nothing yet. *)
Definition fresh : World := mkWorld ∅ ∅ ∅ [].

(** Text of one, two, three and four bytes a rune, between braces. *)
Definition sample_text : string :=
  string_of_bytes [0x7B; 0xC3; 0xA9; 0xE2; 0x82; 0xAC; 0xF0; 0x9F; 0x98; 0x80; 0x7D].

(** Valid text with a NUL in it. *)
Definition text_with_nul : string := String "a" (String "000" (String "b" EmptyString)).

Section Gateway.

(** The host: the pointer width, which libraries load, which procedures they
    export and at which address, and what the native code at an address does
    with its arguments and the memory (the status word it returns, the memory
    it leaves). *)
Variable arch : goarch.
Variable host_dll : string -> bool.
Variable host_proc : string -> string -> option Z.
Variable native : Z -> list arg -> gmap Z Z -> Z * gmap Z Z.

Definition uintptr (v : Z) : Z := to_uintptr arch v.

(** Modelled from the spec: [LazyDLL.Load] of golang.org/x/sys/windows, which
    is not part of the sources. The library is loaded on first use and kept;
    a library that is absent is an error. *)
Definition Load (d : LazyDLL) : M (option error) :=
  w ← get;
  if decide (dllName d ∈ loaded w) then mret None else
  if host_dll (dllName d) then
    _ ← put (set_loaded ({[dllName d]} ∪ loaded w) w);
    mret None
  else mret (Some (DLLError (dllName d))).

(** Modelled from the spec: [LazyProc.Find] of golang.org/x/sys/windows, which
    is not part of the sources. Each named entry point is resolved from its
    hosting library on first use and cached; a missing library or symbol is
    reported as an error. *)
Definition Find (p : LazyProc) : M (option error) :=
  w ← get;
  if negb (bool_decide (bound w !! proc_key p = None)) then mret None else
  e ← Load (procDLL p);
  if negb (is_nil e) then mret e else
  match host_proc (dllName (procDLL p)) (procName p) with
  | None => mret (Some (DLLError (procName p)))
  | Some a =>
      w' ← get;
      _ ← put (set_bound (<[proc_key p := a]> (bound w')) w');
      mret None
  end.

(** Modelled from the spec: [LazyProc.Addr] of golang.org/x/sys/windows, which
    is not part of the sources. It returns the address of the procedure and
    panics when the procedure cannot be found. *)
Definition Addr (p : LazyProc) : M Z :=
  e ← Find p;
  match e with
  | Some err => panic err
  | None =>
      w ← get;
      match bound w !! proc_key p with
      | Some a => mret a
      | None => panic NilDereference
      end
  end.

(** [syscall.SyscallN(trap, args...)]: the native code at [trap] runs once on
    the arguments; its first result comes back as a [uintptr]. *)
Definition SyscallN (trap : Z) (args : list arg) : M Z := fun w =>
  let '(r, m') := native trap args (mem w) in
  (Returned (uintptr r),
   mkWorld (loaded w) (bound w) m' (trace w ++ [(trap, args)])).

(** ** The binding table *)

Definition modcomputenetwork := NewLazySystemDLL "computenetwork.dll".
Definition modiphlpapi := NewLazySystemDLL "iphlpapi.dll".
Definition modvmcompute := NewLazySystemDLL "vmcompute.dll".

Definition procHcnCloseEndpoint := NewProc modcomputenetwork "HcnCloseEndpoint".
Definition procHcnCloseLoadBalancer := NewProc modcomputenetwork "HcnCloseLoadBalancer".
Definition procHcnCloseNamespace := NewProc modcomputenetwork "HcnCloseNamespace".
Definition procHcnCloseNetwork := NewProc modcomputenetwork "HcnCloseNetwork".
Definition procHcnCloseSdnRoute := NewProc modcomputenetwork "HcnCloseSdnRoute".
Definition procHcnCreateEndpoint := NewProc modcomputenetwork "HcnCreateEndpoint".
Definition procHcnCreateLoadBalancer := NewProc modcomputenetwork "HcnCreateLoadBalancer".
Definition procHcnCreateNamespace := NewProc modcomputenetwork "HcnCreateNamespace".
Definition procHcnCreateNetwork := NewProc modcomputenetwork "HcnCreateNetwork".
Definition procHcnCreateSdnRoute := NewProc modcomputenetwork "HcnCreateSdnRoute".
Definition procHcnDeleteEndpoint := NewProc modcomputenetwork "HcnDeleteEndpoint".
Definition procHcnDeleteLoadBalancer := NewProc modcomputenetwork "HcnDeleteLoadBalancer".
Definition procHcnDeleteNamespace := NewProc modcomputenetwork "HcnDeleteNamespace".
Definition procHcnDeleteNetwork := NewProc modcomputenetwork "HcnDeleteNetwork".
Definition procHcnDeleteSdnRoute := NewProc modcomputenetwork "HcnDeleteSdnRoute".
Definition procHcnEnumerateEndpoints := NewProc modcomputenetwork "HcnEnumerateEndpoints".
Definition procHcnEnumerateLoadBalancers := NewProc modcomputenetwork "HcnEnumerateLoadBalancers".
Definition procHcnEnumerateNamespaces := NewProc modcomputenetwork "HcnEnumerateNamespaces".
Definition procHcnEnumerateNetworks := NewProc modcomputenetwork "HcnEnumerateNetworks".
Definition procHcnEnumerateSdnRoutes := NewProc modcomputenetwork "HcnEnumerateSdnRoutes".
Definition procHcnModifyEndpoint := NewProc modcomputenetwork "HcnModifyEndpoint".
Definition procHcnModifyLoadBalancer := NewProc modcomputenetwork "HcnModifyLoadBalancer".
Definition procHcnModifyNamespace := NewProc modcomputenetwork "HcnModifyNamespace".
Definition procHcnModifyNetwork := NewProc modcomputenetwork "HcnModifyNetwork".
Definition procHcnModifySdnRoute := NewProc modcomputenetwork "HcnModifySdnRoute".
Definition procHcnOpenEndpoint := NewProc modcomputenetwork "HcnOpenEndpoint".
Definition procHcnOpenLoadBalancer := NewProc modcomputenetwork "HcnOpenLoadBalancer".
Definition procHcnOpenNamespace := NewProc modcomputenetwork "HcnOpenNamespace".
Definition procHcnOpenNetwork := NewProc modcomputenetwork "HcnOpenNetwork".
Definition procHcnOpenSdnRoute := NewProc modcomputenetwork "HcnOpenSdnRoute".
Definition procHcnQueryEndpointProperties := NewProc modcomputenetwork "HcnQueryEndpointProperties".
Definition procHcnQueryLoadBalancerProperties := NewProc modcomputenetwork "HcnQueryLoadBalancerProperties".
Definition procHcnQueryNamespaceProperties := NewProc modcomputenetwork "HcnQueryNamespaceProperties".
Definition procHcnQueryNetworkProperties := NewProc modcomputenetwork "HcnQueryNetworkProperties".
Definition procHcnQuerySdnRouteProperties := NewProc modcomputenetwork "HcnQuerySdnRouteProperties".
Definition procGetCurrentThreadCompartmentId := NewProc modiphlpapi "GetCurrentThreadCompartmentId".
Definition procSetCurrentThreadCompartmentId := NewProc modiphlpapi "SetCurrentThreadCompartmentId".
Definition procHNSCall := NewProc modvmcompute "HNSCall".

(** ** The wrappers

    Modelled from the spec: the handle types [hcnNetwork], [hcnEndpoint],
    [hcnNamespace], [hcnLoadBalancer] and [hcnRoute] are declared in a file of
    the package that is not part of the sources; each is an opaque
    integer-sized token. A wrapper and the function it calls after converting
    its strings ([hcnCreateEndpoint] and [_hcnCreateEndpoint]) stand in the
    order Rocq needs, the callee first. *)

Definition hcnNetwork := Z.
Definition hcnEndpoint := Z.
Definition hcnNamespace := Z.
Definition hcnLoadBalancer := Z.
Definition hcnRoute := Z.

Definition hcnCloseEndpoint (endpoint : hcnEndpoint) : M (option error) :=
  hr ← Find procHcnCloseEndpoint;
  if negb (is_nil hr) then mret hr else
  trap ← Addr procHcnCloseEndpoint;
  r0 ← SyscallN trap [Uintptr (uintptr endpoint)];
  let hr :=
    if int32 r0 <? 0 then
      let r0 := if Z.land r0 0x1fff0000 =? 0x00070000 then Z.land r0 0xffff else r0 in
      Some (Errno r0)
    else hr in
  mret hr.

Definition hcnCloseLoadBalancer (loadBalancer : hcnLoadBalancer) : M (option error) :=
  hr ← Find procHcnCloseLoadBalancer;
  if negb (is_nil hr) then mret hr else
  trap ← Addr procHcnCloseLoadBalancer;
  r0 ← SyscallN trap [Uintptr (uintptr loadBalancer)];
  let hr :=
    if int32 r0 <? 0 then
      let r0 := if Z.land r0 0x1fff0000 =? 0x00070000 then Z.land r0 0xffff else r0 in
      Some (Errno r0)
    else hr in
  mret hr.

Definition hcnCloseNamespace (namespace : hcnNamespace) : M (option error) :=
  hr ← Find procHcnCloseNamespace;
  if negb (is_nil hr) then mret hr else
  trap ← Addr procHcnCloseNamespace;
  r0 ← SyscallN trap [Uintptr (uintptr namespace)];
  let hr :=
    if int32 r0 <? 0 then
      let r0 := if Z.land r0 0x1fff0000 =? 0x00070000 then Z.land r0 0xffff else r0 in
      Some (Errno r0)
    else hr in
  mret hr.

Definition hcnCloseNetwork (network : hcnNetwork) : M (option error) :=
  hr ← Find procHcnCloseNetwork;
  if negb (is_nil hr) then mret hr else
  trap ← Addr procHcnCloseNetwork;
  r0 ← SyscallN trap [Uintptr (uintptr network)];
  let hr :=
    if int32 r0 <? 0 then
      let r0 := if Z.land r0 0x1fff0000 =? 0x00070000 then Z.land r0 0xffff else r0 in
      Some (Errno r0)
    else hr in
  mret hr.

Definition hcnCloseRoute (route : hcnRoute) : M (option error) :=
  hr ← Find procHcnCloseSdnRoute;
  if negb (is_nil hr) then mret hr else
  trap ← Addr procHcnCloseSdnRoute;
  r0 ← SyscallN trap [Uintptr (uintptr route)];
  let hr :=
    if int32 r0 <? 0 then
      let r0 := if Z.land r0 0x1fff0000 =? 0x00070000 then Z.land r0 0xffff else r0 in
      Some (Errno r0)
    else hr in
  mret hr.

Definition _hcnCreateEndpoint (network : hcnNetwork) (id : pointer) (settings : utf16ptr) (endpoint : pointer) (result : pointer) : M (option error) :=
  hr ← Find procHcnCreateEndpoint;
  if negb (is_nil hr) then mret hr else
  trap ← Addr procHcnCreateEndpoint;
  r0 ← SyscallN trap [Uintptr (uintptr network); Uintptr (uintptr id); Utf16Ptr settings; Uintptr (uintptr endpoint); Uintptr (uintptr result)];
  let hr :=
    if int32 r0 <? 0 then
      let r0 := if Z.land r0 0x1fff0000 =? 0x00070000 then Z.land r0 0xffff else r0 in
      Some (Errno r0)
    else hr in
  mret hr.

Definition hcnCreateEndpoint (network : hcnNetwork) (id : pointer) (settings : string) (endpoint : pointer) (result : pointer) : M (option error) :=
  let '(_p0, hr) := UTF16PtrFromString settings in
  if negb (is_nil hr) then mret hr else
  _hcnCreateEndpoint network id _p0 endpoint result.

Definition _hcnCreateLoadBalancer (id : pointer) (settings : utf16ptr) (loadBalancer : pointer) (result : pointer) : M (option error) :=
  hr ← Find procHcnCreateLoadBalancer;
  if negb (is_nil hr) then mret hr else
  trap ← Addr procHcnCreateLoadBalancer;
  r0 ← SyscallN trap [Uintptr (uintptr id); Utf16Ptr settings; Uintptr (uintptr loadBalancer); Uintptr (uintptr result)];
  let hr :=
    if int32 r0 <? 0 then
      let r0 := if Z.land r0 0x1fff0000 =? 0x00070000 then Z.land r0 0xffff else r0 in
      Some (Errno r0)
    else hr in
  mret hr.

Definition hcnCreateLoadBalancer (id : pointer) (settings : string) (loadBalancer : pointer) (result : pointer) : M (option error) :=
  let '(_p0, hr) := UTF16PtrFromString settings in
  if negb (is_nil hr) then mret hr else
  _hcnCreateLoadBalancer id _p0 loadBalancer result.

Definition _hcnCreateNamespace (id : pointer) (settings : utf16ptr) (namespace : pointer) (result : pointer) : M (option error) :=
  hr ← Find procHcnCreateNamespace;
  if negb (is_nil hr) then mret hr else
  trap ← Addr procHcnCreateNamespace;
  r0 ← SyscallN trap [Uintptr (uintptr id); Utf16Ptr settings; Uintptr (uintptr namespace); Uintptr (uintptr result)];
  let hr :=
    if int32 r0 <? 0 then
      let r0 := if Z.land r0 0x1fff0000 =? 0x00070000 then Z.land r0 0xffff else r0 in
      Some (Errno r0)
    else hr in
  mret hr.

Definition hcnCreateNamespace (id : pointer) (settings : string) (namespace : pointer) (result : pointer) : M (option error) :=
  let '(_p0, hr) := UTF16PtrFromString settings in
  if negb (is_nil hr) then mret hr else
  _hcnCreateNamespace id _p0 namespace result.

Definition _hcnCreateNetwork (id : pointer) (settings : utf16ptr) (network : pointer) (result : pointer) : M (option error) :=
  hr ← Find procHcnCreateNetwork;
  if negb (is_nil hr) then mret hr else
  trap ← Addr procHcnCreateNetwork;
  r0 ← SyscallN trap [Uintptr (uintptr id); Utf16Ptr settings; Uintptr (uintptr network); Uintptr (uintptr result)];
  let hr :=
    if int32 r0 <? 0 then
      let r0 := if Z.land r0 0x1fff0000 =? 0x00070000 then Z.land r0 0xffff else r0 in
      Some (Errno r0)
    else hr in
  mret hr.

Definition hcnCreateNetwork (id : pointer) (settings : string) (network : pointer) (result : pointer) : M (option error) :=
  let '(_p0, hr) := UTF16PtrFromString settings in
  if negb (is_nil hr) then mret hr else
  _hcnCreateNetwork id _p0 network result.

Definition _hcnCreateRoute (id : pointer) (settings : utf16ptr) (route : pointer) (result : pointer) : M (option error) :=
  hr ← Find procHcnCreateSdnRoute;
  if negb (is_nil hr) then mret hr else
  trap ← Addr procHcnCreateSdnRoute;
  r0 ← SyscallN trap [Uintptr (uintptr id); Utf16Ptr settings; Uintptr (uintptr route); Uintptr (uintptr result)];
  let hr :=
    if int32 r0 <? 0 then
      let r0 := if Z.land r0 0x1fff0000 =? 0x00070000 then Z.land r0 0xffff else r0 in
      Some (Errno r0)
    else hr in
  mret hr.

Definition hcnCreateRoute (id : pointer) (settings : string) (route : pointer) (result : pointer) : M (option error) :=
  let '(_p0, hr) := UTF16PtrFromString settings in
  if negb (is_nil hr) then mret hr else
  _hcnCreateRoute id _p0 route result.

Definition hcnDeleteEndpoint (id : pointer) (result : pointer) : M (option error) :=
  hr ← Find procHcnDeleteEndpoint;
  if negb (is_nil hr) then mret hr else
  trap ← Addr procHcnDeleteEndpoint;
  r0 ← SyscallN trap [Uintptr (uintptr id); Uintptr (uintptr result)];
  let hr :=
    if int32 r0 <? 0 then
      let r0 := if Z.land r0 0x1fff0000 =? 0x00070000 then Z.land r0 0xffff else r0 in
      Some (Errno r0)
    else hr in
  mret hr.

Definition hcnDeleteLoadBalancer (id : pointer) (result : pointer) : M (option error) :=
  hr ← Find procHcnDeleteLoadBalancer;
  if negb (is_nil hr) then mret hr else
  trap ← Addr procHcnDeleteLoadBalancer;
  r0 ← SyscallN trap [Uintptr (uintptr id); Uintptr (uintptr result)];
  let hr :=
    if int32 r0 <? 0 then
      let r0 := if Z.land r0 0x1fff0000 =? 0x00070000 then Z.land r0 0xffff else r0 in
      Some (Errno r0)
    else hr in
  mret hr.

Definition hcnDeleteNamespace (id : pointer) (result : pointer) : M (option error) :=
  hr ← Find procHcnDeleteNamespace;
  if negb (is_nil hr) then mret hr else
  trap ← Addr procHcnDeleteNamespace;
  r0 ← SyscallN trap [Uintptr (uintptr id); Uintptr (uintptr result)];
  let hr :=
    if int32 r0 <? 0 then
      let r0 := if Z.land r0 0x1fff0000 =? 0x00070000 then Z.land r0 0xffff else r0 in
      Some (Errno r0)
    else hr in
  mret hr.

Definition hcnDeleteNetwork (id : pointer) (result : pointer) : M (option error) :=
  hr ← Find procHcnDeleteNetwork;
  if negb (is_nil hr) then mret hr else
  trap ← Addr procHcnDeleteNetwork;
  r0 ← SyscallN trap [Uintptr (uintptr id); Uintptr (uintptr result)];
  let hr :=
    if int32 r0 <? 0 then
      let r0 := if Z.land r0 0x1fff0000 =? 0x00070000 then Z.land r0 0xffff else r0 in
      Some (Errno r0)
    else hr in
  mret hr.

Definition hcnDeleteRoute (id : pointer) (result : pointer) : M (option error) :=
  hr ← Find procHcnDeleteSdnRoute;
  if negb (is_nil hr) then mret hr else
  trap ← Addr procHcnDeleteSdnRoute;
  r0 ← SyscallN trap [Uintptr (uintptr id); Uintptr (uintptr result)];
  let hr :=
    if int32 r0 <? 0 then
      let r0 := if Z.land r0 0x1fff0000 =? 0x00070000 then Z.land r0 0xffff else r0 in
      Some (Errno r0)
    else hr in
  mret hr.

Definition _hcnEnumerateEndpoints (query : utf16ptr) (endpoints : pointer) (result : pointer) : M (option error) :=
  hr ← Find procHcnEnumerateEndpoints;
  if negb (is_nil hr) then mret hr else
  trap ← Addr procHcnEnumerateEndpoints;
  r0 ← SyscallN trap [Utf16Ptr query; Uintptr (uintptr endpoints); Uintptr (uintptr result)];
  let hr :=
    if int32 r0 <? 0 then
      let r0 := if Z.land r0 0x1fff0000 =? 0x00070000 then Z.land r0 0xffff else r0 in
      Some (Errno r0)
    else hr in
  mret hr.

Definition hcnEnumerateEndpoints (query : string) (endpoints : pointer) (result : pointer) : M (option error) :=
  let '(_p0, hr) := UTF16PtrFromString query in
  if negb (is_nil hr) then mret hr else
  _hcnEnumerateEndpoints _p0 endpoints result.

Definition _hcnEnumerateLoadBalancers (query : utf16ptr) (loadBalancers : pointer) (result : pointer) : M (option error) :=
  hr ← Find procHcnEnumerateLoadBalancers;
  if negb (is_nil hr) then mret hr else
  trap ← Addr procHcnEnumerateLoadBalancers;
  r0 ← SyscallN trap [Utf16Ptr query; Uintptr (uintptr loadBalancers); Uintptr (uintptr result)];
  let hr :=
    if int32 r0 <? 0 then
      let r0 := if Z.land r0 0x1fff0000 =? 0x00070000 then Z.land r0 0xffff else r0 in
      Some (Errno r0)
    else hr in
  mret hr.

Definition hcnEnumerateLoadBalancers (query : string) (loadBalancers : pointer) (result : pointer) : M (option error) :=
  let '(_p0, hr) := UTF16PtrFromString query in
  if negb (is_nil hr) then mret hr else
  _hcnEnumerateLoadBalancers _p0 loadBalancers result.

Definition _hcnEnumerateNamespaces (query : utf16ptr) (namespaces : pointer) (result : pointer) : M (option error) :=
  hr ← Find procHcnEnumerateNamespaces;
  if negb (is_nil hr) then mret hr else
  trap ← Addr procHcnEnumerateNamespaces;
  r0 ← SyscallN trap [Utf16Ptr query; Uintptr (uintptr namespaces); Uintptr (uintptr result)];
  let hr :=
    if int32 r0 <? 0 then
      let r0 := if Z.land r0 0x1fff0000 =? 0x00070000 then Z.land r0 0xffff else r0 in
      Some (Errno r0)
    else hr in
  mret hr.

Definition hcnEnumerateNamespaces (query : string) (namespaces : pointer) (result : pointer) : M (option error) :=
  let '(_p0, hr) := UTF16PtrFromString query in
  if negb (is_nil hr) then mret hr else
  _hcnEnumerateNamespaces _p0 namespaces result.

Definition _hcnEnumerateNetworks (query : utf16ptr) (networks : pointer) (result : pointer) : M (option error) :=
  hr ← Find procHcnEnumerateNetworks;
  if negb (is_nil hr) then mret hr else
  trap ← Addr procHcnEnumerateNetworks;
  r0 ← SyscallN trap [Utf16Ptr query; Uintptr (uintptr networks); Uintptr (uintptr result)];
  let hr :=
    if int32 r0 <? 0 then
      let r0 := if Z.land r0 0x1fff0000 =? 0x00070000 then Z.land r0 0xffff else r0 in
      Some (Errno r0)
    else hr in
  mret hr.

Definition hcnEnumerateNetworks (query : string) (networks : pointer) (result : pointer) : M (option error) :=
  let '(_p0, hr) := UTF16PtrFromString query in
  if negb (is_nil hr) then mret hr else
  _hcnEnumerateNetworks _p0 networks result.

Definition _hcnEnumerateRoutes (query : utf16ptr) (routes : pointer) (result : pointer) : M (option error) :=
  hr ← Find procHcnEnumerateSdnRoutes;
  if negb (is_nil hr) then mret hr else
  trap ← Addr procHcnEnumerateSdnRoutes;
  r0 ← SyscallN trap [Utf16Ptr query; Uintptr (uintptr routes); Uintptr (uintptr result)];
  let hr :=
    if int32 r0 <? 0 then
      let r0 := if Z.land r0 0x1fff0000 =? 0x00070000 then Z.land r0 0xffff else r0 in
      Some (Errno r0)
    else hr in
  mret hr.

Definition hcnEnumerateRoutes (query : string) (routes : pointer) (result : pointer) : M (option error) :=
  let '(_p0, hr) := UTF16PtrFromString query in
  if negb (is_nil hr) then mret hr else
  _hcnEnumerateRoutes _p0 routes result.

Definition _hcnModifyEndpoint (endpoint : hcnEndpoint) (settings : utf16ptr) (result : pointer) : M (option error) :=
  hr ← Find procHcnModifyEndpoint;
  if negb (is_nil hr) then mret hr else
  trap ← Addr procHcnModifyEndpoint;
  r0 ← SyscallN trap [Uintptr (uintptr endpoint); Utf16Ptr settings; Uintptr (uintptr result)];
  let hr :=
    if int32 r0 <? 0 then
      let r0 := if Z.land r0 0x1fff0000 =? 0x00070000 then Z.land r0 0xffff else r0 in
      Some (Errno r0)
    else hr in
  mret hr.

Definition hcnModifyEndpoint (endpoint : hcnEndpoint) (settings : string) (result : pointer) : M (option error) :=
  let '(_p0, hr) := UTF16PtrFromString settings in
  if negb (is_nil hr) then mret hr else
  _hcnModifyEndpoint endpoint _p0 result.

Definition _hcnModifyLoadBalancer (loadBalancer : hcnLoadBalancer) (settings : utf16ptr) (result : pointer) : M (option error) :=
  hr ← Find procHcnModifyLoadBalancer;
  if negb (is_nil hr) then mret hr else
  trap ← Addr procHcnModifyLoadBalancer;
  r0 ← SyscallN trap [Uintptr (uintptr loadBalancer); Utf16Ptr settings; Uintptr (uintptr result)];
  let hr :=
    if int32 r0 <? 0 then
      let r0 := if Z.land r0 0x1fff0000 =? 0x00070000 then Z.land r0 0xffff else r0 in
      Some (Errno r0)
    else hr in
  mret hr.

Definition hcnModifyLoadBalancer (loadBalancer : hcnLoadBalancer) (settings : string) (result : pointer) : M (option error) :=
  let '(_p0, hr) := UTF16PtrFromString settings in
  if negb (is_nil hr) then mret hr else
  _hcnModifyLoadBalancer loadBalancer _p0 result.

Definition _hcnModifyNamespace (namespace : hcnNamespace) (settings : utf16ptr) (result : pointer) : M (option error) :=
  hr ← Find procHcnModifyNamespace;
  if negb (is_nil hr) then mret hr else
  trap ← Addr procHcnModifyNamespace;
  r0 ← SyscallN trap [Uintptr (uintptr namespace); Utf16Ptr settings; Uintptr (uintptr result)];
  let hr :=
    if int32 r0 <? 0 then
      let r0 := if Z.land r0 0x1fff0000 =? 0x00070000 then Z.land r0 0xffff else r0 in
      Some (Errno r0)
    else hr in
  mret hr.

Definition hcnModifyNamespace (namespace : hcnNamespace) (settings : string) (result : pointer) : M (option error) :=
  let '(_p0, hr) := UTF16PtrFromString settings in
  if negb (is_nil hr) then mret hr else
  _hcnModifyNamespace namespace _p0 result.

Definition _hcnModifyNetwork (network : hcnNetwork) (settings : utf16ptr) (result : pointer) : M (option error) :=
  hr ← Find procHcnModifyNetwork;
  if negb (is_nil hr) then mret hr else
  trap ← Addr procHcnModifyNetwork;
  r0 ← SyscallN trap [Uintptr (uintptr network); Utf16Ptr settings; Uintptr (uintptr result)];
  let hr :=
    if int32 r0 <? 0 then
      let r0 := if Z.land r0 0x1fff0000 =? 0x00070000 then Z.land r0 0xffff else r0 in
      Some (Errno r0)
    else hr in
  mret hr.

Definition hcnModifyNetwork (network : hcnNetwork) (settings : string) (result : pointer) : M (option error) :=
  let '(_p0, hr) := UTF16PtrFromString settings in
  if negb (is_nil hr) then mret hr else
  _hcnModifyNetwork network _p0 result.

Definition _hcnModifyRoute (route : hcnRoute) (settings : utf16ptr) (result : pointer) : M (option error) :=
  hr ← Find procHcnModifySdnRoute;
  if negb (is_nil hr) then mret hr else
  trap ← Addr procHcnModifySdnRoute;
  r0 ← SyscallN trap [Uintptr (uintptr route); Utf16Ptr settings; Uintptr (uintptr result)];
  let hr :=
    if int32 r0 <? 0 then
      let r0 := if Z.land r0 0x1fff0000 =? 0x00070000 then Z.land r0 0xffff else r0 in
      Some (Errno r0)
    else hr in
  mret hr.

Definition hcnModifyRoute (route : hcnRoute) (settings : string) (result : pointer) : M (option error) :=
  let '(_p0, hr) := UTF16PtrFromString settings in
  if negb (is_nil hr) then mret hr else
  _hcnModifyRoute route _p0 result.

Definition hcnOpenEndpoint (id : pointer) (endpoint : pointer) (result : pointer) : M (option error) :=
  hr ← Find procHcnOpenEndpoint;
  if negb (is_nil hr) then mret hr else
  trap ← Addr procHcnOpenEndpoint;
  r0 ← SyscallN trap [Uintptr (uintptr id); Uintptr (uintptr endpoint); Uintptr (uintptr result)];
  let hr :=
    if int32 r0 <? 0 then
      let r0 := if Z.land r0 0x1fff0000 =? 0x00070000 then Z.land r0 0xffff else r0 in
      Some (Errno r0)
    else hr in
  mret hr.

Definition hcnOpenLoadBalancer (id : pointer) (loadBalancer : pointer) (result : pointer) : M (option error) :=
  hr ← Find procHcnOpenLoadBalancer;
  if negb (is_nil hr) then mret hr else
  trap ← Addr procHcnOpenLoadBalancer;
  r0 ← SyscallN trap [Uintptr (uintptr id); Uintptr (uintptr loadBalancer); Uintptr (uintptr result)];
  let hr :=
    if int32 r0 <? 0 then
      let r0 := if Z.land r0 0x1fff0000 =? 0x00070000 then Z.land r0 0xffff else r0 in
      Some (Errno r0)
    else hr in
  mret hr.

Definition hcnOpenNamespace (id : pointer) (namespace : pointer) (result : pointer) : M (option error) :=
  hr ← Find procHcnOpenNamespace;
  if negb (is_nil hr) then mret hr else
  trap ← Addr procHcnOpenNamespace;
  r0 ← SyscallN trap [Uintptr (uintptr id); Uintptr (uintptr namespace); Uintptr (uintptr result)];
  let hr :=
    if int32 r0 <? 0 then
      let r0 := if Z.land r0 0x1fff0000 =? 0x00070000 then Z.land r0 0xffff else r0 in
      Some (Errno r0)
    else hr in
  mret hr.

Definition hcnOpenNetwork (id : pointer) (network : pointer) (result : pointer) : M (option error) :=
  hr ← Find procHcnOpenNetwork;
  if negb (is_nil hr) then mret hr else
  trap ← Addr procHcnOpenNetwork;
  r0 ← SyscallN trap [Uintptr (uintptr id); Uintptr (uintptr network); Uintptr (uintptr result)];
  let hr :=
    if int32 r0 <? 0 then
      let r0 := if Z.land r0 0x1fff0000 =? 0x00070000 then Z.land r0 0xffff else r0 in
      Some (Errno r0)
    else hr in
  mret hr.

Definition hcnOpenRoute (id : pointer) (route : pointer) (result : pointer) : M (option error) :=
  hr ← Find procHcnOpenSdnRoute;
  if negb (is_nil hr) then mret hr else
  trap ← Addr procHcnOpenSdnRoute;
  r0 ← SyscallN trap [Uintptr (uintptr id); Uintptr (uintptr route); Uintptr (uintptr result)];
  let hr :=
    if int32 r0 <? 0 then
      let r0 := if Z.land r0 0x1fff0000 =? 0x00070000 then Z.land r0 0xffff else r0 in
      Some (Errno r0)
    else hr in
  mret hr.

Definition _hcnQueryEndpointProperties (endpoint : hcnEndpoint) (query : utf16ptr) (properties : pointer) (result : pointer) : M (option error) :=
  hr ← Find procHcnQueryEndpointProperties;
  if negb (is_nil hr) then mret hr else
  trap ← Addr procHcnQueryEndpointProperties;
  r0 ← SyscallN trap [Uintptr (uintptr endpoint); Utf16Ptr query; Uintptr (uintptr properties); Uintptr (uintptr result)];
  let hr :=
    if int32 r0 <? 0 then
      let r0 := if Z.land r0 0x1fff0000 =? 0x00070000 then Z.land r0 0xffff else r0 in
      Some (Errno r0)
    else hr in
  mret hr.

Definition hcnQueryEndpointProperties (endpoint : hcnEndpoint) (query : string) (properties : pointer) (result : pointer) : M (option error) :=
  let '(_p0, hr) := UTF16PtrFromString query in
  if negb (is_nil hr) then mret hr else
  _hcnQueryEndpointProperties endpoint _p0 properties result.

Definition _hcnQueryLoadBalancerProperties (loadBalancer : hcnLoadBalancer) (query : utf16ptr) (properties : pointer) (result : pointer) : M (option error) :=
  hr ← Find procHcnQueryLoadBalancerProperties;
  if negb (is_nil hr) then mret hr else
  trap ← Addr procHcnQueryLoadBalancerProperties;
  r0 ← SyscallN trap [Uintptr (uintptr loadBalancer); Utf16Ptr query; Uintptr (uintptr properties); Uintptr (uintptr result)];
  let hr :=
    if int32 r0 <? 0 then
      let r0 := if Z.land r0 0x1fff0000 =? 0x00070000 then Z.land r0 0xffff else r0 in
      Some (Errno r0)
    else hr in
  mret hr.

Definition hcnQueryLoadBalancerProperties (loadBalancer : hcnLoadBalancer) (query : string) (properties : pointer) (result : pointer) : M (option error) :=
  let '(_p0, hr) := UTF16PtrFromString query in
  if negb (is_nil hr) then mret hr else
  _hcnQueryLoadBalancerProperties loadBalancer _p0 properties result.

Definition _hcnQueryNamespaceProperties (namespace : hcnNamespace) (query : utf16ptr) (properties : pointer) (result : pointer) : M (option error) :=
  hr ← Find procHcnQueryNamespaceProperties;
  if negb (is_nil hr) then mret hr else
  trap ← Addr procHcnQueryNamespaceProperties;
  r0 ← SyscallN trap [Uintptr (uintptr namespace); Utf16Ptr query; Uintptr (uintptr properties); Uintptr (uintptr result)];
  let hr :=
    if int32 r0 <? 0 then
      let r0 := if Z.land r0 0x1fff0000 =? 0x00070000 then Z.land r0 0xffff else r0 in
      Some (Errno r0)
    else hr in
  mret hr.

Definition hcnQueryNamespaceProperties (namespace : hcnNamespace) (query : string) (properties : pointer) (result : pointer) : M (option error) :=
  let '(_p0, hr) := UTF16PtrFromString query in
  if negb (is_nil hr) then mret hr else
  _hcnQueryNamespaceProperties namespace _p0 properties result.

Definition _hcnQueryNetworkProperties (network : hcnNetwork) (query : utf16ptr) (properties : pointer) (result : pointer) : M (option error) :=
  hr ← Find procHcnQueryNetworkProperties;
  if negb (is_nil hr) then mret hr else
  trap ← Addr procHcnQueryNetworkProperties;
  r0 ← SyscallN trap [Uintptr (uintptr network); Utf16Ptr query; Uintptr (uintptr properties); Uintptr (uintptr result)];
  let hr :=
    if int32 r0 <? 0 then
      let r0 := if Z.land r0 0x1fff0000 =? 0x00070000 then Z.land r0 0xffff else r0 in
      Some (Errno r0)
    else hr in
  mret hr.

Definition hcnQueryNetworkProperties (network : hcnNetwork) (query : string) (properties : pointer) (result : pointer) : M (option error) :=
  let '(_p0, hr) := UTF16PtrFromString query in
  if negb (is_nil hr) then mret hr else
  _hcnQueryNetworkProperties network _p0 properties result.

Definition _hcnQueryRouteProperties (route : hcnRoute) (query : utf16ptr) (properties : pointer) (result : pointer) : M (option error) :=
  hr ← Find procHcnQuerySdnRouteProperties;
  if negb (is_nil hr) then mret hr else
  trap ← Addr procHcnQuerySdnRouteProperties;
  r0 ← SyscallN trap [Uintptr (uintptr route); Utf16Ptr query; Uintptr (uintptr properties); Uintptr (uintptr result)];
  let hr :=
    if int32 r0 <? 0 then
      let r0 := if Z.land r0 0x1fff0000 =? 0x00070000 then Z.land r0 0xffff else r0 in
      Some (Errno r0)
    else hr in
  mret hr.

Definition hcnQueryRouteProperties (route : hcnRoute) (query : string) (properties : pointer) (result : pointer) : M (option error) :=
  let '(_p0, hr) := UTF16PtrFromString query in
  if negb (is_nil hr) then mret hr else
  _hcnQueryRouteProperties route _p0 properties result.

Definition GetCurrentThreadCompartmentId : M Z :=
  trap ← Addr procGetCurrentThreadCompartmentId;
  r0 ← SyscallN trap [];
  let compartmentId := uint32 r0 in
  mret compartmentId.

Definition SetCurrentThreadCompartmentId (compartmentId : Z) : M (option error) :=
  let hr : option error := None in
  trap ← Addr procSetCurrentThreadCompartmentId;
  r0 ← SyscallN trap [Uintptr (uintptr compartmentId)];
  let hr :=
    if int32 r0 <? 0 then
      let r0 := if Z.land r0 0x1fff0000 =? 0x00070000 then Z.land r0 0xffff else r0 in
      Some (Errno r0)
    else hr in
  mret hr.

Definition __hnsCall (method : utf16ptr) (path : utf16ptr) (object : utf16ptr) (response : pointer) : M (option error) :=
  hr ← Find procHNSCall;
  if negb (is_nil hr) then mret hr else
  trap ← Addr procHNSCall;
  r0 ← SyscallN trap [Utf16Ptr method; Utf16Ptr path; Utf16Ptr object; Uintptr (uintptr response)];
  let hr :=
    if int32 r0 <? 0 then
      let r0 := if Z.land r0 0x1fff0000 =? 0x00070000 then Z.land r0 0xffff else r0 in
      Some (Errno r0)
    else hr in
  mret hr.

Definition _hnsCall (method : string) (path : string) (object : string) (response : pointer) : M (option error) :=
  let '(_p0, hr) := UTF16PtrFromString method in
  if negb (is_nil hr) then mret hr else
  let '(_p1, hr) := UTF16PtrFromString path in
  if negb (is_nil hr) then mret hr else
  let '(_p2, hr) := UTF16PtrFromString object in
  if negb (is_nil hr) then mret hr else
  __hnsCall _p0 _p1 _p2 response.

(** A call of one of the wrappers that return an [error], with its arguments. *)
Inductive call :=
| Call_hcnCloseEndpoint (endpoint : hcnEndpoint)
| Call_hcnCloseLoadBalancer (loadBalancer : hcnLoadBalancer)
| Call_hcnCloseNamespace (namespace : hcnNamespace)
| Call_hcnCloseNetwork (network : hcnNetwork)
| Call_hcnCloseRoute (route : hcnRoute)
| Call_hcnCreateEndpoint (network : hcnNetwork) (id : pointer) (settings : string) (endpoint : pointer) (result : pointer)
| Call__hcnCreateEndpoint (network : hcnNetwork) (id : pointer) (settings : utf16ptr) (endpoint : pointer) (result : pointer)
| Call_hcnCreateLoadBalancer (id : pointer) (settings : string) (loadBalancer : pointer) (result : pointer)
| Call__hcnCreateLoadBalancer (id : pointer) (settings : utf16ptr) (loadBalancer : pointer) (result : pointer)
| Call_hcnCreateNamespace (id : pointer) (settings : string) (namespace : pointer) (result : pointer)
| Call__hcnCreateNamespace (id : pointer) (settings : utf16ptr) (namespace : pointer) (result : pointer)
| Call_hcnCreateNetwork (id : pointer) (settings : string) (network : pointer) (result : pointer)
| Call__hcnCreateNetwork (id : pointer) (settings : utf16ptr) (network : pointer) (result : pointer)
| Call_hcnCreateRoute (id : pointer) (settings : string) (route : pointer) (result : pointer)
| Call__hcnCreateRoute (id : pointer) (settings : utf16ptr) (route : pointer) (result : pointer)
| Call_hcnDeleteEndpoint (id : pointer) (result : pointer)
| Call_hcnDeleteLoadBalancer (id : pointer) (result : pointer)
| Call_hcnDeleteNamespace (id : pointer) (result : pointer)
| Call_hcnDeleteNetwork (id : pointer) (result : pointer)
| Call_hcnDeleteRoute (id : pointer) (result : pointer)
| Call_hcnEnumerateEndpoints (query : string) (endpoints : pointer) (result : pointer)
| Call__hcnEnumerateEndpoints (query : utf16ptr) (endpoints : pointer) (result : pointer)
| Call_hcnEnumerateLoadBalancers (query : string) (loadBalancers : pointer) (result : pointer)
| Call__hcnEnumerateLoadBalancers (query : utf16ptr) (loadBalancers : pointer) (result : pointer)
| Call_hcnEnumerateNamespaces (query : string) (namespaces : pointer) (result : pointer)
| Call__hcnEnumerateNamespaces (query : utf16ptr) (namespaces : pointer) (result : pointer)
| Call_hcnEnumerateNetworks (query : string) (networks : pointer) (result : pointer)
| Call__hcnEnumerateNetworks (query : utf16ptr) (networks : pointer) (result : pointer)
| Call_hcnEnumerateRoutes (query : string) (routes : pointer) (result : pointer)
| Call__hcnEnumerateRoutes (query : utf16ptr) (routes : pointer) (result : pointer)
| Call_hcnModifyEndpoint (endpoint : hcnEndpoint) (settings : string) (result : pointer)
| Call__hcnModifyEndpoint (endpoint : hcnEndpoint) (settings : utf16ptr) (result : pointer)
| Call_hcnModifyLoadBalancer (loadBalancer : hcnLoadBalancer) (settings : string) (result : pointer)
| Call__hcnModifyLoadBalancer (loadBalancer : hcnLoadBalancer) (settings : utf16ptr) (result : pointer)
| Call_hcnModifyNamespace (namespace : hcnNamespace) (settings : string) (result : pointer)
| Call__hcnModifyNamespace (namespace : hcnNamespace) (settings : utf16ptr) (result : pointer)
| Call_hcnModifyNetwork (network : hcnNetwork) (settings : string) (result : pointer)
| Call__hcnModifyNetwork (network : hcnNetwork) (settings : utf16ptr) (result : pointer)
| Call_hcnModifyRoute (route : hcnRoute) (settings : string) (result : pointer)
| Call__hcnModifyRoute (route : hcnRoute) (settings : utf16ptr) (result : pointer)
| Call_hcnOpenEndpoint (id : pointer) (endpoint : pointer) (result : pointer)
| Call_hcnOpenLoadBalancer (id : pointer) (loadBalancer : pointer) (result : pointer)
| Call_hcnOpenNamespace (id : pointer) (namespace : pointer) (result : pointer)
| Call_hcnOpenNetwork (id : pointer) (network : pointer) (result : pointer)
| Call_hcnOpenRoute (id : pointer) (route : pointer) (result : pointer)
| Call_hcnQueryEndpointProperties (endpoint : hcnEndpoint) (query : string) (properties : pointer) (result : pointer)
| Call__hcnQueryEndpointProperties (endpoint : hcnEndpoint) (query : utf16ptr) (properties : pointer) (result : pointer)
| Call_hcnQueryLoadBalancerProperties (loadBalancer : hcnLoadBalancer) (query : string) (properties : pointer) (result : pointer)
| Call__hcnQueryLoadBalancerProperties (loadBalancer : hcnLoadBalancer) (query : utf16ptr) (properties : pointer) (result : pointer)
| Call_hcnQueryNamespaceProperties (namespace : hcnNamespace) (query : string) (properties : pointer) (result : pointer)
| Call__hcnQueryNamespaceProperties (namespace : hcnNamespace) (query : utf16ptr) (properties : pointer) (result : pointer)
| Call_hcnQueryNetworkProperties (network : hcnNetwork) (query : string) (properties : pointer) (result : pointer)
| Call__hcnQueryNetworkProperties (network : hcnNetwork) (query : utf16ptr) (properties : pointer) (result : pointer)
| Call_hcnQueryRouteProperties (route : hcnRoute) (query : string) (properties : pointer) (result : pointer)
| Call__hcnQueryRouteProperties (route : hcnRoute) (query : utf16ptr) (properties : pointer) (result : pointer)
| Call_SetCurrentThreadCompartmentId (compartmentId : Z)
| Call__hnsCall (method : string) (path : string) (object : string) (response : pointer)
| Call___hnsCall (method : utf16ptr) (path : utf16ptr) (object : utf16ptr) (response : pointer).

Definition run (c : call) : M (option error) :=
  match c with
  | Call_hcnCloseEndpoint endpoint => hcnCloseEndpoint endpoint
  | Call_hcnCloseLoadBalancer loadBalancer => hcnCloseLoadBalancer loadBalancer
  | Call_hcnCloseNamespace namespace => hcnCloseNamespace namespace
  | Call_hcnCloseNetwork network => hcnCloseNetwork network
  | Call_hcnCloseRoute route => hcnCloseRoute route
  | Call_hcnCreateEndpoint network id settings endpoint result => hcnCreateEndpoint network id settings endpoint result
  | Call__hcnCreateEndpoint network id settings endpoint result => _hcnCreateEndpoint network id settings endpoint result
  | Call_hcnCreateLoadBalancer id settings loadBalancer result => hcnCreateLoadBalancer id settings loadBalancer result
  | Call__hcnCreateLoadBalancer id settings loadBalancer result => _hcnCreateLoadBalancer id settings loadBalancer result
  | Call_hcnCreateNamespace id settings namespace result => hcnCreateNamespace id settings namespace result
  | Call__hcnCreateNamespace id settings namespace result => _hcnCreateNamespace id settings namespace result
  | Call_hcnCreateNetwork id settings network result => hcnCreateNetwork id settings network result
  | Call__hcnCreateNetwork id settings network result => _hcnCreateNetwork id settings network result
  | Call_hcnCreateRoute id settings route result => hcnCreateRoute id settings route result
  | Call__hcnCreateRoute id settings route result => _hcnCreateRoute id settings route result
  | Call_hcnDeleteEndpoint id result => hcnDeleteEndpoint id result
  | Call_hcnDeleteLoadBalancer id result => hcnDeleteLoadBalancer id result
  | Call_hcnDeleteNamespace id result => hcnDeleteNamespace id result
  | Call_hcnDeleteNetwork id result => hcnDeleteNetwork id result
  | Call_hcnDeleteRoute id result => hcnDeleteRoute id result
  | Call_hcnEnumerateEndpoints query endpoints result => hcnEnumerateEndpoints query endpoints result
  | Call__hcnEnumerateEndpoints query endpoints result => _hcnEnumerateEndpoints query endpoints result
  | Call_hcnEnumerateLoadBalancers query loadBalancers result => hcnEnumerateLoadBalancers query loadBalancers result
  | Call__hcnEnumerateLoadBalancers query loadBalancers result => _hcnEnumerateLoadBalancers query loadBalancers result
  | Call_hcnEnumerateNamespaces query namespaces result => hcnEnumerateNamespaces query namespaces result
  | Call__hcnEnumerateNamespaces query namespaces result => _hcnEnumerateNamespaces query namespaces result
  | Call_hcnEnumerateNetworks query networks result => hcnEnumerateNetworks query networks result
  | Call__hcnEnumerateNetworks query networks result => _hcnEnumerateNetworks query networks result
  | Call_hcnEnumerateRoutes query routes result => hcnEnumerateRoutes query routes result
  | Call__hcnEnumerateRoutes query routes result => _hcnEnumerateRoutes query routes result
  | Call_hcnModifyEndpoint endpoint settings result => hcnModifyEndpoint endpoint settings result
  | Call__hcnModifyEndpoint endpoint settings result => _hcnModifyEndpoint endpoint settings result
  | Call_hcnModifyLoadBalancer loadBalancer settings result => hcnModifyLoadBalancer loadBalancer settings result
  | Call__hcnModifyLoadBalancer loadBalancer settings result => _hcnModifyLoadBalancer loadBalancer settings result
  | Call_hcnModifyNamespace namespace settings result => hcnModifyNamespace namespace settings result
  | Call__hcnModifyNamespace namespace settings result => _hcnModifyNamespace namespace settings result
  | Call_hcnModifyNetwork network settings result => hcnModifyNetwork network settings result
  | Call__hcnModifyNetwork network settings result => _hcnModifyNetwork network settings result
  | Call_hcnModifyRoute route settings result => hcnModifyRoute route settings result
  | Call__hcnModifyRoute route settings result => _hcnModifyRoute route settings result
  | Call_hcnOpenEndpoint id endpoint result => hcnOpenEndpoint id endpoint result
  | Call_hcnOpenLoadBalancer id loadBalancer result => hcnOpenLoadBalancer id loadBalancer result
  | Call_hcnOpenNamespace id namespace result => hcnOpenNamespace id namespace result
  | Call_hcnOpenNetwork id network result => hcnOpenNetwork id network result
  | Call_hcnOpenRoute id route result => hcnOpenRoute id route result
  | Call_hcnQueryEndpointProperties endpoint query properties result => hcnQueryEndpointProperties endpoint query properties result
  | Call__hcnQueryEndpointProperties endpoint query properties result => _hcnQueryEndpointProperties endpoint query properties result
  | Call_hcnQueryLoadBalancerProperties loadBalancer query properties result => hcnQueryLoadBalancerProperties loadBalancer query properties result
  | Call__hcnQueryLoadBalancerProperties loadBalancer query properties result => _hcnQueryLoadBalancerProperties loadBalancer query properties result
  | Call_hcnQueryNamespaceProperties namespace query properties result => hcnQueryNamespaceProperties namespace query properties result
  | Call__hcnQueryNamespaceProperties namespace query properties result => _hcnQueryNamespaceProperties namespace query properties result
  | Call_hcnQueryNetworkProperties network query properties result => hcnQueryNetworkProperties network query properties result
  | Call__hcnQueryNetworkProperties network query properties result => _hcnQueryNetworkProperties network query properties result
  | Call_hcnQueryRouteProperties route query properties result => hcnQueryRouteProperties route query properties result
  | Call__hcnQueryRouteProperties route query properties result => _hcnQueryRouteProperties route query properties result
  | Call_SetCurrentThreadCompartmentId compartmentId => SetCurrentThreadCompartmentId compartmentId
  | Call__hnsCall method path object response => _hnsCall method path object response
  | Call___hnsCall method path object response => __hnsCall method path object response
  end.

(** ** Views of a call *)

(** The entry point a call redeems. *)
Definition proc_of (c : call) : LazyProc :=
  match c with
  | Call_hcnCloseEndpoint _ => procHcnCloseEndpoint
  | Call_hcnCloseLoadBalancer _ => procHcnCloseLoadBalancer
  | Call_hcnCloseNamespace _ => procHcnCloseNamespace
  | Call_hcnCloseNetwork _ => procHcnCloseNetwork
  | Call_hcnCloseRoute _ => procHcnCloseSdnRoute
  | Call_hcnCreateEndpoint _ _ _ _ _ => procHcnCreateEndpoint
  | Call__hcnCreateEndpoint _ _ _ _ _ => procHcnCreateEndpoint
  | Call_hcnCreateLoadBalancer _ _ _ _ => procHcnCreateLoadBalancer
  | Call__hcnCreateLoadBalancer _ _ _ _ => procHcnCreateLoadBalancer
  | Call_hcnCreateNamespace _ _ _ _ => procHcnCreateNamespace
  | Call__hcnCreateNamespace _ _ _ _ => procHcnCreateNamespace
  | Call_hcnCreateNetwork _ _ _ _ => procHcnCreateNetwork
  | Call__hcnCreateNetwork _ _ _ _ => procHcnCreateNetwork
  | Call_hcnCreateRoute _ _ _ _ => procHcnCreateSdnRoute
  | Call__hcnCreateRoute _ _ _ _ => procHcnCreateSdnRoute
  | Call_hcnDeleteEndpoint _ _ => procHcnDeleteEndpoint
  | Call_hcnDeleteLoadBalancer _ _ => procHcnDeleteLoadBalancer
  | Call_hcnDeleteNamespace _ _ => procHcnDeleteNamespace
  | Call_hcnDeleteNetwork _ _ => procHcnDeleteNetwork
  | Call_hcnDeleteRoute _ _ => procHcnDeleteSdnRoute
  | Call_hcnEnumerateEndpoints _ _ _ => procHcnEnumerateEndpoints
  | Call__hcnEnumerateEndpoints _ _ _ => procHcnEnumerateEndpoints
  | Call_hcnEnumerateLoadBalancers _ _ _ => procHcnEnumerateLoadBalancers
  | Call__hcnEnumerateLoadBalancers _ _ _ => procHcnEnumerateLoadBalancers
  | Call_hcnEnumerateNamespaces _ _ _ => procHcnEnumerateNamespaces
  | Call__hcnEnumerateNamespaces _ _ _ => procHcnEnumerateNamespaces
  | Call_hcnEnumerateNetworks _ _ _ => procHcnEnumerateNetworks
  | Call__hcnEnumerateNetworks _ _ _ => procHcnEnumerateNetworks
  | Call_hcnEnumerateRoutes _ _ _ => procHcnEnumerateSdnRoutes
  | Call__hcnEnumerateRoutes _ _ _ => procHcnEnumerateSdnRoutes
  | Call_hcnModifyEndpoint _ _ _ => procHcnModifyEndpoint
  | Call__hcnModifyEndpoint _ _ _ => procHcnModifyEndpoint
  | Call_hcnModifyLoadBalancer _ _ _ => procHcnModifyLoadBalancer
  | Call__hcnModifyLoadBalancer _ _ _ => procHcnModifyLoadBalancer
  | Call_hcnModifyNamespace _ _ _ => procHcnModifyNamespace
  | Call__hcnModifyNamespace _ _ _ => procHcnModifyNamespace
  | Call_hcnModifyNetwork _ _ _ => procHcnModifyNetwork
  | Call__hcnModifyNetwork _ _ _ => procHcnModifyNetwork
  | Call_hcnModifyRoute _ _ _ => procHcnModifySdnRoute
  | Call__hcnModifyRoute _ _ _ => procHcnModifySdnRoute
  | Call_hcnOpenEndpoint _ _ _ => procHcnOpenEndpoint
  | Call_hcnOpenLoadBalancer _ _ _ => procHcnOpenLoadBalancer
  | Call_hcnOpenNamespace _ _ _ => procHcnOpenNamespace
  | Call_hcnOpenNetwork _ _ _ => procHcnOpenNetwork
  | Call_hcnOpenRoute _ _ _ => procHcnOpenSdnRoute
  | Call_hcnQueryEndpointProperties _ _ _ _ => procHcnQueryEndpointProperties
  | Call__hcnQueryEndpointProperties _ _ _ _ => procHcnQueryEndpointProperties
  | Call_hcnQueryLoadBalancerProperties _ _ _ _ => procHcnQueryLoadBalancerProperties
  | Call__hcnQueryLoadBalancerProperties _ _ _ _ => procHcnQueryLoadBalancerProperties
  | Call_hcnQueryNamespaceProperties _ _ _ _ => procHcnQueryNamespaceProperties
  | Call__hcnQueryNamespaceProperties _ _ _ _ => procHcnQueryNamespaceProperties
  | Call_hcnQueryNetworkProperties _ _ _ _ => procHcnQueryNetworkProperties
  | Call__hcnQueryNetworkProperties _ _ _ _ => procHcnQueryNetworkProperties
  | Call_hcnQueryRouteProperties _ _ _ _ => procHcnQuerySdnRouteProperties
  | Call__hcnQueryRouteProperties _ _ _ _ => procHcnQuerySdnRouteProperties
  | Call_SetCurrentThreadCompartmentId _ => procSetCurrentThreadCompartmentId
  | Call__hnsCall _ _ _ _ => procHNSCall
  | Call___hnsCall _ _ _ _ => procHNSCall
  end.

(** The string arguments of a call, in the order they are converted. *)
Definition strings_of (c : call) : list string :=
  match c with
  | Call_hcnCloseEndpoint _ => []
  | Call_hcnCloseLoadBalancer _ => []
  | Call_hcnCloseNamespace _ => []
  | Call_hcnCloseNetwork _ => []
  | Call_hcnCloseRoute _ => []
  | Call_hcnCreateEndpoint _ _ settings _ _ => [settings]
  | Call__hcnCreateEndpoint _ _ _ _ _ => []
  | Call_hcnCreateLoadBalancer _ settings _ _ => [settings]
  | Call__hcnCreateLoadBalancer _ _ _ _ => []
  | Call_hcnCreateNamespace _ settings _ _ => [settings]
  | Call__hcnCreateNamespace _ _ _ _ => []
  | Call_hcnCreateNetwork _ settings _ _ => [settings]
  | Call__hcnCreateNetwork _ _ _ _ => []
  | Call_hcnCreateRoute _ settings _ _ => [settings]
  | Call__hcnCreateRoute _ _ _ _ => []
  | Call_hcnDeleteEndpoint _ _ => []
  | Call_hcnDeleteLoadBalancer _ _ => []
  | Call_hcnDeleteNamespace _ _ => []
  | Call_hcnDeleteNetwork _ _ => []
  | Call_hcnDeleteRoute _ _ => []
  | Call_hcnEnumerateEndpoints query _ _ => [query]
  | Call__hcnEnumerateEndpoints _ _ _ => []
  | Call_hcnEnumerateLoadBalancers query _ _ => [query]
  | Call__hcnEnumerateLoadBalancers _ _ _ => []
  | Call_hcnEnumerateNamespaces query _ _ => [query]
  | Call__hcnEnumerateNamespaces _ _ _ => []
  | Call_hcnEnumerateNetworks query _ _ => [query]
  | Call__hcnEnumerateNetworks _ _ _ => []
  | Call_hcnEnumerateRoutes query _ _ => [query]
  | Call__hcnEnumerateRoutes _ _ _ => []
  | Call_hcnModifyEndpoint _ settings _ => [settings]
  | Call__hcnModifyEndpoint _ _ _ => []
  | Call_hcnModifyLoadBalancer _ settings _ => [settings]
  | Call__hcnModifyLoadBalancer _ _ _ => []
  | Call_hcnModifyNamespace _ settings _ => [settings]
  | Call__hcnModifyNamespace _ _ _ => []
  | Call_hcnModifyNetwork _ settings _ => [settings]
  | Call__hcnModifyNetwork _ _ _ => []
  | Call_hcnModifyRoute _ settings _ => [settings]
  | Call__hcnModifyRoute _ _ _ => []
  | Call_hcnOpenEndpoint _ _ _ => []
  | Call_hcnOpenLoadBalancer _ _ _ => []
  | Call_hcnOpenNamespace _ _ _ => []
  | Call_hcnOpenNetwork _ _ _ => []
  | Call_hcnOpenRoute _ _ _ => []
  | Call_hcnQueryEndpointProperties _ query _ _ => [query]
  | Call__hcnQueryEndpointProperties _ _ _ _ => []
  | Call_hcnQueryLoadBalancerProperties _ query _ _ => [query]
  | Call__hcnQueryLoadBalancerProperties _ _ _ _ => []
  | Call_hcnQueryNamespaceProperties _ query _ _ => [query]
  | Call__hcnQueryNamespaceProperties _ _ _ _ => []
  | Call_hcnQueryNetworkProperties _ query _ _ => [query]
  | Call__hcnQueryNetworkProperties _ _ _ _ => []
  | Call_hcnQueryRouteProperties _ query _ _ => [query]
  | Call__hcnQueryRouteProperties _ _ _ _ => []
  | Call_SetCurrentThreadCompartmentId _ => []
  | Call__hnsCall method path object _ => [method; path; object]
  | Call___hnsCall _ _ _ _ => []
  end.

(** The handle a call operates on, when it takes one. *)
Definition handle_of (c : call) : option Z :=
  match c with
  | Call_hcnCloseEndpoint endpoint => Some endpoint
  | Call_hcnCloseLoadBalancer loadBalancer => Some loadBalancer
  | Call_hcnCloseNamespace namespace => Some namespace
  | Call_hcnCloseNetwork network => Some network
  | Call_hcnCloseRoute route => Some route
  | Call_hcnCreateEndpoint network _ _ _ _ => Some network
  | Call__hcnCreateEndpoint network _ _ _ _ => Some network
  | Call_hcnCreateLoadBalancer _ _ _ _ => None
  | Call__hcnCreateLoadBalancer _ _ _ _ => None
  | Call_hcnCreateNamespace _ _ _ _ => None
  | Call__hcnCreateNamespace _ _ _ _ => None
  | Call_hcnCreateNetwork _ _ _ _ => None
  | Call__hcnCreateNetwork _ _ _ _ => None
  | Call_hcnCreateRoute _ _ _ _ => None
  | Call__hcnCreateRoute _ _ _ _ => None
  | Call_hcnDeleteEndpoint _ _ => None
  | Call_hcnDeleteLoadBalancer _ _ => None
  | Call_hcnDeleteNamespace _ _ => None
  | Call_hcnDeleteNetwork _ _ => None
  | Call_hcnDeleteRoute _ _ => None
  | Call_hcnEnumerateEndpoints _ _ _ => None
  | Call__hcnEnumerateEndpoints _ _ _ => None
  | Call_hcnEnumerateLoadBalancers _ _ _ => None
  | Call__hcnEnumerateLoadBalancers _ _ _ => None
  | Call_hcnEnumerateNamespaces _ _ _ => None
  | Call__hcnEnumerateNamespaces _ _ _ => None
  | Call_hcnEnumerateNetworks _ _ _ => None
  | Call__hcnEnumerateNetworks _ _ _ => None
  | Call_hcnEnumerateRoutes _ _ _ => None
  | Call__hcnEnumerateRoutes _ _ _ => None
  | Call_hcnModifyEndpoint endpoint _ _ => Some endpoint
  | Call__hcnModifyEndpoint endpoint _ _ => Some endpoint
  | Call_hcnModifyLoadBalancer loadBalancer _ _ => Some loadBalancer
  | Call__hcnModifyLoadBalancer loadBalancer _ _ => Some loadBalancer
  | Call_hcnModifyNamespace namespace _ _ => Some namespace
  | Call__hcnModifyNamespace namespace _ _ => Some namespace
  | Call_hcnModifyNetwork network _ _ => Some network
  | Call__hcnModifyNetwork network _ _ => Some network
  | Call_hcnModifyRoute route _ _ => Some route
  | Call__hcnModifyRoute route _ _ => Some route
  | Call_hcnOpenEndpoint _ _ _ => None
  | Call_hcnOpenLoadBalancer _ _ _ => None
  | Call_hcnOpenNamespace _ _ _ => None
  | Call_hcnOpenNetwork _ _ _ => None
  | Call_hcnOpenRoute _ _ _ => None
  | Call_hcnQueryEndpointProperties endpoint _ _ _ => Some endpoint
  | Call__hcnQueryEndpointProperties endpoint _ _ _ => Some endpoint
  | Call_hcnQueryLoadBalancerProperties loadBalancer _ _ _ => Some loadBalancer
  | Call__hcnQueryLoadBalancerProperties loadBalancer _ _ _ => Some loadBalancer
  | Call_hcnQueryNamespaceProperties namespace _ _ _ => Some namespace
  | Call__hcnQueryNamespaceProperties namespace _ _ _ => Some namespace
  | Call_hcnQueryNetworkProperties network _ _ _ => Some network
  | Call__hcnQueryNetworkProperties network _ _ _ => Some network
  | Call_hcnQueryRouteProperties route _ _ _ => Some route
  | Call__hcnQueryRouteProperties route _ _ _ => Some route
  | Call_SetCurrentThreadCompartmentId _ => None
  | Call__hnsCall _ _ _ _ => None
  | Call___hnsCall _ _ _ _ => None
  end.

(** The arguments a call hands to the native entry point. *)
Definition args_of (c : call) : list arg :=
  match c with
  | Call_hcnCloseEndpoint endpoint =>
      [Uintptr (uintptr endpoint)]
  | Call_hcnCloseLoadBalancer loadBalancer =>
      [Uintptr (uintptr loadBalancer)]
  | Call_hcnCloseNamespace namespace =>
      [Uintptr (uintptr namespace)]
  | Call_hcnCloseNetwork network =>
      [Uintptr (uintptr network)]
  | Call_hcnCloseRoute route =>
      [Uintptr (uintptr route)]
  | Call_hcnCreateEndpoint network id settings endpoint result =>
      [Uintptr (uintptr network); Uintptr (uintptr id); Utf16Ptr (fst (UTF16PtrFromString settings)); Uintptr (uintptr endpoint); Uintptr (uintptr result)]
  | Call__hcnCreateEndpoint network id settings endpoint result =>
      [Uintptr (uintptr network); Uintptr (uintptr id); Utf16Ptr settings; Uintptr (uintptr endpoint); Uintptr (uintptr result)]
  | Call_hcnCreateLoadBalancer id settings loadBalancer result =>
      [Uintptr (uintptr id); Utf16Ptr (fst (UTF16PtrFromString settings)); Uintptr (uintptr loadBalancer); Uintptr (uintptr result)]
  | Call__hcnCreateLoadBalancer id settings loadBalancer result =>
      [Uintptr (uintptr id); Utf16Ptr settings; Uintptr (uintptr loadBalancer); Uintptr (uintptr result)]
  | Call_hcnCreateNamespace id settings namespace result =>
      [Uintptr (uintptr id); Utf16Ptr (fst (UTF16PtrFromString settings)); Uintptr (uintptr namespace); Uintptr (uintptr result)]
  | Call__hcnCreateNamespace id settings namespace result =>
      [Uintptr (uintptr id); Utf16Ptr settings; Uintptr (uintptr namespace); Uintptr (uintptr result)]
  | Call_hcnCreateNetwork id settings network result =>
      [Uintptr (uintptr id); Utf16Ptr (fst (UTF16PtrFromString settings)); Uintptr (uintptr network); Uintptr (uintptr result)]
  | Call__hcnCreateNetwork id settings network result =>
      [Uintptr (uintptr id); Utf16Ptr settings; Uintptr (uintptr network); Uintptr (uintptr result)]
  | Call_hcnCreateRoute id settings route result =>
      [Uintptr (uintptr id); Utf16Ptr (fst (UTF16PtrFromString settings)); Uintptr (uintptr route); Uintptr (uintptr result)]
  | Call__hcnCreateRoute id settings route result =>
      [Uintptr (uintptr id); Utf16Ptr settings; Uintptr (uintptr route); Uintptr (uintptr result)]
  | Call_hcnDeleteEndpoint id result =>
      [Uintptr (uintptr id); Uintptr (uintptr result)]
  | Call_hcnDeleteLoadBalancer id result =>
      [Uintptr (uintptr id); Uintptr (uintptr result)]
  | Call_hcnDeleteNamespace id result =>
      [Uintptr (uintptr id); Uintptr (uintptr result)]
  | Call_hcnDeleteNetwork id result =>
      [Uintptr (uintptr id); Uintptr (uintptr result)]
  | Call_hcnDeleteRoute id result =>
      [Uintptr (uintptr id); Uintptr (uintptr result)]
  | Call_hcnEnumerateEndpoints query endpoints result =>
      [Utf16Ptr (fst (UTF16PtrFromString query)); Uintptr (uintptr endpoints); Uintptr (uintptr result)]
  | Call__hcnEnumerateEndpoints query endpoints result =>
      [Utf16Ptr query; Uintptr (uintptr endpoints); Uintptr (uintptr result)]
  | Call_hcnEnumerateLoadBalancers query loadBalancers result =>
      [Utf16Ptr (fst (UTF16PtrFromString query)); Uintptr (uintptr loadBalancers); Uintptr (uintptr result)]
  | Call__hcnEnumerateLoadBalancers query loadBalancers result =>
      [Utf16Ptr query; Uintptr (uintptr loadBalancers); Uintptr (uintptr result)]
  | Call_hcnEnumerateNamespaces query namespaces result =>
      [Utf16Ptr (fst (UTF16PtrFromString query)); Uintptr (uintptr namespaces); Uintptr (uintptr result)]
  | Call__hcnEnumerateNamespaces query namespaces result =>
      [Utf16Ptr query; Uintptr (uintptr namespaces); Uintptr (uintptr result)]
  | Call_hcnEnumerateNetworks query networks result =>
      [Utf16Ptr (fst (UTF16PtrFromString query)); Uintptr (uintptr networks); Uintptr (uintptr result)]
  | Call__hcnEnumerateNetworks query networks result =>
      [Utf16Ptr query; Uintptr (uintptr networks); Uintptr (uintptr result)]
  | Call_hcnEnumerateRoutes query routes result =>
      [Utf16Ptr (fst (UTF16PtrFromString query)); Uintptr (uintptr routes); Uintptr (uintptr result)]
  | Call__hcnEnumerateRoutes query routes result =>
      [Utf16Ptr query; Uintptr (uintptr routes); Uintptr (uintptr result)]
  | Call_hcnModifyEndpoint endpoint settings result =>
      [Uintptr (uintptr endpoint); Utf16Ptr (fst (UTF16PtrFromString settings)); Uintptr (uintptr result)]
  | Call__hcnModifyEndpoint endpoint settings result =>
      [Uintptr (uintptr endpoint); Utf16Ptr settings; Uintptr (uintptr result)]
  | Call_hcnModifyLoadBalancer loadBalancer settings result =>
      [Uintptr (uintptr loadBalancer); Utf16Ptr (fst (UTF16PtrFromString settings)); Uintptr (uintptr result)]
  | Call__hcnModifyLoadBalancer loadBalancer settings result =>
      [Uintptr (uintptr loadBalancer); Utf16Ptr settings; Uintptr (uintptr result)]
  | Call_hcnModifyNamespace namespace settings result =>
      [Uintptr (uintptr namespace); Utf16Ptr (fst (UTF16PtrFromString settings)); Uintptr (uintptr result)]
  | Call__hcnModifyNamespace namespace settings result =>
      [Uintptr (uintptr namespace); Utf16Ptr settings; Uintptr (uintptr result)]
  | Call_hcnModifyNetwork network settings result =>
      [Uintptr (uintptr network); Utf16Ptr (fst (UTF16PtrFromString settings)); Uintptr (uintptr result)]
  | Call__hcnModifyNetwork network settings result =>
      [Uintptr (uintptr network); Utf16Ptr settings; Uintptr (uintptr result)]
  | Call_hcnModifyRoute route settings result =>
      [Uintptr (uintptr route); Utf16Ptr (fst (UTF16PtrFromString settings)); Uintptr (uintptr result)]
  | Call__hcnModifyRoute route settings result =>
      [Uintptr (uintptr route); Utf16Ptr settings; Uintptr (uintptr result)]
  | Call_hcnOpenEndpoint id endpoint result =>
      [Uintptr (uintptr id); Uintptr (uintptr endpoint); Uintptr (uintptr result)]
  | Call_hcnOpenLoadBalancer id loadBalancer result =>
      [Uintptr (uintptr id); Uintptr (uintptr loadBalancer); Uintptr (uintptr result)]
  | Call_hcnOpenNamespace id namespace result =>
      [Uintptr (uintptr id); Uintptr (uintptr namespace); Uintptr (uintptr result)]
  | Call_hcnOpenNetwork id network result =>
      [Uintptr (uintptr id); Uintptr (uintptr network); Uintptr (uintptr result)]
  | Call_hcnOpenRoute id route result =>
      [Uintptr (uintptr id); Uintptr (uintptr route); Uintptr (uintptr result)]
  | Call_hcnQueryEndpointProperties endpoint query properties result =>
      [Uintptr (uintptr endpoint); Utf16Ptr (fst (UTF16PtrFromString query)); Uintptr (uintptr properties); Uintptr (uintptr result)]
  | Call__hcnQueryEndpointProperties endpoint query properties result =>
      [Uintptr (uintptr endpoint); Utf16Ptr query; Uintptr (uintptr properties); Uintptr (uintptr result)]
  | Call_hcnQueryLoadBalancerProperties loadBalancer query properties result =>
      [Uintptr (uintptr loadBalancer); Utf16Ptr (fst (UTF16PtrFromString query)); Uintptr (uintptr properties); Uintptr (uintptr result)]
  | Call__hcnQueryLoadBalancerProperties loadBalancer query properties result =>
      [Uintptr (uintptr loadBalancer); Utf16Ptr query; Uintptr (uintptr properties); Uintptr (uintptr result)]
  | Call_hcnQueryNamespaceProperties namespace query properties result =>
      [Uintptr (uintptr namespace); Utf16Ptr (fst (UTF16PtrFromString query)); Uintptr (uintptr properties); Uintptr (uintptr result)]
  | Call__hcnQueryNamespaceProperties namespace query properties result =>
      [Uintptr (uintptr namespace); Utf16Ptr query; Uintptr (uintptr properties); Uintptr (uintptr result)]
  | Call_hcnQueryNetworkProperties network query properties result =>
      [Uintptr (uintptr network); Utf16Ptr (fst (UTF16PtrFromString query)); Uintptr (uintptr properties); Uintptr (uintptr result)]
  | Call__hcnQueryNetworkProperties network query properties result =>
      [Uintptr (uintptr network); Utf16Ptr query; Uintptr (uintptr properties); Uintptr (uintptr result)]
  | Call_hcnQueryRouteProperties route query properties result =>
      [Uintptr (uintptr route); Utf16Ptr (fst (UTF16PtrFromString query)); Uintptr (uintptr properties); Uintptr (uintptr result)]
  | Call__hcnQueryRouteProperties route query properties result =>
      [Uintptr (uintptr route); Utf16Ptr query; Uintptr (uintptr properties); Uintptr (uintptr result)]
  | Call_SetCurrentThreadCompartmentId compartmentId =>
      [Uintptr (uintptr compartmentId)]
  | Call__hnsCall method path object response =>
      [Utf16Ptr (fst (UTF16PtrFromString method)); Utf16Ptr (fst (UTF16PtrFromString path)); Utf16Ptr (fst (UTF16PtrFromString object)); Uintptr (uintptr response)]
  | Call___hnsCall method path object response =>
      [Utf16Ptr method; Utf16Ptr path; Utf16Ptr object; Uintptr (uintptr response)]
  end.

(** ** What the properties are stated with *)

(** The status decoding rule in the spec's words: the status word is read as
    a signed 32-bit integer and a negative value is a failure; a failure whose
    bits under [0x1fff0000] are [0x00070000] is reported as its low 16 bits,
    any other failure as the raw value; zero or positive is success. *)
Definition decode_status (r0 : Z) : option error :=
  if int32 r0 <? 0 then
    if Z.land r0 0x1fff0000 =? 0x00070000
    then Some (Errno (Z.land r0 0xffff))
    else Some (Errno r0)
  else None.

(** The error of the first string whose conversion fails. *)
Fixpoint first_error (ss : list string) : option error :=
  match ss with
  | [] => None
  | s :: ss' =>
      match snd (UTF16PtrFromString s) with
      | Some e => Some e
      | None => first_error ss'
      end
  end.

(** What resolving an entry point gives in [w]: the cached address, or the
    one the host gives when its library loads, or the error of the library or
    of the procedure that is missing. *)
Definition resolve (p : LazyProc) (w : World) : Z + error :=
  match bound w !! proc_key p with
  | Some a => inl a
  | None =>
      if bool_decide (dllName (procDLL p) ∈ loaded w) || host_dll (dllName (procDLL p))
      then match host_proc (dllName (procDLL p)) (procName p) with
           | Some a => inl a
           | None => inr (DLLError (procName p))
           end
      else inr (DLLError (dllName (procDLL p)))
  end.

(** The status word the native code at [trap] returns on [args] in memory [m],
    as [SyscallN] hands it to the wrapper. *)
Definition status_word (trap : Z) (args : list arg) (m : gmap Z Z) : Z :=
  uintptr (fst (native trap args m)).

(** The call [c], run in [w], invoked the native code at [trap] on [args]. *)
Definition invoked (c : call) (w : World) (trap : Z) (args : list arg) : Prop :=
  trace (snd (run c w)) = trace w ++ [(trap, args)].

(** The buffers among the arguments of a native invocation. *)
Definition utf16_args (args : list arg) : list utf16ptr :=
  flat_map (fun a => match a with Utf16Ptr p => [p] | Uintptr _ => [] end) args.

(** The mkwinsyscall stub every wrapper is an instance of: convert the
    strings, resolve the entry point (the wrappers of iphlpapi.dll skip the
    check), call it once, decode the status. *)
Definition stub (c : call) : M (option error) :=
  match first_error (strings_of c) with
  | Some e => mret (Some e)
  | None =>
      hr ← (match c with
            | Call_SetCurrentThreadCompartmentId _ => mret None
            | _ => Find (proc_of c)
            end);
      if negb (is_nil hr) then mret hr else
      trap ← Addr (proc_of c);
      r0 ← SyscallN trap (args_of c);
      mret (decode_status r0)
  end.


(** ** Properties *)

Create HintDb wrappers.
#[local] Hint Unfold
  hcnCloseEndpoint hcnCloseLoadBalancer hcnCloseNamespace hcnCloseNetwork
  hcnCloseRoute hcnCreateEndpoint _hcnCreateEndpoint hcnCreateLoadBalancer
  _hcnCreateLoadBalancer hcnCreateNamespace _hcnCreateNamespace
  hcnCreateNetwork _hcnCreateNetwork hcnCreateRoute _hcnCreateRoute
  hcnDeleteEndpoint hcnDeleteLoadBalancer hcnDeleteNamespace hcnDeleteNetwork
  hcnDeleteRoute hcnEnumerateEndpoints _hcnEnumerateEndpoints
  hcnEnumerateLoadBalancers _hcnEnumerateLoadBalancers hcnEnumerateNamespaces
  _hcnEnumerateNamespaces hcnEnumerateNetworks _hcnEnumerateNetworks
  hcnEnumerateRoutes _hcnEnumerateRoutes hcnModifyEndpoint _hcnModifyEndpoint
  hcnModifyLoadBalancer _hcnModifyLoadBalancer hcnModifyNamespace
  _hcnModifyNamespace hcnModifyNetwork _hcnModifyNetwork hcnModifyRoute
  _hcnModifyRoute hcnOpenEndpoint hcnOpenLoadBalancer hcnOpenNamespace
  hcnOpenNetwork hcnOpenRoute hcnQueryEndpointProperties
  _hcnQueryEndpointProperties hcnQueryLoadBalancerProperties
  _hcnQueryLoadBalancerProperties hcnQueryNamespaceProperties
  _hcnQueryNamespaceProperties hcnQueryNetworkProperties
  _hcnQueryNetworkProperties hcnQueryRouteProperties _hcnQueryRouteProperties
  GetCurrentThreadCompartmentId SetCurrentThreadCompartmentId _hnsCall
  __hnsCall
  : wrappers.

(** *** Every wrapper is an instance of the stub *)

Lemma decode_inline (r0 : Z) (hr : option error) :
  is_nil hr = true ->
  (if int32 r0 <? 0
   then Some (Errno (if Z.land r0 0x1fff0000 =? 0x00070000 then Z.land r0 0xffff else r0))
   else hr) = decode_status r0.
Proof.
  intros H. destruct hr; [discriminate|]. unfold decode_status.
  destruct (int32 r0 <? 0); [|reflexivity].
  destruct (Z.land r0 0x1fff0000 =? 0x00070000); reflexivity.
Qed.

Lemma bind_ext {A B : Type} (m : M A) (f g : A -> M B) (w : World) :
  (forall a w', f a w' = g a w') -> (m ≫= f) w = (m ≫= g) w.
Proof.
  intros H. unfold mbind, M_bind. destruct (m w) as [[a|e] w']; [apply H|reflexivity].
Qed.

Lemma ret_bind {A B : Type} (a : A) (f : A -> M B) (w : World) :
  (mret a ≫= f) w = f a w.
Proof. reflexivity. Qed.

Ltac same_tail :=
  repeat first
    [ reflexivity
    | apply bind_ext; intros
    | match goal with
      | |- (if negb (is_nil ?hr) then _ else _) _ = _ => destruct hr; cbn [negb is_nil]
      | |- mret _ _ = mret _ _ => f_equal; apply decode_inline; reflexivity
      end ].

Lemma run_stub (c : call) (w : World) : run c w = stub c w.
Proof.
  destruct c; unfold run, stub; cbn [strings_of first_error proc_of args_of];
  autounfold with wrappers;
  repeat match goal with
         | |- context [UTF16PtrFromString ?s] =>
             destruct (UTF16PtrFromString s) as [? [?|]]; cbn [fst snd negb is_nil]
         end;
  try rewrite ret_bind; cbn [negb is_nil];
  same_tail.
Qed.

(** *** Lazy binding *)

Lemma Load_eq (d : LazyDLL) (w : World) :
  Load d w =
    if bool_decide (dllName d ∈ loaded w) then (Returned None, w)
    else if host_dll (dllName d)
         then (Returned None, set_loaded ({[dllName d]} ∪ loaded w) w)
         else (Returned (Some (DLLError (dllName d))), w).
Proof.
  unfold Load, mbind, M_bind, get, put, mret, M_ret. cbn.
  destruct (decide (dllName d ∈ loaded w)) as [Hin|Hin].
  - rewrite bool_decide_eq_true_2 by exact Hin. reflexivity.
  - rewrite bool_decide_eq_false_2 by exact Hin.
    destruct (host_dll (dllName d)); reflexivity.
Qed.

Lemma Find_bound (p : LazyProc) (w : World) (a : Z) :
  bound w !! proc_key p = Some a -> Find p w = (Returned None, w).
Proof.
  intros H. unfold Find, mbind, M_bind, get. cbn. rewrite H.
  rewrite bool_decide_eq_false_2 by discriminate. reflexivity.
Qed.

Lemma Find_unbound (p : LazyProc) (w : World) :
  bound w !! proc_key p = None ->
  Find p w =
    match Load (procDLL p) w with
    | (Returned e, w1) =>
        if negb (is_nil e) then (Returned e, w1) else
        match host_proc (dllName (procDLL p)) (procName p) with
        | None => (Returned (Some (DLLError (procName p))), w1)
        | Some a => (Returned None, set_bound (<[proc_key p := a]> (bound w1)) w1)
        end
    | (Panicked e, w1) => (Panicked e, w1)
    end.
Proof.
  intros Hb. unfold Find. unfold mbind at 1. unfold M_bind, get. cbn.
  rewrite Hb, bool_decide_eq_true_2 by reflexivity. cbn.
  unfold mbind at 1. unfold M_bind.
  destruct (Load (procDLL p) w) as [[e|e] w1]; [|reflexivity].
  destruct e; cbn; [reflexivity|].
  destruct (host_proc (dllName (procDLL p)) (procName p)); reflexivity.
Qed.

(** [Find] returns what [resolve] says, and touches neither the memory nor
    the trace. *)
Lemma Find_resolve (p : LazyProc) (w : World) :
  exists w',
    Find p w = (Returned (match resolve p w with inl _ => None | inr e => Some e end), w')
    /\ mem w' = mem w /\ trace w' = trace w
    /\ match resolve p w with
       | inl a => bound w' !! proc_key p = Some a
       | inr _ => bound w' = bound w
       end.
Proof.
  unfold resolve. destruct (bound w !! proc_key p) as [b|] eqn:Hb.
  { exists w. rewrite (Find_bound _ _ _ Hb). auto. }
  rewrite (Find_unbound _ _ Hb), Load_eq.
  destruct (bool_decide (dllName (procDLL p) ∈ loaded w)); cbn.
  - destruct (host_proc (dllName (procDLL p)) (procName p)) as [a|].
    + eexists. split; [reflexivity|]. cbn. rewrite lookup_insert_eq. auto.
    + exists w. auto.
  - destruct (host_dll (dllName (procDLL p))); cbn.
    + destruct (host_proc (dllName (procDLL p)) (procName p)) as [a|].
      * eexists. split; [reflexivity|]. cbn. rewrite lookup_insert_eq. auto.
      * eexists. split; [reflexivity|]. auto.
    + exists w. auto.
Qed.

Lemma Find_resolved (p : LazyProc) (w : World) (a : Z) :
  resolve p w = inl a ->
  exists w', Find p w = (Returned None, w') /\ bound w' !! proc_key p = Some a
             /\ mem w' = mem w /\ trace w' = trace w.
Proof.
  intros H. destruct (Find_resolve p w) as (w' & Hf & Hm & Ht & Hb).
  rewrite H in Hf, Hb. eauto.
Qed.

Lemma Find_unresolved (p : LazyProc) (w : World) (e : error) :
  resolve p w = inr e ->
  exists w', Find p w = (Returned (Some e), w')
             /\ bound w' = bound w /\ mem w' = mem w /\ trace w' = trace w.
Proof.
  intros H. destruct (Find_resolve p w) as (w' & Hf & Hm & Ht & Hb).
  rewrite H in Hf, Hb. eauto.
Qed.

Lemma resolve_error_kind (p : LazyProc) (w : World) (e : error) :
  resolve p w = inr e ->
  e = DLLError (dllName (procDLL p)) \/ e = DLLError (procName p).
Proof.
  unfold resolve. destruct (bound w !! proc_key p); [discriminate|].
  destruct (_ || _).
  - destruct (host_proc _ _); [discriminate|]. intros [= <-]. auto.
  - intros [= <-]. auto.
Qed.

Lemma Addr_bound (p : LazyProc) (w : World) (a : Z) :
  bound w !! proc_key p = Some a -> Addr p w = (Returned a, w).
Proof.
  intros H. unfold Addr, mbind, M_bind. rewrite (Find_bound _ _ _ H).
  unfold get. rewrite H. reflexivity.
Qed.

Lemma Addr_resolved (p : LazyProc) (w : World) (a : Z) :
  resolve p w = inl a ->
  exists w', Addr p w = (Returned a, w') /\ bound w' !! proc_key p = Some a
             /\ mem w' = mem w /\ trace w' = trace w.
Proof.
  intros H. destruct (Find_resolved _ _ _ H) as (w' & Hf & Hb & Hm & Ht).
  exists w'. unfold Addr, mbind, M_bind. rewrite Hf. unfold get. rewrite Hb. auto.
Qed.

Lemma Addr_unresolved (p : LazyProc) (w : World) (e : error) :
  resolve p w = inr e ->
  exists w', Addr p w = (Panicked e, w')
             /\ bound w' = bound w /\ mem w' = mem w /\ trace w' = trace w.
Proof.
  intros H. destruct (Find_unresolved _ _ _ H) as (w' & Hf & Hb & Hm & Ht).
  exists w'. unfold Addr, mbind, M_bind. rewrite Hf. auto.
Qed.

Lemma Find_twice (p : LazyProc) (w : World) :
  Find p (snd (Find p w)) = Find p w.
Proof.
  destruct (bound w !! proc_key p) as [b|] eqn:Hb.
  { rewrite (Find_bound _ _ _ Hb). cbn. apply (Find_bound _ _ _ Hb). }
  rewrite (Find_unbound _ _ Hb), Load_eq.
  destruct (bool_decide (dllName (procDLL p) ∈ loaded w)) eqn:Hin; cbn.
  - destruct (host_proc (dllName (procDLL p)) (procName p)) as [a|] eqn:Hp; cbn.
    + apply (Find_bound _ _ a). cbn. apply lookup_insert_eq.
    + rewrite (Find_unbound _ _ Hb), Load_eq, Hin. cbn. rewrite Hp. reflexivity.
  - destruct (host_dll (dllName (procDLL p))) eqn:Hd; cbn.
    + destruct (host_proc (dllName (procDLL p)) (procName p)) as [a|] eqn:Hp; cbn.
      * apply (Find_bound _ _ a). cbn. apply lookup_insert_eq.
      * rewrite Find_unbound by exact Hb. rewrite Load_eq. cbn.
        rewrite bool_decide_eq_true_2 by set_solver. cbn. rewrite Hp. reflexivity.
    + rewrite (Find_unbound _ _ Hb), Load_eq, Hin, Hd. reflexivity.
Qed.

(** Resolving [p] changes what no entry point resolves to. *)
Lemma resolve_after_Find (p q : LazyProc) (w : World) :
  resolve q (snd (Find p w)) = resolve q w.
Proof.
  destruct (bound w !! proc_key p) as [b|] eqn:Hb.
  { rewrite (Find_bound _ _ _ Hb). reflexivity. }
  rewrite (Find_unbound _ _ Hb), Load_eq.
  assert (Hkey : proc_key q = proc_key p ->
                 dllName (procDLL q) = dllName (procDLL p) /\ procName q = procName p).
  { unfold proc_key. intros [= -> ->]. auto. }
  destruct (bool_decide (dllName (procDLL p) ∈ loaded w)) eqn:Hin; cbn.
  - destruct (host_proc (dllName (procDLL p)) (procName p)) as [a|] eqn:Hp; cbn;
      [|reflexivity].
    unfold resolve. cbn.
    destruct (decide (proc_key q = proc_key p)) as [E|E].
    + rewrite E, lookup_insert_eq, Hb. destruct (Hkey E) as [-> ->].
      rewrite Hin. cbn. rewrite Hp. reflexivity.
    + rewrite lookup_insert_ne by congruence. reflexivity.
  - destruct (host_dll (dllName (procDLL p))) eqn:Hd; cbn; [|reflexivity].
    assert (Hl : bool_decide (dllName (procDLL q) ∈ {[dllName (procDLL p)]} ∪ loaded w)
                 || host_dll (dllName (procDLL q))
                 = bool_decide (dllName (procDLL q) ∈ loaded w)
                   || host_dll (dllName (procDLL q))).
    { destruct (decide (dllName (procDLL q) = dllName (procDLL p))) as [E|E].
      - rewrite E, Hd, !orb_true_r. reflexivity.
      - f_equal. apply bool_decide_ext. rewrite elem_of_union, elem_of_singleton. tauto. }
    destruct (host_proc (dllName (procDLL p)) (procName p)) as [a|] eqn:Hp; cbn.
    + unfold resolve. cbn. rewrite Hl.
      destruct (decide (proc_key q = proc_key p)) as [E|E].
      * rewrite E, lookup_insert_eq, Hb. destruct (Hkey E) as [E1 E2].
        rewrite E1, E2, Hd, orb_true_r, Hp. reflexivity.
      * rewrite lookup_insert_ne by congruence. reflexivity.
    + unfold resolve. cbn. rewrite Hl. reflexivity.
Qed.

(** *** The three ways a call ends *)

Lemma run_conversion_error (c : call) (w : World) (e : error) :
  first_error (strings_of c) = Some e -> run c w = (Returned (Some e), w).
Proof. intros H. rewrite run_stub. unfold stub. rewrite H. reflexivity. Qed.

Lemma proc_of_Set (c : call) :
  proc_of c = procSetCurrentThreadCompartmentId ->
  exists compartmentId, c = Call_SetCurrentThreadCompartmentId compartmentId.
Proof. destruct c; cbn; try discriminate. eauto. Qed.

Lemma run_unresolved (c : call) (w : World) (e : error) :
  first_error (strings_of c) = None ->
  resolve (proc_of c) w = inr e ->
  exists w',
    run c w = (match c with
               | Call_SetCurrentThreadCompartmentId _ => Panicked e
               | _ => Returned (Some e)
               end, w')
    /\ bound w' = bound w /\ mem w' = mem w /\ trace w' = trace w.
Proof.
  intros He Hr. rewrite run_stub. unfold stub. rewrite He.
  destruct (Find_unresolved _ _ _ Hr) as (w' & Hf & Hb & Hm & Ht).
  destruct (Addr_unresolved _ _ _ Hr) as (w'' & Ha & Hb' & Hm' & Ht').
  destruct c;
    try (exists w'; unfold mbind, M_bind; rewrite Hf; cbn; auto; fail).
  exists w''. rewrite ret_bind. cbn [negb is_nil]. unfold mbind, M_bind.
  rewrite Ha. auto.
Qed.

Lemma run_resolved (c : call) (w : World) (a : Z) :
  first_error (strings_of c) = None ->
  resolve (proc_of c) w = inl a ->
  exists w1,
    bound w1 !! proc_key (proc_of c) = Some a
    /\ run c w = (Returned (decode_status (status_word a (args_of c) (mem w))),
                  mkWorld (loaded w1) (bound w1)
                          (snd (native a (args_of c) (mem w)))
                          (trace w ++ [(a, args_of c)])).
Proof.
  intros He Hr. rewrite run_stub. unfold stub. rewrite He.
  destruct (Find_resolved _ _ _ Hr) as (w1 & Hf & Hb & Hm & Ht).
  assert (Htail : (Addr (proc_of c) ≫= λ trap : Z,
                     SyscallN trap (args_of c) ≫= λ r0 : Z, mret (decode_status r0)) w1
                  = (Returned (decode_status (status_word a (args_of c) (mem w))),
                     mkWorld (loaded w1) (bound w1)
                             (snd (native a (args_of c) (mem w)))
                             (trace w ++ [(a, args_of c)]))).
  { unfold mbind, M_bind. rewrite (Addr_bound _ _ _ Hb). unfold SyscallN, status_word.
    rewrite Hm, Ht. destruct (native a (args_of c) (mem w)) as [r m']. reflexivity. }
  destruct c;
    try (exists w1; split; [exact Hb|]; unfold mbind at 1; unfold M_bind at 1;
         rewrite Hf; cbn [negb is_nil]; exact Htail; fail).
  (* SetCurrentThreadCompartmentId: no check, [Addr] resolves *)
  clear Htail. destruct (Addr_resolved _ _ _ Hr) as (w2 & Ha & Hb2 & Hm2 & Ht2).
  exists w2. split; [exact Hb2|]. rewrite ret_bind. cbn [negb is_nil].
  unfold mbind, M_bind. rewrite Ha. unfold SyscallN, status_word.
  rewrite Hm2, Ht2. destruct (native a _ (mem w)) as [r m']. reflexivity.
Qed.

Lemma trace_grows_not (A : Type) (t : list A) (x : A) : t <> t ++ [x].
Proof.
  intros H. apply (f_equal (@length A)) in H. rewrite length_app in H. cbn in H. lia.
Qed.

Lemma invoked_inv (c : call) (w : World) (trap : Z) (args : list arg) :
  invoked c w trap args ->
  first_error (strings_of c) = None
  /\ resolve (proc_of c) w = inl trap
  /\ args = args_of c.
Proof.
  unfold invoked. intros H.
  destruct (first_error (strings_of c)) as [e|] eqn:He.
  { rewrite (run_conversion_error _ _ _ He) in H. cbn in H.
    exfalso. exact (trace_grows_not _ _ _ H). }
  destruct (resolve (proc_of c) w) as [a|e] eqn:Hr.
  - destruct (run_resolved _ _ _ He Hr) as (w1 & _ & Hrun). rewrite Hrun in H. cbn in H.
    apply app_inv_head in H. injection H as -> ->. auto.
  - destruct (run_unresolved _ _ _ He Hr) as (w' & Hrun & _ & _ & Ht).
    rewrite Hrun in H. cbn in H. rewrite Ht in H.
    exfalso. exact (trace_grows_not _ _ _ H).
Qed.

Lemma invoked_run (c : call) (w : World) (trap : Z) (args : list arg) :
  invoked c w trap args ->
  fst (run c w) = Returned (decode_status (status_word trap args (mem w)))
  /\ mem (snd (run c w)) = snd (native trap args (mem w)).
Proof.
  intros H. destruct (invoked_inv _ _ _ _ H) as (He & Hr & ->).
  destruct (run_resolved _ _ _ He Hr) as (w1 & _ & ->). cbn. auto.
Qed.

(** What a caller observes of a call (its outcome, the memory and the trace
    it leaves) depends on the state through the resolution, the memory and
    the trace only. *)
Lemma run_observable (c : call) (w w' : World) :
  resolve (proc_of c) w = resolve (proc_of c) w' ->
  mem w = mem w' -> trace w = trace w' ->
  fst (run c w) = fst (run c w')
  /\ mem (snd (run c w)) = mem (snd (run c w'))
  /\ trace (snd (run c w)) = trace (snd (run c w')).
Proof.
  intros Hr Hm Ht.
  destruct (first_error (strings_of c)) as [e|] eqn:He.
  { rewrite !(run_conversion_error _ _ _ He). cbn. auto. }
  destruct (resolve (proc_of c) w') as [a|e] eqn:Hr'.
  - destruct (run_resolved _ _ _ He Hr) as (w1 & _ & ->).
    destruct (run_resolved _ _ _ He Hr') as (w2 & _ & ->). cbn.
    rewrite Hm, Ht. auto.
  - destruct (run_unresolved _ _ _ He Hr) as (w1 & -> & _ & Hm1 & Ht1).
    destruct (run_unresolved _ _ _ He Hr') as (w2 & -> & _ & Hm2 & Ht2). cbn.
    rewrite Hm1, Hm2, Ht1, Ht2. auto.
Qed.

(** *** GetCurrentThreadCompartmentId *)

Lemma Get_unresolved (w : World) (e : error) :
  resolve procGetCurrentThreadCompartmentId w = inr e ->
  exists w',
    GetCurrentThreadCompartmentId w = (Panicked e, w')
    /\ mem w' = mem w /\ trace w' = trace w.
Proof.
  intros Hr. destruct (Addr_unresolved _ _ _ Hr) as (w' & Ha & _ & Hm & Ht).
  exists w'. unfold GetCurrentThreadCompartmentId, mbind, M_bind. rewrite Ha. auto.
Qed.

Lemma Get_resolved (w : World) (a : Z) :
  resolve procGetCurrentThreadCompartmentId w = inl a ->
  exists w1,
    GetCurrentThreadCompartmentId w
    = (Returned (uint32 (status_word a [] (mem w))),
       mkWorld (loaded w1) (bound w1) (snd (native a [] (mem w))) (trace w ++ [(a, [])])).
Proof.
  intros Hr. destruct (Addr_resolved _ _ _ Hr) as (w1 & Ha & _ & Hm & Ht).
  exists w1. unfold GetCurrentThreadCompartmentId, mbind, M_bind. rewrite Ha.
  unfold SyscallN, status_word. rewrite Hm, Ht.
  destruct (native a [] (mem w)) as [r m']. reflexivity.
Qed.

(** *** Arithmetic of the status word *)

Lemma land_low16 (r : Z) : Z.land r 0xffff = r mod 2 ^ 16.
Proof. change 0xffff with (Z.ones 16). apply Z.land_ones. lia. Qed.

Lemma decode_status_negative (r : Z) :
  int32 r < 0 ->
  decode_status r =
    Some (Errno (if Z.land r 0x1fff0000 =? 0x00070000 then r mod 2 ^ 16 else r)).
Proof.
  intros H. unfold decode_status. apply Z.ltb_lt in H. rewrite H.
  destruct (Z.land r 0x1fff0000 =? 0x00070000); [rewrite land_low16|]; reflexivity.
Qed.

Lemma decode_status_nonnegative (r : Z) : 0 <= int32 r -> decode_status r = None.
Proof.
  intros H. unfold decode_status. destruct (int32 r <? 0) eqn:E; [|reflexivity].
  apply Z.ltb_lt in E. lia.
Qed.

Lemma uintptr_small (h : Z) : 0 <= h < 2 ^ ptr_bits arch -> uintptr h = h.
Proof. intros H. unfold uintptr, to_uintptr. apply Z.mod_small. exact H. Qed.

Lemma args_of_handle (c : call) (h : Z) :
  handle_of c = Some h -> exists rest, args_of c = Uintptr (uintptr h) :: rest.
Proof. destruct c; cbn; intros [= <-]; eauto. Qed.

(** *** String conversion *)

Lemma UTF16PtrFromString_nul (s : string) :
  has_nul s = true -> UTF16PtrFromString s = (None, Some EINVAL).
Proof. intros H. unfold UTF16PtrFromString, UTF16FromString. rewrite H. reflexivity. Qed.

Lemma UTF16PtrFromString_ok (s : string) :
  has_nul s = false -> UTF16PtrFromString s = (Some (encodeWTF16 s [] ++ [0]), None).
Proof. intros H. unfold UTF16PtrFromString, UTF16FromString. rewrite H. reflexivity. Qed.

Lemma first_error_nul (ss : list string) (s : string) :
  In s ss -> has_nul s = true -> first_error ss = Some EINVAL.
Proof.
  induction ss as [|s' ss IH]; intros Hin Hnul; [destruct Hin|].
  cbn. destruct (has_nul s') eqn:E.
  - rewrite (UTF16PtrFromString_nul _ E). reflexivity.
  - rewrite (UTF16PtrFromString_ok _ E). cbn.
    destruct Hin as [->|Hin]; [congruence|]. exact (IH Hin Hnul).
Qed.

Lemma first_error_None (ss : list string) :
  first_error ss = None -> forall s, In s ss -> has_nul s = false.
Proof.
  intros H s Hin. destruct (has_nul s) eqn:E; [|reflexivity].
  rewrite (first_error_nul _ _ Hin E) in H. discriminate.
Qed.

Lemma first_error_Some (ss : list string) (e : error) :
  first_error ss = Some e ->
  exists s, In s ss /\ snd (UTF16PtrFromString s) = Some e.
Proof.
  induction ss as [|s ss IH]; cbn; [discriminate|].
  destruct (snd (UTF16PtrFromString s)) as [e'|] eqn:E.
  - intros [= ->]. exists s. auto.
  - intros H. destruct (IH H) as (s' & Hin & Hs'). exists s'. auto.
Qed.

Lemma first_error_fails (ss : list string) (s : string) (e : error) :
  In s ss -> snd (UTF16PtrFromString s) = Some e ->
  exists e', first_error ss = Some e'.
Proof.
  induction ss as [|s' ss IH]; intros Hin Hs; [destruct Hin|].
  cbn. destruct (snd (UTF16PtrFromString s')) as [e'|] eqn:E; [eauto|].
  destruct Hin as [->|Hin]; [congruence|]. exact (IH Hin Hs).
Qed.

Lemma first_error_None_iff (ss : list string) :
  first_error ss = None <-> forallb (fun s => negb (has_nul s)) ss = true.
Proof.
  induction ss as [|s ss IH]; cbn; [tauto|].
  destruct (has_nul s) eqn:E.
  - rewrite (UTF16PtrFromString_nul _ E). cbn. split; discriminate.
  - rewrite (UTF16PtrFromString_ok _ E). cbn. exact IH.
Qed.

Lemma args_of_strings (c : call) :
  strings_of c <> [] ->
  (forall s, In s (strings_of c) -> has_nul s = false) ->
  utf16_args (args_of c) = map (fun s => Some (encodeWTF16 s [] ++ [0])) (strings_of c).
Proof.
  destruct c; cbn [strings_of]; intros Hne Hall; try congruence;
    cbn [args_of utf16_args flat_map app map];
    repeat match goal with
           | |- context [UTF16PtrFromString ?s] =>
               rewrite (UTF16PtrFromString_ok s) by (apply Hall; cbn; auto)
           end;
    reflexivity.
Qed.

(** *** The claims *)

(** C1. When the native call of a wrapper returns a status word that is
    negative as an [int32]: if the word masked with [0x1fff0000] is
    [0x00070000], the wrapper reports the low 16 bits of the word as the
    error number; otherwise it reports the word unchanged. *)
Theorem negative_status_reported (c : call) (w : World) (trap : Z) (args : list arg) :
  invoked c w trap args ->
  int32 (status_word trap args (mem w)) < 0 ->
  (Z.land (status_word trap args (mem w)) 0x1fff0000 = 0x00070000 ->
   fst (run c w) = Returned (Some (Errno (status_word trap args (mem w) mod 2 ^ 16))))
  /\ (Z.land (status_word trap args (mem w)) 0x1fff0000 <> 0x00070000 ->
      fst (run c w) = Returned (Some (Errno (status_word trap args (mem w))))).
Proof.
  intros Hinv Hneg. destruct (invoked_run _ _ _ _ Hinv) as [-> _].
  rewrite (decode_status_negative _ Hneg).
  split; intros H.
  - apply Z.eqb_eq in H. rewrite H. reflexivity.
  - apply Z.eqb_neq in H. rewrite H. reflexivity.
Qed.

(** C2, amended. When the strings of a call convert and its entry point does
    not resolve, the native code is not invoked and the memory is untouched;
    every wrapper that checks the resolution (all but
    [SetCurrentThreadCompartmentId]) returns the resolution error, a
    [DLLError] naming the missing library or procedure, and never [nil];
    [SetCurrentThreadCompartmentId] and [GetCurrentThreadCompartmentId] do not
    return it: they panic with it. *)
Theorem resolution_failure_reported (w : World) :
  (forall (c : call) (e : error),
     first_error (strings_of c) = None ->
     resolve (proc_of c) w = inr e ->
     (e = DLLError (dllName (procDLL (proc_of c))) \/ e = DLLError (procName (proc_of c)))
     /\ exists w',
          mem w' = mem w /\ trace w' = trace w
          /\ (proc_of c <> procSetCurrentThreadCompartmentId ->
              run c w = (Returned (Some e), w'))
          /\ (proc_of c = procSetCurrentThreadCompartmentId ->
              run c w = (Panicked e, w')))
  /\ (forall e : error,
        resolve procGetCurrentThreadCompartmentId w = inr e ->
        exists w',
          mem w' = mem w /\ trace w' = trace w
          /\ GetCurrentThreadCompartmentId w = (Panicked e, w')).
Proof.
  split.
  - intros c e He Hr. split; [exact (resolve_error_kind _ _ _ Hr)|].
    destruct (run_unresolved _ _ _ He Hr) as (w' & Hrun & _ & Hm & Ht).
    exists w'. repeat split; try assumption.
    + intros Hp. rewrite Hrun. destruct c; try reflexivity. exfalso. apply Hp. reflexivity.
    + intros Hp. destruct (proc_of_Set _ Hp) as (x & ->). exact Hrun.
  - intros e Hr. destruct (Get_unresolved _ _ Hr) as (w' & Hg & Hm & Ht).
    exists w'. auto.
Qed.

(** C3. When the native call of a wrapper returns a status word that is zero
    or positive as an [int32], the wrapper returns [nil], whatever the native
    code wrote, and the memory the caller sees is the memory the native code
    left (so is what it wrote through the result pointer). *)
Theorem nonnegative_status_is_success (c : call) (w : World) (trap : Z) (args : list arg) :
  invoked c w trap args ->
  0 <= int32 (status_word trap args (mem w)) ->
  fst (run c w) = Returned None
  /\ mem (snd (run c w)) = snd (native trap args (mem w))
  /\ forall result : pointer,
       mem (snd (run c w)) !! result = snd (native trap args (mem w)) !! result.
Proof.
  intros Hinv Hpos. destruct (invoked_run _ _ _ _ Hinv) as [-> ->].
  rewrite (decode_status_nonnegative _ Hpos). auto.
Qed.

(** C4. A wrapper that takes strings converts them first: if the conversion
    of one of them fails (as it does for a string with a NUL byte, with
    [EINVAL]) the wrapper returns the error of the first conversion that
    fails at once and leaves the state as it was (no resolution, no native
    call); and when the native code is invoked, the buffers it receives are
    the UTF-16 encodings of the strings, in order, each with a terminating
    NUL. *)
Theorem strings_converted_before_call (c : call) (w : World) :
  (forall s e, In s (strings_of c) -> snd (UTF16PtrFromString s) = Some e ->
     exists s' e', In s' (strings_of c) /\ snd (UTF16PtrFromString s') = Some e'
                   /\ run c w = (Returned (Some e'), w))
  /\ (forall s, In s (strings_of c) -> has_nul s = true ->
        snd (UTF16PtrFromString s) = Some EINVAL
        /\ run c w = (Returned (Some EINVAL), w))
  /\ (forall trap args, invoked c w trap args -> strings_of c <> [] ->
        utf16_args args = map (fun s => Some (encodeWTF16 s [] ++ [0])) (strings_of c)
        /\ utf16_args args = map (fun s => fst (UTF16PtrFromString s)) (strings_of c)).
Proof.
  split; [|split].
  - intros s e Hin Hs. destruct (first_error_fails _ _ _ Hin Hs) as (e' & He').
    destruct (first_error_Some _ _ He') as (s' & Hin' & Hs').
    exists s', e'. split; [exact Hin'|]. split; [exact Hs'|].
    exact (run_conversion_error _ _ _ He').
  - intros s Hin Hnul. split; [rewrite (UTF16PtrFromString_nul _ Hnul); reflexivity|].
    apply run_conversion_error. exact (first_error_nul _ _ Hin Hnul).
  - intros trap args Hinv Hne. destruct (invoked_inv _ _ _ _ Hinv) as (He & _ & ->).
    pose proof (first_error_None _ He) as Hall.
    rewrite (args_of_strings _ Hne Hall). split; [reflexivity|].
    apply map_ext_in. intros s Hs. rewrite (UTF16PtrFromString_ok _ (Hall _ Hs)).
    reflexivity.
Qed.

(** C5. A wrapper that takes a handle does not look at it: whatever the
    handle, when the strings convert and the entry point resolves, the native
    code is invoked with that handle unchanged as its first argument and the
    wrapper returns the decoded status. *)
Theorem handle_forwarded (c : call) (h : Z) (w : World) (a : Z) :
  handle_of c = Some h ->
  0 <= h < 2 ^ ptr_bits arch ->
  first_error (strings_of c) = None ->
  resolve (proc_of c) w = inl a ->
  exists rest,
    invoked c w a (Uintptr h :: rest)
    /\ fst (run c w) = Returned (decode_status (status_word a (Uintptr h :: rest) (mem w))).
Proof.
  intros Hh Hrange He Hr.
  destruct (args_of_handle _ _ Hh) as (rest & Hargs).
  rewrite (uintptr_small _ Hrange) in Hargs.
  destruct (run_resolved _ _ _ He Hr) as (w1 & _ & Hrun).
  exists rest. unfold invoked. rewrite Hrun, Hargs. cbn. auto.
Qed.

(** C6. Resolving an entry point a second time gives the result of the first
    resolution and leaves the state as the first left it, so every later call
    behaves as after one resolution; and a resolution changes what no entry
    point resolves to, so what a caller observes of a later call (outcome,
    memory, native invocations) is what it would observe without it. *)
Theorem resolving_twice_is_resolving_once (p : LazyProc) (w : World) :
  Find p (snd (Find p w)) = Find p w
  /\ (forall c : call, run c (snd (Find p (snd (Find p w)))) = run c (snd (Find p w)))
  /\ GetCurrentThreadCompartmentId (snd (Find p (snd (Find p w))))
     = GetCurrentThreadCompartmentId (snd (Find p w))
  /\ (forall q : LazyProc, resolve q (snd (Find p w)) = resolve q w)
  /\ (forall c : call,
        fst (run c (snd (Find p w))) = fst (run c w)
        /\ mem (snd (run c (snd (Find p w)))) = mem (snd (run c w))
        /\ trace (snd (run c (snd (Find p w)))) = trace (snd (run c w))).
Proof.
  rewrite Find_twice. repeat split; try reflexivity.
  - intros q. apply resolve_after_Find.
  - apply run_observable; [apply resolve_after_Find| |];
      destruct (Find_resolve p w) as (w' & -> & Hm & Ht & _); assumption.
  - apply run_observable; [apply resolve_after_Find| |];
      destruct (Find_resolve p w) as (w' & -> & Hm & Ht & _); assumption.
  - apply run_observable; [apply resolve_after_Find| |];
      destruct (Find_resolve p w) as (w' & -> & Hm & Ht & _); assumption.
Qed.

(** C8. A wrapper invokes the native code at most once: a call adds nothing
    or one invocation to the trace, exactly one when its strings convert and
    its entry point resolves; and a native call that fails is reported by the
    error the wrapper returns, with no further invocation. *)
Theorem native_called_at_most_once (c : call) (w : World) :
  (trace (snd (run c w)) = trace w
   \/ exists inv, trace (snd (run c w)) = trace w ++ [inv])
  /\ (first_error (strings_of c) = None ->
      forall a, resolve (proc_of c) w = inl a ->
      trace (snd (run c w)) = trace w ++ [(a, args_of c)])
  /\ (forall trap args, invoked c w trap args ->
      int32 (status_word trap args (mem w)) < 0 ->
      exists e, fst (run c w) = Returned (Some (Errno e)))
  /\ (trace (snd (GetCurrentThreadCompartmentId w)) = trace w
      \/ exists inv, trace (snd (GetCurrentThreadCompartmentId w)) = trace w ++ [inv])
  /\ (forall a, resolve procGetCurrentThreadCompartmentId w = inl a ->
      trace (snd (GetCurrentThreadCompartmentId w)) = trace w ++ [(a, [])]).
Proof.
  repeat split.
  - destruct (first_error (strings_of c)) as [e|] eqn:He.
    { left. rewrite (run_conversion_error _ _ _ He). reflexivity. }
    destruct (resolve (proc_of c) w) as [a|e] eqn:Hr.
    + right. destruct (run_resolved _ _ _ He Hr) as (w1 & _ & ->). cbn. eauto.
    + left. destruct (run_unresolved _ _ _ He Hr) as (w' & -> & _ & _ & Ht).
      exact Ht.
  - intros He a Hr. destruct (run_resolved _ _ _ He Hr) as (w1 & _ & ->). reflexivity.
  - intros trap args Hinv Hneg. destruct (invoked_run _ _ _ _ Hinv) as [-> _].
    rewrite (decode_status_negative _ Hneg). eauto.
  - destruct (resolve procGetCurrentThreadCompartmentId w) as [a|e] eqn:Hr.
    + right. destruct (Get_resolved _ _ Hr) as (w1 & ->). cbn. eauto.
    + left. destruct (Get_unresolved _ _ Hr) as (w' & -> & _ & Ht). exact Ht.
  - intros a Hr. destruct (Get_resolved _ _ Hr) as (w1 & ->). reflexivity.
Qed.

(** C9. Every wrapper decodes the status word by the same function: the
    error a wrapper returns after its native call is [decode_status] of the
    status word, so two wrappers whose native calls return the same word
    return the same error. *)
Theorem wrappers_share_decode (c1 c2 : call) (w1 w2 : World)
    (trap1 trap2 : Z) (args1 args2 : list arg) :
  invoked c1 w1 trap1 args1 ->
  invoked c2 w2 trap2 args2 ->
  fst (run c1 w1) = Returned (decode_status (status_word trap1 args1 (mem w1)))
  /\ (status_word trap1 args1 (mem w1) = status_word trap2 args2 (mem w2) ->
      fst (run c1 w1) = fst (run c2 w2)).
Proof.
  intros H1 H2. destruct (invoked_run _ _ _ _ H1) as [-> _].
  destruct (invoked_run _ _ _ _ H2) as [-> _].
  split; [reflexivity|]. intros ->. reflexivity.
Qed.

(** C10. The failure test reads the low 32 bits of the status word only, but
    the mask and the error number use the whole [uintptr]: a word that is
    negative as an [int32] and does not match the errno pattern is reported
    whole, bits above bit 31 included, and not as its low 32 bits. *)
Theorem raw_status_keeps_high_bits (c : call) (w : World) (trap : Z) (args : list arg) :
  invoked c w trap args ->
  int32 (status_word trap args (mem w)) < 0 ->
  Z.land (status_word trap args (mem w)) 0x1fff0000 <> 0x00070000 ->
  int32 (status_word trap args (mem w)) = int32 (status_word trap args (mem w) mod 2 ^ 32)
  /\ fst (run c w) = Returned (Some (Errno (status_word trap args (mem w))))
  /\ (2 ^ 32 <= status_word trap args (mem w) ->
      fst (run c w) <> Returned (Some (Errno (status_word trap args (mem w) mod 2 ^ 32)))).
Proof.
  intros Hinv Hneg Hpat. destruct (invoked_run _ _ _ _ Hinv) as [-> _].
  rewrite (decode_status_negative _ Hneg).
  apply Z.eqb_neq in Hpat. rewrite Hpat.
  split; [|split].
  - unfold int32. rewrite Z.mod_mod by lia. reflexivity.
  - reflexivity.
  - intros Hbig [= Heq].
    pose proof (Z.mod_pos_bound (status_word trap args (mem w)) (2 ^ 32) ltac:(lia)). lia.
Qed.
(** *** More on the wrappers *)

Lemma int32_negative_iff (r : Z) : int32 r < 0 <-> 2 ^ 31 <= r mod 2 ^ 32.
Proof.
  unfold int32. pose proof (Z.mod_pos_bound r (2 ^ 32) ltac:(lia)) as Hm.
  destruct (Z.ltb_spec (r mod 2 ^ 32) (2 ^ 31)); lia.
Qed.

Lemma status_word_range (trap : Z) (args : list arg) (m : gmap Z Z) :
  0 <= status_word trap args m < 2 ^ ptr_bits arch.
Proof.
  unfold status_word, uintptr, to_uintptr. apply Z.mod_pos_bound.
  destruct arch; reflexivity.
Qed.

(** The errno pattern in arithmetic: the thirteen bits from bit 16 up, the
    facility of the status word, are 7. *)
Lemma land_facility (r : Z) :
  Z.land r 0x1fff0000 = ((r / 2 ^ 16) mod 2 ^ 13) * 2 ^ 16.
Proof.
  change 0x1fff0000 with (Z.shiftl (Z.ones 13) 16).
  rewrite <- Z.shiftr_div_pow2, <- Z.land_ones, <- Z.shiftl_mul_pow2 by lia.
  apply Z.bits_inj'. intros i Hi.
  rewrite Z.land_spec.
  destruct (Z.lt_ge_cases i 16) as [Hlt|Hge].
  - rewrite !Z.shiftl_spec_low by exact Hlt. apply andb_false_r.
  - rewrite !Z.shiftl_spec by exact Hi. rewrite Z.land_spec, Z.shiftr_spec by lia.
    replace (i - 16 + 16) with i by lia. reflexivity.
Qed.

Lemma facility_arith (r b e : Z) :
  r mod 2 ^ 32 = 0x80070000 + 0x20000000 * b + e ->
  0 <= b < 4 -> 0 <= e < 2 ^ 16 ->
  (r / 2 ^ 16) mod 2 ^ 13 = 7 /\ r mod 2 ^ 16 = e /\ 2 ^ 31 <= r mod 2 ^ 32.
Proof.
  clear arch host_dll host_proc native.
  change (2 ^ 32) with 4294967296. change (2 ^ 31) with 2147483648.
  change (2 ^ 16) with 65536. change (2 ^ 13) with 8192.
  intros Hr Hb He. Z.div_mod_to_equations. lia.
Qed.

Lemma resolve_ext (q : LazyProc) (w1 w2 : World) :
  loaded w1 = loaded w2 -> bound w1 = bound w2 -> resolve q w1 = resolve q w2.
Proof. intros Hl Hb. unfold resolve. rewrite Hl, Hb. reflexivity. Qed.

Lemma Addr_Find (p : LazyProc) (w : World) :
  Addr p w = (match resolve p w with inl a => Returned a | inr e => Panicked e end,
              snd (Find p w)).
Proof.
  destruct (Find_resolve p w) as (w' & Hf & _ & _ & Hb).
  unfold Addr, mbind, M_bind. rewrite Hf. cbn [snd].
  destruct (resolve p w) as [a|e]; [|reflexivity].
  unfold get. rewrite Hb. reflexivity.
Qed.

(** The libraries and entry points a call leaves loaded and bound are those
    the resolution of its entry point leaves. *)
Lemma tail_lazy (p : LazyProc) (args : list arg) (w : World) :
  loaded (snd ((Addr p ≫= λ trap : Z,
                  SyscallN trap args ≫= λ r0 : Z, mret (decode_status r0)) w))
  = loaded (snd (Find p w))
  /\ bound (snd ((Addr p ≫= λ trap : Z,
                    SyscallN trap args ≫= λ r0 : Z, mret (decode_status r0)) w))
     = bound (snd (Find p w)).
Proof.
  unfold mbind, M_bind. rewrite Addr_Find.
  destruct (resolve p w) as [a|e]; cbn [snd]; [|auto].
  unfold SyscallN. destruct (native a args (mem (snd (Find p w)))). cbn. auto.
Qed.

Lemma guard_lazy (p : LazyProc) (args : list arg) (w : World) :
  loaded (snd ((Find p ≫= λ hr : option error,
                  if negb (is_nil hr) then mret hr else
                  Addr p ≫= λ trap : Z,
                    SyscallN trap args ≫= λ r0 : Z, mret (decode_status r0)) w))
  = loaded (snd (Find p w))
  /\ bound (snd ((Find p ≫= λ hr : option error,
                    if negb (is_nil hr) then mret hr else
                    Addr p ≫= λ trap : Z,
                      SyscallN trap args ≫= λ r0 : Z, mret (decode_status r0)) w))
     = bound (snd (Find p w)).
Proof.
  destruct (Find_resolve p w) as (w' & Hf & _ & _ & Hb).
  pose proof (tail_lazy p args w') as Ht.
  set (tail := Addr p ≫= λ trap : Z,
                 SyscallN trap args ≫= λ r0 : Z, mret (decode_status r0)) in *.
  unfold mbind, M_bind. rewrite Hf.
  destruct (resolve p w) as [a|e]; cbn [negb is_nil snd]; [|auto].
  rewrite (Find_bound _ _ _ Hb) in Ht. exact Ht.
Qed.

Lemma run_lazy (c : call) (w : World) :
  first_error (strings_of c) = None ->
  loaded (snd (run c w)) = loaded (snd (Find (proc_of c) w))
  /\ bound (snd (run c w)) = bound (snd (Find (proc_of c) w)).
Proof.
  intros He. rewrite run_stub. unfold stub. rewrite He.
  destruct c; try apply guard_lazy.
  rewrite ret_bind. cbn [negb is_nil]. apply tail_lazy.
Qed.

Lemma resolve_after_run (c : call) (q : LazyProc) (w : World) :
  resolve q (snd (run c w)) = resolve q w.
Proof.
  destruct (first_error (strings_of c)) as [e|] eqn:He.
  { rewrite (run_conversion_error _ _ _ He). reflexivity. }
  destruct (run_lazy c w He) as [Hl Hb].
  rewrite (resolve_ext q _ _ Hl Hb). apply resolve_after_Find.
Qed.

(** X1. A wrapper panics in one case only: [SetCurrentThreadCompartmentId]
    whose entry point does not resolve, and the value of the panic is the
    resolution error. Every wrapper that checks the resolution returns. *)
Theorem only_unresolved_Set_panics (c : call) (w w' : World) (e : error) :
  run c w = (Panicked e, w') ->
  proc_of c = procSetCurrentThreadCompartmentId
  /\ resolve (proc_of c) w = inr e
  /\ trace w' = trace w /\ mem w' = mem w.
Proof.
  intros H.
  destruct (first_error (strings_of c)) as [e0|] eqn:He.
  { rewrite (run_conversion_error _ _ _ He) in H. discriminate. }
  destruct (resolve (proc_of c) w) as [a|e0] eqn:Hr.
  { destruct (run_resolved _ _ _ He Hr) as (w1 & _ & Hrun). rewrite Hrun in H.
    discriminate. }
  destruct (run_unresolved _ _ _ He Hr) as (w1 & Hrun & _ & Hm & Ht).
  rewrite Hrun in H. destruct c; try discriminate.
  injection H as -> ->. auto.
Qed.

(** X2. [GetCurrentThreadCompartmentId] reads no failure off the status
    word: when its entry point resolves it calls it once without arguments
    and returns the low 32 bits of what it answers, a value below [2 ^ 32],
    also when the answer is negative as an [int32]. *)
Theorem compartment_id_is_low_32_bits (w : World) (a : Z) :
  resolve procGetCurrentThreadCompartmentId w = inl a ->
  fst (GetCurrentThreadCompartmentId w) = Returned (status_word a [] (mem w) mod 2 ^ 32)
  /\ 0 <= status_word a [] (mem w) mod 2 ^ 32 < 2 ^ 32
  /\ trace (snd (GetCurrentThreadCompartmentId w)) = trace w ++ [(a, [])]
  /\ mem (snd (GetCurrentThreadCompartmentId w)) = snd (native a [] (mem w)).
Proof.
  intros Hr. destruct (Get_resolved _ _ Hr) as (w1 & ->). cbn.
  split; [reflexivity|]. split; [apply Z.mod_pos_bound; lia|]. auto.
Qed.

(** X3. The error number a wrapper reports after its native call is below
    [2 ^ 16] (a system error number recovered from the errno pattern) or is
    the status word itself, with bit 31 or a higher bit set: no number from
    [2 ^ 16] up to [2 ^ 31] is ever reported. *)
Theorem reported_error_number_range (c : call) (w : World) (trap : Z) (args : list arg)
    (e : Z) :
  invoked c w trap args ->
  fst (run c w) = Returned (Some (Errno e)) ->
  0 <= e < 2 ^ 16
  \/ (2 ^ 31 <= e < 2 ^ ptr_bits arch /\ e = status_word trap args (mem w)).
Proof.
  intros Hinv Hrun. destruct (invoked_run _ _ _ _ Hinv) as [Hd _].
  rewrite Hd in Hrun. injection Hrun as Hdec. unfold decode_status in Hdec.
  destruct (int32 (status_word trap args (mem w)) <? 0) eqn:Hneg; [|discriminate].
  apply Z.ltb_lt, int32_negative_iff in Hneg.
  destruct (Z.land (status_word trap args (mem w)) 0x1fff0000 =? 0x00070000).
  - injection Hdec as <-. left. rewrite land_low16. apply Z.mod_pos_bound. lia.
  - injection Hdec as <-. right.
    pose proof (status_word_range trap args (mem w)) as Hsw.
    pose proof (Z.mod_le (status_word trap args (mem w)) (2 ^ 32) ltac:(lia) ltac:(lia)).
    split; [lia|reflexivity].
Qed.

(** X4. The errno pattern looks at bit 31 and at the facility (bits 16 to
    28) only: a status word whose low 32 bits are [0x80070000 + e], with
    bits 29 and 30 and the bits above bit 31 set or not, is reported as the
    error number [e], for every [e] below [2 ^ 16]; for [e = 0] too, where
    the error returned is not [nil] and its number is zero. *)
Theorem win32_facility_decoded (c : call) (w : World) (trap : Z) (args : list arg)
    (b e : Z) :
  invoked c w trap args ->
  status_word trap args (mem w) mod 2 ^ 32 = 0x80070000 + 0x20000000 * b + e ->
  0 <= b < 4 ->
  0 <= e < 2 ^ 16 ->
  fst (run c w) = Returned (Some (Errno e)).
Proof.
  intros Hinv Hsw Hb He. destruct (invoked_run _ _ _ _ Hinv) as [-> _].
  destruct (facility_arith _ _ _ Hsw Hb He) as (Hfac & Hlow & Hneg).
  apply int32_negative_iff, Z.ltb_lt in Hneg.
  unfold decode_status. rewrite Hneg, land_facility, Hfac.
  change (7 * 2 ^ 16 =? 0x00070000) with true. cbv iota.
  rewrite land_low16, Hlow. reflexivity.
Qed.

(** X5. A wrapper writes no memory of its own: after a call the memory is
    the memory before it when the native code was not reached, and exactly
    the memory the native code left when it was, whatever the status it
    returned. *)
Theorem memory_changes_only_by_native (c : call) (w : World) :
  (trace (snd (run c w)) = trace w /\ mem (snd (run c w)) = mem w)
  \/ (exists a, resolve (proc_of c) w = inl a
        /\ trace (snd (run c w)) = trace w ++ [(a, args_of c)]
        /\ mem (snd (run c w)) = snd (native a (args_of c) (mem w))).
Proof.
  destruct (first_error (strings_of c)) as [e|] eqn:He.
  { left. rewrite (run_conversion_error _ _ _ He). auto. }
  destruct (resolve (proc_of c) w) as [a|e] eqn:Hr.
  - right. exists a. destruct (run_resolved _ _ _ He Hr) as (w1 & _ & ->). auto.
  - left. destruct (run_unresolved _ _ _ He Hr) as (w' & -> & _ & Hm & Ht). auto.
Qed.


(** X7. An earlier call shows in a later one through the memory and the
    native invocations only: no call changes what an entry point resolves to,
    and the libraries and entry points the earlier call left loaded and bound
    change nothing of what the later call returns, writes or invokes. *)
Theorem earlier_call_shows_through_memory_only (c1 c2 : call) (w : World) :
  (forall q : LazyProc, resolve q (snd (run c1 w)) = resolve q w)
  /\ fst (run c2 (snd (run c1 w)))
     = fst (run c2 (mkWorld (loaded w) (bound w)
                            (mem (snd (run c1 w))) (trace (snd (run c1 w)))))
  /\ mem (snd (run c2 (snd (run c1 w))))
     = mem (snd (run c2 (mkWorld (loaded w) (bound w)
                                 (mem (snd (run c1 w))) (trace (snd (run c1 w))))))
  /\ trace (snd (run c2 (snd (run c1 w))))
     = trace (snd (run c2 (mkWorld (loaded w) (bound w)
                                   (mem (snd (run c1 w))) (trace (snd (run c1 w)))))).
Proof.
  split; [intros q; apply resolve_after_run|].
  apply run_observable; [|reflexivity|reflexivity].
  rewrite resolve_after_run. apply resolve_ext; reflexivity.
Qed.

(** X8. [SetCurrentThreadCompartmentId] hands every 32-bit compartment id to
    the native code as it is, on 32-bit and on 64-bit targets, and returns
    the decoded status. *)
Theorem compartment_id_forwarded (compartmentId : Z) (w : World) (a : Z) :
  0 <= compartmentId < 2 ^ 32 ->
  resolve procSetCurrentThreadCompartmentId w = inl a ->
  invoked (Call_SetCurrentThreadCompartmentId compartmentId) w a [Uintptr compartmentId]
  /\ fst (run (Call_SetCurrentThreadCompartmentId compartmentId) w)
     = Returned (decode_status (status_word a [Uintptr compartmentId] (mem w))).
Proof.
  intros Hid Hr.
  destruct (run_resolved (Call_SetCurrentThreadCompartmentId compartmentId) w a
              eq_refl Hr) as (w1 & _ & Hrun).
  assert (Hu : uintptr compartmentId = compartmentId).
  { apply uintptr_small. destruct arch; cbn; lia. }
  cbn [args_of] in Hrun. rewrite Hu in Hrun.
  unfold invoked. rewrite Hrun. auto.
Qed.

(** X10. [GetCurrentThreadCompartmentId], which has no error to return,
    panics exactly when its entry point does not resolve, with the
    resolution error, before any native code runs. *)
Theorem compartment_id_panics_iff_unresolved (w : World) (e : error) :
  (fst (GetCurrentThreadCompartmentId w) = Panicked e
   <-> resolve procGetCurrentThreadCompartmentId w = inr e)
  /\ (resolve procGetCurrentThreadCompartmentId w = inr e ->
      mem (snd (GetCurrentThreadCompartmentId w)) = mem w
      /\ trace (snd (GetCurrentThreadCompartmentId w)) = trace w).
Proof.
  split; [split|].
  - intros H. destruct (resolve procGetCurrentThreadCompartmentId w) as [a|e0] eqn:Hr.
    + destruct (Get_resolved _ _ Hr) as (w1 & Hg). rewrite Hg in H. discriminate.
    + destruct (Get_unresolved _ _ Hr) as (w' & Hg & _). rewrite Hg in H.
      injection H as ->. reflexivity.
  - intros Hr. destruct (Get_unresolved _ _ Hr) as (w' & -> & _). reflexivity.
  - intros Hr. destruct (Get_unresolved _ _ Hr) as (w' & -> & Hm & Ht). auto.
Qed.

End Gateway.

(** ** The UTF-16 conversion *)

(** *** Bits as arithmetic *)

Lemma land_mask (x n : Z) : 0 <= n -> Z.land x (2 ^ n - 1) = x mod 2 ^ n.
Proof.
  intros Hn. replace (2 ^ n - 1) with (Z.ones n).
  - apply Z.land_ones. exact Hn.
  - rewrite Z.ones_equiv. lia.
Qed.

Lemma land_disjoint (a b n : Z) :
  0 <= n -> 0 <= b < 2 ^ n -> Z.land (a * 2 ^ n) b = 0.
Proof.
  intros Hn Hb. apply Z.bits_inj'. intros i Hi.
  rewrite Z.land_spec, Z.bits_0.
  destruct (Z.lt_ge_cases i n) as [Hlt|Hge].
  - rewrite Z.mul_pow2_bits_low by exact Hlt. reflexivity.
  - rewrite andb_comm.
    destruct (Z.eq_dec b 0) as [->|Hnz]; [rewrite Z.bits_0; reflexivity|].
    rewrite Z.bits_above_log2; [reflexivity|lia|].
    apply Z.log2_lt_pow2; [lia|].
    apply Z.lt_le_trans with (2 ^ n); [lia|].
    apply Z.pow_le_mono_r; lia.
Qed.

Lemma lor_add (x b n : Z) :
  0 <= n -> x mod 2 ^ n = 0 -> 0 <= b < 2 ^ n -> Z.lor x b = x + b.
Proof.
  intros Hn Hx Hb.
  assert (Hpos : 0 < 2 ^ n) by (apply Z.pow_pos_nonneg; lia).
  pose proof (Z.div_mod x (2 ^ n) ltac:(lia)) as Hdm. rewrite Hx, Z.add_0_r in Hdm.
  pose proof (Z.add_lor_land x b) as H.
  rewrite Hdm in H at 2. rewrite (Z.mul_comm (2 ^ n)) in H.
  rewrite land_disjoint in H by assumption. lia.
Qed.

Lemma shiftr_div (x n : Z) : 0 <= n -> Z.shiftr x n = x / 2 ^ n.
Proof. intros. apply Z.shiftr_div_pow2. assumption. Qed.

Lemma shiftl_mul (x n : Z) : 0 <= n -> Z.shiftl x n = x * 2 ^ n.
Proof. intros. apply Z.shiftl_mul_pow2. assumption. Qed.

Ltac pow_consts :=
  change (2 ^ 4) with 16 in *; change (2 ^ 5) with 32 in *; change (2 ^ 6) with 64 in *;
  change (2 ^ 7) with 128 in *; change (2 ^ 8) with 256 in *;
  change (2 ^ 10) with 1024 in *; change (2 ^ 11) with 2048 in *;
  change (2 ^ 12) with 4096 in *; change (2 ^ 16) with 65536 in *;
  change (2 ^ 18) with 262144 in *; change (2 ^ 32) with 4294967296 in *.

(** Linear arithmetic with division and remainder by constants. *)
Ltac zlia := pow_consts; Z.div_mod_to_equations; lia.

Ltac bytes_eq :=
  apply (f_equal (app _)); repeat (apply f_equal2; [zlia|]); reflexivity.

(** *** UTF-8 in arithmetic *)

Lemma AppendRune_scalar (p : list Z) (r : Z) :
  scalar r -> utf8.AppendRune p r = p ++ utf8_bytes r.
Proof.
  intros [Hr Hs]. unfold utf8.AppendRune, utf8_bytes, uint32, byte.
  unfold utf8.rune1Max, utf8.rune2Max, utf8.rune3Max, utf8.MaxRune,
    utf8.surrogateMin, utf8.surrogateMax, utf8.t2, utf8.t3, utf8.t4, utf8.tx, utf8.maskx.
  rewrite (Z.mod_small r (2 ^ 32)) by lia.
  change 0x3F with (2 ^ 6 - 1). rewrite !land_mask by lia.
  rewrite !shiftr_div by lia.
  destruct (r <? 0x80) eqn:E1.
  { apply Z.ltb_lt in E1. rewrite (proj2 (Z.leb_le r (2 ^ 7 - 1))) by lia.
    rewrite Z.mod_small by lia. reflexivity. }
  apply Z.ltb_ge in E1. rewrite (proj2 (Z.leb_gt r (2 ^ 7 - 1))) by lia.
  destruct (r <? 0x800) eqn:E2.
  { apply Z.ltb_lt in E2. rewrite (proj2 (Z.leb_le r (2 ^ 11 - 1))) by lia.
    rewrite (lor_add 0xC0 _ 6) by zlia. rewrite (lor_add 0x80 _ 6) by zlia.
    bytes_eq. }
  apply Z.ltb_ge in E2. rewrite (proj2 (Z.leb_gt r (2 ^ 11 - 1))) by lia.
  rewrite (proj2 (Z.ltb_ge 0x10FFFF r)) by lia. cbn [orb].
  assert (Hsur : (0xD800 <=? r) && (r <=? 0xDFFF) = false).
  { apply andb_false_iff. destruct (Z.leb_spec 0xD800 r); [right|left; reflexivity].
    apply Z.leb_gt. lia. }
  rewrite Hsur.
  destruct (r <? 0x10000) eqn:E3.
  { apply Z.ltb_lt in E3. rewrite (proj2 (Z.leb_le r (2 ^ 16 - 1))) by lia.
    rewrite (lor_add 0xE0 _ 5) by zlia. rewrite !(lor_add 0x80 _ 6) by zlia.
    bytes_eq. }
  apply Z.ltb_ge in E3. rewrite (proj2 (Z.leb_gt r (2 ^ 16 - 1))) by lia.
  rewrite (lor_add 0xF0 _ 4) by zlia. rewrite !(lor_add 0x80 _ 6) by zlia.
  bytes_eq.
Qed.

Lemma first_cases (s0 : Z) :
  (s0 < 0x80 /\ utf8.first s0 = utf8.as_)
  \/ ((0x80 <= s0 < 0xC2 \/ 0xF4 < s0) /\ utf8.first s0 = utf8.xx)
  \/ (0xC2 <= s0 < 0xE0 /\ utf8.first s0 = utf8.s1)
  \/ (s0 = 0xE0 /\ utf8.first s0 = utf8.s2)
  \/ ((0xE0 < s0 < 0xED \/ 0xED < s0 < 0xF0) /\ utf8.first s0 = utf8.s3)
  \/ (s0 = 0xED /\ utf8.first s0 = utf8.s4)
  \/ (s0 = 0xF0 /\ utf8.first s0 = utf8.s5)
  \/ (0xF0 < s0 < 0xF4 /\ utf8.first s0 = utf8.s6)
  \/ (s0 = 0xF4 /\ utf8.first s0 = utf8.s7).
Proof.
  unfold utf8.first.
  repeat match goal with
         | |- context [if ?a <? ?b then _ else _] => destruct (Z.ltb_spec a b)
         | |- context [if ?a =? ?b then _ else _] => destruct (Z.eqb_spec a b)
         end;
  intuition lia.
Qed.

Lemma rune2_arith (s0 s1 : Z) :
  Z.lor (Z.shiftl (Z.land s0 utf8.mask2) 6) (Z.land s1 utf8.maskx)
  = (s0 mod 32) * 64 + s1 mod 64.
Proof.
  change utf8.mask2 with (2 ^ 5 - 1). change utf8.maskx with (2 ^ 6 - 1).
  rewrite !land_mask, !shiftl_mul by lia.
  rewrite (lor_add _ _ 6) by zlia. reflexivity.
Qed.

Lemma rune3_arith (s0 s1 s2 : Z) :
  Z.lor (Z.lor (Z.shiftl (Z.land s0 utf8.mask3) 12) (Z.shiftl (Z.land s1 utf8.maskx) 6))
        (Z.land s2 utf8.maskx)
  = (s0 mod 16) * 4096 + (s1 mod 64) * 64 + s2 mod 64.
Proof.
  change utf8.mask3 with (2 ^ 4 - 1). change utf8.maskx with (2 ^ 6 - 1).
  rewrite !land_mask, !shiftl_mul by lia.
  rewrite (lor_add _ ((s1 mod 2 ^ 6) * 2 ^ 6) 12) by zlia.
  rewrite (lor_add _ _ 6) by zlia. reflexivity.
Qed.

Lemma rune4_arith (s0 s1 s2 s3 : Z) :
  Z.lor (Z.lor (Z.lor (Z.shiftl (Z.land s0 utf8.mask4) 18)
                      (Z.shiftl (Z.land s1 utf8.maskx) 12))
               (Z.shiftl (Z.land s2 utf8.maskx) 6))
        (Z.land s3 utf8.maskx)
  = (s0 mod 8) * 262144 + (s1 mod 64) * 4096 + (s2 mod 64) * 64 + s3 mod 64.
Proof.
  change utf8.mask4 with (2 ^ 3 - 1). change utf8.maskx with (2 ^ 6 - 1).
  rewrite !land_mask, !shiftl_mul by lia.
  rewrite (lor_add _ ((s1 mod 2 ^ 6) * 2 ^ 12) 18) by zlia.
  rewrite (lor_add _ ((s2 mod 2 ^ 6) * 2 ^ 6) 12) by zlia.
  rewrite (lor_add _ _ 6) by zlia. reflexivity.
Qed.

Ltac decide_ltb :=
  repeat match goal with
         | |- context [?a <? ?b] =>
             first [ rewrite (proj2 (Z.ltb_lt a b)) by zlia
                   | rewrite (proj2 (Z.ltb_ge a b)) by zlia ]
         end.

Lemma utf8_bytes_2 (s0 s1 : Z) :
  0xC2 <= s0 <= 0xDF -> 0x80 <= s1 <= 0xBF ->
  scalar ((s0 mod 32) * 64 + s1 mod 64)
  /\ 0x80 <= (s0 mod 32) * 64 + s1 mod 64
  /\ utf8_bytes ((s0 mod 32) * 64 + s1 mod 64) = [s0; s1].
Proof.
  intros H0 H1. split; [unfold scalar; zlia|]. split; [zlia|].
  unfold utf8_bytes. decide_ltb.
  repeat (apply f_equal2; [zlia|]); reflexivity.
Qed.

Lemma utf8_bytes_3 (s0 s1 s2 : Z) :
  0xE0 <= s0 <= 0xEF -> 0x80 <= s1 <= 0xBF -> 0x80 <= s2 <= 0xBF ->
  (s0 = 0xE0 -> 0xA0 <= s1) -> (s0 = 0xED -> s1 <= 0x9F) ->
  scalar ((s0 mod 16) * 4096 + (s1 mod 64) * 64 + s2 mod 64)
  /\ 0x800 <= (s0 mod 16) * 4096 + (s1 mod 64) * 64 + s2 mod 64
  /\ utf8_bytes ((s0 mod 16) * 4096 + (s1 mod 64) * 64 + s2 mod 64) = [s0; s1; s2].
Proof.
  intros H0 H1 H2 Hlo Hhi. split; [unfold scalar; zlia|]. split; [zlia|].
  unfold utf8_bytes. decide_ltb.
  repeat (apply f_equal2; [zlia|]); reflexivity.
Qed.

Lemma utf8_bytes_4 (s0 s1 s2 s3 : Z) :
  0xF0 <= s0 <= 0xF4 -> 0x80 <= s1 <= 0xBF -> 0x80 <= s2 <= 0xBF -> 0x80 <= s3 <= 0xBF ->
  (s0 = 0xF0 -> 0x90 <= s1) -> (s0 = 0xF4 -> s1 <= 0x8F) ->
  scalar ((s0 mod 8) * 262144 + (s1 mod 64) * 4096 + (s2 mod 64) * 64 + s3 mod 64)
  /\ 0x10000 <= (s0 mod 8) * 262144 + (s1 mod 64) * 4096 + (s2 mod 64) * 64 + s3 mod 64
  /\ utf8_bytes ((s0 mod 8) * 262144 + (s1 mod 64) * 4096 + (s2 mod 64) * 64 + s3 mod 64)
     = [s0; s1; s2; s3].
Proof.
  intros H0 H1 H2 H3 Hlo Hhi. split; [unfold scalar; zlia|]. split; [zlia|].
  unfold utf8_bytes. decide_ltb.
  repeat (apply f_equal2; [zlia|]); reflexivity.
Qed.

Lemma len_cons {A : Type} (x : A) (s : list A) : len (x :: s) = 1 + len s.
Proof. unfold len. cbn [length]. lia. Qed.

Lemma len_nonneg {A : Type} (s : list A) : 0 <= len s.
Proof. unfold len. lia. Qed.

Ltac len_ltb :=
  repeat match goal with
         | |- context [len ?s <? ?k] =>
             first [ rewrite (proj2 (Z.ltb_lt (len s) k))
                       by (rewrite ?len_cons; pose proof (len_nonneg (@nil Z)); cbn; lia)
                   | rewrite (proj2 (Z.ltb_ge (len s) k))
                       by (rewrite ?len_cons;
                           repeat match goal with
                                  | |- context [len ?t] =>
                                      lazymatch goal with
                                      | H : 0 <= len t |- _ => fail
                                      | _ => pose proof (len_nonneg t)
                                      end
                                  end; lia) ]
         end.

Ltac cont_check :=
  match goal with
  | |- context [(?b <? ?lo) || (?hi <? ?b)] =>
      destruct (Z.ltb_spec b lo); [cbn [orb]; intros [= <- <-]; left; split; reflexivity|];
      destruct (Z.ltb_spec hi b); [cbn [orb]; intros [= <- <-]; left; split; reflexivity|];
      cbn [orb]
  end.

Ltac class x sz lo hi :=
  change (utf8.as_ <=? x) with false;
  change (utf8.acceptRanges (Z.shiftr x 4)) with (lo, hi);
  change (Z.land x 7) with sz;
  change utf8.locb with 0x80; change utf8.hicb with 0xBF;
  change (2 <=? 2) with true; change (3 <=? 2) with false; change (3 <=? 3) with true;
  change (4 <=? 2) with false; change (4 <=? 3) with false;
  cbv beta iota zeta.

Ltac short := len_ltb; try (intros [= <- <-]; left; split; reflexivity).

Ltac bytes_in_range :=
  repeat match goal with
         | H : Forall _ (_ :: _) |- _ => inversion H; subst; clear H
         end.

Ltac fin_with lem :=
  intros [= <- <-]; right;
  let Hsc := fresh "Hsc" in let Hge := fresh "Hge" in let Hby := fresh "Hby" in
  destruct lem as (Hsc & Hge & Hby);
  split; [exact Hsc|];
  split; [rewrite !len_cons;
          match goal with |- context [len ?t] => pose proof (len_nonneg t) end; lia|];
  split; [rewrite Hby; reflexivity|];
  split; [intros; exfalso; unfold utf8.RuneError in *; zlia
         |intros; unfold utf8.RuneError in *; zlia].

Ltac fin2 :=
  rewrite rune2_arith;
  match goal with
  | |- ((?s0 mod 32) * 64 + ?s1 mod 64, _) = _ -> _ =>
      fin_with (utf8_bytes_2 s0 s1 ltac:(lia) ltac:(lia))
  end.

Ltac fin3 :=
  rewrite rune3_arith;
  match goal with
  | |- ((?s0 mod 16) * 4096 + (?s1 mod 64) * 64 + ?s2 mod 64, _) = _ -> _ =>
      fin_with (utf8_bytes_3 s0 s1 s2 ltac:(lia) ltac:(lia) ltac:(lia) ltac:(lia) ltac:(lia))
  end.

Ltac fin4 :=
  rewrite rune4_arith;
  match goal with
  | |- ((?s0 mod 8) * 262144 + (?s1 mod 64) * 4096 + (?s2 mod 64) * 64 + ?s3 mod 64, _) = _
       -> _ =>
      fin_with (utf8_bytes_4 s0 s1 s2 s3 ltac:(lia) ltac:(lia) ltac:(lia) ltac:(lia)
                  ltac:(lia) ltac:(lia))
  end.

Lemma Decode_valid (sc : list Z) (r size : Z) :
  byte_range sc -> sc <> [] ->
  utf8.DecodeRuneInString sc = (r, size) ->
  (r = utf8.RuneError /\ size = 1)
  \/ (scalar r /\ 1 <= size <= len sc
      /\ utf8_bytes r = firstn (Z.to_nat size) sc
      /\ (r = 0 -> nth 0 sc 0 = 0)
      /\ (r = utf8.RuneError -> nth 0 sc 0 <> 0xED)).
Proof.
  intros Hall Hne. destruct sc as [|s0 t]; [congruence|]. clear Hne.
  inversion Hall as [|? ? H0 Ht]; subst.
  unfold utf8.DecodeRuneInString. len_ltb. cbn [nth].
  destruct (first_cases s0) as [[Hs ->]|[[Hs ->]|[[Hs ->]|[[Hs ->]|[[Hs ->]|[[Hs ->]|[[Hs ->]|[[Hs ->]|[Hs ->]]]]]]]]].
  - (* ASCII *)
    cbn. rewrite Z.land_m1_r, Z.land_0_r, Z.lor_0_r. intros [= <- <-]. right.
    split; [unfold scalar; lia|]. rewrite len_cons. pose proof (len_nonneg t).
    split; [lia|]. split; [|split; [auto|cbn; lia]].
    unfold utf8_bytes. decide_ltb. reflexivity.
  - (* not a first byte *)
    cbn. change (Z.lnot (-1)) with 0. rewrite Z.land_0_r, Z.land_m1_r, Z.lor_0_l.
    intros [= <- <-]. left. split; reflexivity.
  - (* two bytes *)
    class utf8.s1 2 0x80 0xBF.
    destruct t as [|b1 t1]; short.
    cbn [nth]. bytes_in_range. cont_check. fin2.
  - (* three bytes, E0 *)
    class utf8.s2 3 0xA0 0xBF.
    destruct t as [|b1 [|b2 t2]]; short.
    cbn [nth]. bytes_in_range. cont_check. cont_check. fin3.
  - (* three bytes *)
    class utf8.s3 3 0x80 0xBF.
    destruct t as [|b1 [|b2 t2]]; short.
    cbn [nth]. bytes_in_range. cont_check. cont_check. fin3.
  - (* three bytes, ED *)
    class utf8.s4 3 0x80 0x9F.
    destruct t as [|b1 [|b2 t2]]; short.
    cbn [nth]. bytes_in_range. cont_check. cont_check. fin3.
  - (* four bytes, F0 *)
    class utf8.s5 4 0x90 0xBF.
    destruct t as [|b1 [|b2 [|b3 t3]]]; short.
    cbn [nth]. bytes_in_range. cont_check. cont_check. cont_check. fin4.
  - (* four bytes *)
    class utf8.s6 4 0x80 0xBF.
    destruct t as [|b1 [|b2 [|b3 t3]]]; short.
    cbn [nth]. bytes_in_range. cont_check. cont_check. cont_check. fin4.
  - (* four bytes, F4 *)
    class utf8.s7 4 0x80 0x8F.
    destruct t as [|b1 [|b2 [|b3 t3]]]; short.
    cbn [nth]. bytes_in_range. cont_check. cont_check. cont_check. fin4.
Qed.

(** *** UTF-16 in arithmetic *)

Ltac decide_cmp :=
  repeat match goal with
         | |- context [?a <? ?b] =>
             first [ rewrite (proj2 (Z.ltb_lt a b)) by zlia
                   | rewrite (proj2 (Z.ltb_ge a b)) by zlia ]
         | |- context [?a <=? ?b] =>
             first [ rewrite (proj2 (Z.leb_le a b)) by zlia
                   | rewrite (proj2 (Z.leb_gt a b)) by zlia ]
         end;
  cbn [andb orb negb].

Lemma AppendRune16_scalar (a : list Z) (r : Z) :
  scalar r -> utf16.AppendRune a r = a ++ utf16_units r.
Proof.
  intros [Hr Hs]. unfold utf16.AppendRune, utf16_units, utf16.EncodeRune, uint16.
  unfold utf16.surr1, utf16.surr2, utf16.surr3, utf16.surrSelf, utf16.maxRune.
  destruct (Z.ltb_spec r 0x10000) as [Hlt|Hge].
  - destruct (Z.ltb_spec r 0xd800); decide_cmp; rewrite Z.mod_small by lia; reflexivity.
  - decide_cmp.
    change 0x3ff with (2 ^ 10 - 1). rewrite !land_mask, !shiftr_div by lia.
    apply (f_equal (app a)).
    repeat (apply f_equal2; [zlia|]); reflexivity.
Qed.

Lemma DecodeRune_pair (r : Z) :
  0x10000 <= r <= 0x10FFFF ->
  utf16.DecodeRune (0xD800 + (r - 0x10000) / 1024) (0xDC00 + (r - 0x10000) mod 1024) = r.
Proof.
  intros Hr. unfold utf16.DecodeRune.
  unfold utf16.surr1, utf16.surr2, utf16.surr3, utf16.surrSelf.
  decide_cmp. rewrite shiftl_mul by lia.
  rewrite (lor_add _ _ 10) by zlia. zlia.
Qed.

(** *** One turn of each loop *)

Lemma decodeWTF16_turn (turns : nat) (r : Z) (rest out : list Z) :
  scalar r ->
  decodeWTF16_loop (S turns) (utf16_units r ++ rest) out
  = decodeWTF16_loop turns rest (out ++ utf8_bytes r).
Proof.
  intros Hsc. pose proof Hsc as [Hr Hs]. unfold utf16_units.
  pose proof (len_nonneg rest).
  destruct (Z.ltb_spec r 0x10000) as [Hlt|Hge]; cbn [app decodeWTF16_loop];
    rewrite !len_cons; cbn [nth];
    unfold utf16.surr1, utf16.surr2, utf16.surr3.
  - destruct (Z.ltb_spec r 0xd800); decide_cmp; cbn [skipn];
      rewrite (AppendRune_scalar _ _ Hsc); reflexivity.
  - decide_cmp. cbn [skipn]. rewrite (DecodeRune_pair r) by lia.
    rewrite (AppendRune_scalar _ _ Hsc). reflexivity.
Qed.

Lemma decodeWTF16_nil (turns : nat) (out : list Z) :
  decodeWTF16_loop turns [] out = out.
Proof. destruct turns; reflexivity. Qed.

Lemma utf8_bytes_length (r : Z) :
  (length (utf16_units r) <= length (utf8_bytes r))%nat.
Proof.
  unfold utf16_units, utf8_bytes.
  destruct (Z.ltb_spec r 0x80), (Z.ltb_spec r 0x800), (Z.ltb_spec r 0x10000);
    cbn [length]; lia.
Qed.

Lemma utf16_units_nonzero (r : Z) :
  scalar r -> r <> 0 -> Forall (fun u => u <> 0) (utf16_units r).
Proof.
  intros [Hr Hs] Hnz. unfold utf16_units.
  destruct (Z.ltb_spec r 0x10000); repeat constructor; zlia.
Qed.

Lemma wtf_branch (sc : list Z) (r : Z) :
  (r = utf8.RuneError -> nth 0 sc 0 <> 0xED) ->
  (r =? utf8.RuneError) && (3 <=? len sc) && (nth 0 sc 0 =? 0xED)
    && (0xA0 <=? nth 1 sc 0) && (nth 1 sc 0 <=? 0xBF)
    && (0x80 <=? nth 2 sc 0) && (nth 2 sc 0 <=? 0xBF) = false.
Proof.
  intros H. destruct (Z.eqb_spec r utf8.RuneError) as [E|E]; [|reflexivity].
  rewrite (proj2 (Z.eqb_neq _ _) (H E)). rewrite andb_false_r. reflexivity.
Qed.

Lemma utf16_units_length (r : Z) : (1 <= length (utf16_units r))%nat.
Proof. unfold utf16_units. destruct (r <? 0x10000); cbn; lia. Qed.

(** *** The round trip of the two loops *)

Lemma roundtrip_loop (turns : nat) : forall (sc buf : list Z),
  byte_range sc -> Forall (fun b => b <> 0) sc -> (length sc <= turns)%nat ->
  valid_loop turns sc = true ->
  exists units,
    encodeWTF16_loop turns sc buf = buf ++ units
    /\ Forall (fun u => u <> 0) units
    /\ (length units <= length sc)%nat
    /\ forall turns2 out, (length units <= turns2)%nat ->
         decodeWTF16_loop turns2 units out = out ++ sc.
Proof.
  induction turns as [|turns IH]; intros sc buf Hrange Hnz Hlen Hvalid.
  - destruct sc; [|cbn in Hlen; lia]. exists []. cbn. rewrite app_nil_r.
    repeat split; auto. intros. rewrite decodeWTF16_nil, app_nil_r. reflexivity.
  - destruct sc as [|s0 t].
    { exists []. cbn. rewrite app_nil_r. repeat split; auto.
      intros. rewrite decodeWTF16_nil, app_nil_r. reflexivity. }
    cbn [encodeWTF16_loop valid_loop] in *.
    assert (Hl : (len (s0 :: t) <=? 0) = false).
    { apply Z.leb_gt. rewrite len_cons. pose proof (len_nonneg t). lia. }
    rewrite Hl in *.
    destruct (utf8.DecodeRuneInString (s0 :: t)) as [r size] eqn:Hdec.
    destruct (Decode_valid _ _ _ Hrange ltac:(discriminate) Hdec)
      as [[-> ->]|(Hsc & Hsize & Hbytes & Hzero & Hwtf)].
    { cbn in Hvalid. discriminate. }
    rewrite (wtf_branch _ _ Hwtf).
    destruct ((r =? utf8.RuneError) && (size =? 1)); [discriminate|].
    set (n := Z.to_nat size) in *.
    assert (Hn : (1 <= n <= length (s0 :: t))%nat) by (unfold n, len in *; lia).
    assert (Hfirst : length (utf8_bytes r) = n).
    { rewrite Hbytes, length_firstn. lia. }
    destruct (IH (skipn n (s0 :: t)) (utf16.AppendRune buf r)) as (units & He & Hu & Hlu & Hd).
    + apply Forall_drop. exact Hrange.
    + apply Forall_drop. exact Hnz.
    + rewrite length_skipn. lia.
    + exact Hvalid.
    + exists (utf16_units r ++ units).
      rewrite He, (AppendRune16_scalar _ _ Hsc), <- app_assoc.
      split; [reflexivity|]. split; [|split].
      * apply Forall_app. split; [|exact Hu].
        apply utf16_units_nonzero; [exact Hsc|].
        intros E. specialize (Hzero E). cbn in Hzero.
        inversion Hnz; subst. congruence.
      * rewrite length_app, length_skipn in *. pose proof (utf8_bytes_length r). lia.
      * intros turns2 out Ht2. rewrite length_app in Ht2.
        pose proof (utf16_units_length r).
        destruct turns2 as [|t2]; [lia|].
        rewrite (decodeWTF16_turn _ _ _ _ Hsc).
        rewrite Hd by lia. rewrite Hbytes, <- app_assoc.
        fold n. rewrite firstn_skipn. reflexivity.
Qed.

(** *** Strings and bytes *)

Lemma byte_of_ascii_range (c : ascii) : 0 <= byte_of_ascii c < 256.
Proof.
  unfold byte_of_ascii. pose proof (N_ascii_bounded c). lia.
Qed.

Lemma bytes_range (s : string) : byte_range (bytes s).
Proof.
  induction s as [|c s IH]; constructor; [apply byte_of_ascii_range|exact IH].
Qed.

Lemma ascii_of_byte_of_ascii (c : ascii) : ascii_of_byte (byte_of_ascii c) = c.
Proof.
  unfold ascii_of_byte. rewrite Z.mod_small by apply byte_of_ascii_range.
  unfold byte_of_ascii. rewrite N2Z.id. apply ascii_N_embedding.
Qed.

Lemma string_of_bytes_bytes (s : string) : string_of_bytes (bytes s) = s.
Proof.
  induction s as [|c s IH]; cbn; [reflexivity|].
  rewrite ascii_of_byte_of_ascii, IH. reflexivity.
Qed.

Lemma has_nul_false (s : string) :
  has_nul s = false -> Forall (fun b => b <> 0) (bytes s).
Proof.
  unfold has_nul. induction (bytes s) as [|b bs IH]; cbn [existsb]; intros H;
    [constructor|].
  apply orb_false_iff in H. destruct H as [H1 H2].
  constructor; [|exact (IH H2)].
  apply Z.eqb_neq in H1. congruence.
Qed.

Lemma until_nul_terminated (units : list Z) :
  Forall (fun u => u <> 0) units -> until_nul (units ++ [0]) = units.
Proof.
  induction units as [|u units IH]; intros H; cbn; [reflexivity|].
  inversion H; subst. rewrite (proj2 (Z.eqb_neq u 0)) by assumption.
  rewrite IH by assumption. reflexivity.
Qed.

(** C7, amended. For every string that is valid UTF-8 and contains no NUL
    byte, the conversion succeeds, the buffer it produces ends with the NUL
    terminator, and decoding the buffer back gives the string. *)
Theorem utf16_round_trip (s : string) :
  ValidString s = true ->
  has_nul s = false ->
  exists units,
    UTF16FromString s = (units ++ [0], None)
    /\ UTF16PtrFromString s = (Some (units ++ [0]), None)
    /\ Forall (fun u => u <> 0) units
    /\ UTF16ToString (units ++ [0]) = s.
Proof.
  intros Hvalid Hnul. unfold UTF16PtrFromString, UTF16FromString. rewrite Hnul.
  destruct (roundtrip_loop (length (bytes s)) (bytes s) [] (bytes_range s)
              (has_nul_false _ Hnul) ltac:(lia) Hvalid) as (units & He & Hu & Hl & Hd).
  exists units. unfold encodeWTF16. rewrite He. cbn [app negb is_nil].
  split; [reflexivity|]. split; [reflexivity|]. split; [exact Hu|].
  unfold UTF16ToString. rewrite (until_nul_terminated _ Hu).
  unfold decodeWTF16. rewrite Hd by lia. cbn [app].
  apply string_of_bytes_bytes.
Qed.

(** ** What the native code receives for a string *)

Lemma utf16_units_range (r : Z) :
  scalar r -> r <> 0 -> Forall (fun u => 0 < u < 2 ^ 16) (utf16_units r).
Proof.
  intros [Hr Hs] Hnz. unfold utf16_units.
  destruct (Z.ltb_spec r 0x10000); repeat constructor; zlia.
Qed.

Lemma surrogate_arith (s0 s1 s2 : Z) :
  s0 = 0xED -> 0xA0 <= s1 <= 0xBF -> 0x80 <= s2 <= 0xBF ->
  0xD800 <= Z.shiftl (Z.land s0 utf8.mask3) 12
            + Z.shiftl (Z.land s1 utf8.maskx) 6
            + Z.land s2 utf8.maskx <= 0xDFFF.
Proof.
  intros -> H1 H2.
  change utf8.mask3 with (2 ^ 4 - 1). change utf8.maskx with (2 ^ 6 - 1).
  rewrite !land_mask, !shiftl_mul by lia. zlia.
Qed.

(** Whatever the bytes, valid text or not, a turn of [encodeWTF16] adds
    units that are not zero, and no more units than it consumes bytes. *)
Lemma encode_loop_units (turns : nat) : forall (sc buf : list Z),
  byte_range sc -> Forall (fun b => b <> 0) sc ->
  exists units,
    encodeWTF16_loop turns sc buf = buf ++ units
    /\ Forall (fun u => 0 < u < 2 ^ 16) units
    /\ (length units <= length sc)%nat.
Proof.
  induction turns as [|turns IH]; intros sc buf Hrange Hnz.
  { exists []. cbn. rewrite app_nil_r. repeat split; auto. lia. }
  destruct sc as [|s0 t].
  { exists []. cbn. rewrite app_nil_r. repeat split; auto. }
  cbn [encodeWTF16_loop].
  assert (Hl : (len (s0 :: t) <=? 0) = false).
  { apply Z.leb_gt. rewrite len_cons. pose proof (len_nonneg t). lia. }
  rewrite Hl.
  destruct (utf8.DecodeRuneInString (s0 :: t)) as [r size] eqn:Hdec.
  destruct (Decode_valid _ _ _ Hrange ltac:(discriminate) Hdec)
    as [[-> ->]|(Hsc & Hsize & Hbytes & Hzero & Hwtf)].
  - (* not an encoding: a surrogate in three bytes, or the replacement *)
    destruct ((utf8.RuneError =? utf8.RuneError) && (3 <=? len (s0 :: t))
              && (nth 0 (s0 :: t) 0 =? 0xED)
              && (0xA0 <=? nth 1 (s0 :: t) 0) && (nth 1 (s0 :: t) 0 <=? 0xBF)
              && (0x80 <=? nth 2 (s0 :: t) 0) && (nth 2 (s0 :: t) 0 <=? 0xBF)) eqn:Hw.
    + repeat (apply andb_true_iff in Hw; destruct Hw as [Hw ?]).
      destruct (IH (skipn 3 (s0 :: t))
                  (buf ++ [uint16 (Z.shiftl (Z.land (nth 0 (s0 :: t) 0) utf8.mask3) 12
                                   + Z.shiftl (Z.land (nth 1 (s0 :: t) 0) utf8.maskx) 6
                                   + Z.land (nth 2 (s0 :: t) 0) utf8.maskx)]))
        as (units & He & Hu & Hlu).
      * apply Forall_drop. exact Hrange.
      * apply Forall_drop. exact Hnz.
      * eexists (_ :: units). rewrite He, <- app_assoc. split; [reflexivity|].
        split.
        -- constructor; [|exact Hu].
           pose proof (surrogate_arith (nth 0 (s0 :: t) 0) (nth 1 (s0 :: t) 0)
                         (nth 2 (s0 :: t) 0)) as Hs.
           unfold uint16. rewrite Z.mod_small; lia.
        -- rewrite length_skipn in Hlu. cbn [length] in *. lia.
    + destruct (IH (skipn (Z.to_nat 1) (s0 :: t)) (utf16.AppendRune buf utf8.RuneError))
        as (units & He & Hu & Hlu).
      * apply Forall_drop. exact Hrange.
      * apply Forall_drop. exact Hnz.
      * exists (0xFFFD :: units). rewrite He.
        change (utf16.AppendRune buf utf8.RuneError) with (buf ++ [0xFFFD]).
        rewrite <- app_assoc. split; [reflexivity|]. split.
        -- constructor; [lia|exact Hu].
        -- change (skipn (Z.to_nat 1) (s0 :: t)) with t in Hlu.
           cbn [length]. lia.
  - (* an encoding *)
    rewrite (wtf_branch _ _ Hwtf).
    set (n := Z.to_nat size) in *.
    assert (Hn : (1 <= n <= length (s0 :: t))%nat) by (unfold n, len in *; lia).
    assert (Hfirst : length (utf8_bytes r) = n).
    { rewrite Hbytes, length_firstn. lia. }
    destruct (IH (skipn n (s0 :: t)) (utf16.AppendRune buf r)) as (units & He & Hu & Hlu).
    + apply Forall_drop. exact Hrange.
    + apply Forall_drop. exact Hnz.
    + exists (utf16_units r ++ units).
      rewrite He, (AppendRune16_scalar _ _ Hsc), <- app_assoc.
      split; [reflexivity|]. split.
      * apply Forall_app. split; [|exact Hu].
        apply utf16_units_range; [exact Hsc|].
        intros E. specialize (Hzero E). cbn in Hzero.
        inversion Hnz; subst. congruence.
      * rewrite length_app, length_skipn in *. pose proof (utf8_bytes_length r). lia.
Qed.

Lemma encodeWTF16_units (s : string) :
  has_nul s = false ->
  Forall (fun u => 0 < u < 2 ^ 16) (encodeWTF16 s [])
  /\ (length (encodeWTF16 s []) <= length (bytes s))%nat.
Proof.
  intros Hnul. unfold encodeWTF16.
  destruct (encode_loop_units (length (bytes s)) (bytes s) [] (bytes_range s)
              (has_nul_false s Hnul)) as (units & -> & Hu & Hl).
  auto.
Qed.

Section NativeStrings.

Variable arch : goarch.
Variable host_dll : string -> bool.
Variable host_proc : string -> string -> option Z.
Variable native : Z -> list arg -> gmap Z Z -> Z * gmap Z Z.

(** X9. When a wrapper that takes strings reaches the native code, every
    string, valid UTF-8 or not, has arrived as a pointer to a buffer of
    16-bit units that are not zero, closed by one zero unit, and of no more
    units than the string has bytes: the native code reads each string to
    its end and no further. *)
Theorem native_strings_are_terminated (c : call) (w : World) (trap : Z) (args : list arg) :
  invoked arch host_dll host_proc native c w trap args ->
  strings_of c <> [] ->
  exists bodies : list (list Z),
    utf16_args args = map (fun body => Some (body ++ [0])) bodies
    /\ Forall2 (fun s body => Forall (fun u => 0 < u < 2 ^ 16) body
                              /\ (length body <= length (bytes s))%nat)
               (strings_of c) bodies.
Proof.
  intros Hinv Hne. destruct (invoked_inv _ _ _ _ _ _ _ _ Hinv) as (He & _ & ->).
  pose proof (first_error_None _ He) as Hnul.
  exists (map (fun s => encodeWTF16 s []) (strings_of c)).
  split.
  - rewrite (args_of_strings _ _ Hne Hnul), map_map. reflexivity.
  - clear Hne He Hinv. induction (strings_of c) as [|s ss IH]; cbn [map]; constructor.
    + apply encodeWTF16_units. apply Hnul. left. reflexivity.
    + apply IH. intros s' Hin. apply Hnul. right. exact Hin.
Qed.

End NativeStrings.

(** ** The definitions on concrete inputs *)

Example int32_access_denied : int32 0x80070005 = -2147024891.
Proof. reflexivity. Qed.

Example int32_high_bits_ignored : int32 0x100000000 = 0.
Proof. reflexivity. Qed.

Example decode_errno_pattern : decode_status 0x80070005 = Some (Errno 5).
Proof. reflexivity. Qed.

Example decode_other_failure : decode_status 0xC0000005 = Some (Errno 0xC0000005).
Proof. reflexivity. Qed.

Example decode_success : decode_status 1 = None.
Proof. reflexivity. Qed.

Example UTF16FromString_braces : UTF16FromString "{}" = ([0x7B; 0x7D; 0], None).
Proof. reflexivity. Qed.

Example UTF16FromString_sample :
  UTF16FromString sample_text
  = ([0x7B; 0xE9; 0x20AC; 0xD83D; 0xDE00; 0x7D; 0], None).
Proof. vm_compute. reflexivity. Qed.

Example UTF16ToString_sample :
  UTF16ToString [0x7B; 0xE9; 0x20AC; 0xD83D; 0xDE00; 0x7D; 0] = sample_text.
Proof. vm_compute. reflexivity. Qed.

Example UTF16FromString_invalid_byte :
  UTF16FromString (string_of_bytes [0x61; 0xFF; 0x62]) = ([0x61; 0xFFFD; 0x62; 0], None).
Proof. vm_compute. reflexivity. Qed.

Example hcnCreateNetwork_invocation :
  trace (snd (hcnCreateNetwork AMD64 every_dll every_proc (native_status 0)
                               1 "{}" 2 3 fresh))
  = [(0x1000, [Uintptr 1; Utf16Ptr (Some [0x7B; 0x7D; 0]); Uintptr 2; Uintptr 3])].
Proof. vm_compute. reflexivity. Qed.

Example hcnCreateNetwork_binds :
  bound (snd (hcnCreateNetwork AMD64 every_dll every_proc (native_status 0)
                               1 "{}" 2 3 fresh))
    !! ("computenetwork.dll", "HcnCreateNetwork")
  = Some 0x1000.
Proof. vm_compute. reflexivity. Qed.

Example GetCurrentThreadCompartmentId_value :
  fst (GetCurrentThreadCompartmentId AMD64 every_dll every_proc (native_status 0x100000002)
                                     fresh)
  = Returned 2.
Proof. vm_compute. reflexivity. Qed.

(** ** The properties on concrete hosts *)

(** C1 on a host with HCN: [HcnCloseEndpoint] returns [0x80070005]
    (E_ACCESSDENIED) and the wrapper reports error number 5. *)
Lemma negative_status_reported_witness :
  invoked AMD64 every_dll every_proc (native_status 0x80070005)
          (Call_hcnCloseEndpoint 7) fresh 0x1000 [Uintptr 7]
  /\ int32 (status_word AMD64 (native_status 0x80070005) 0x1000 [Uintptr 7] (mem fresh)) < 0
  /\ fst (run AMD64 every_dll every_proc (native_status 0x80070005)
              (Call_hcnCloseEndpoint 7) fresh)
     = Returned (Some (Errno 5)).
Proof.
  assert (H1 : invoked AMD64 every_dll every_proc (native_status 0x80070005)
                       (Call_hcnCloseEndpoint 7) fresh 0x1000 [Uintptr 7])
    by (vm_compute; reflexivity).
  assert (H2 : int32 (status_word AMD64 (native_status 0x80070005) 0x1000 [Uintptr 7]
                                  (mem fresh)) < 0)
    by (vm_compute; reflexivity).
  split; [exact H1|]. split; [exact H2|].
  exact (proj1 (negative_status_reported AMD64 every_dll every_proc
                  (native_status 0x80070005) (Call_hcnCloseEndpoint 7) fresh
                  0x1000 [Uintptr 7] H1 H2) eq_refl).
Defined.

(** C2 on a host without the HCN feature: [Create] with ["{}"] fails with the
    error of the library that is missing. *)
Lemma resolution_failure_reported_witness :
  resolve no_hcn_dll every_proc (proc_of (Call_hcnCreateNetwork 1 "{}" 2 3)) fresh
  = inr (DLLError "computenetwork.dll")
  /\ fst (run AMD64 no_hcn_dll every_proc (native_status 0)
              (Call_hcnCreateNetwork 1 "{}" 2 3) fresh)
     = Returned (Some (DLLError "computenetwork.dll")).
Proof.
  assert (Hr : resolve no_hcn_dll every_proc (proc_of (Call_hcnCreateNetwork 1 "{}" 2 3))
                       fresh = inr (DLLError "computenetwork.dll"))
    by (vm_compute; reflexivity).
  split; [exact Hr|].
  destruct (proj1 (resolution_failure_reported AMD64 no_hcn_dll every_proc
                     (native_status 0) fresh)
              (Call_hcnCreateNetwork 1 "{}" 2 3) _ eq_refl Hr)
    as (_ & w' & _ & _ & Hret & _).
  rewrite Hret; [reflexivity|]. cbn. discriminate.
Defined.

(** C2 as first stated fails for the wrappers of iphlpapi.dll: when the
    library does not load they return no error, they panic. *)
Lemma compartment_wrappers_panic :
  resolve no_dll every_proc (proc_of (Call_SetCurrentThreadCompartmentId 1)) fresh
  = inr (DLLError "iphlpapi.dll")
  /\ run AMD64 no_dll every_proc (native_status 0)
         (Call_SetCurrentThreadCompartmentId 1) fresh
     = (Panicked (DLLError "iphlpapi.dll"), fresh)
  /\ GetCurrentThreadCompartmentId AMD64 no_dll every_proc (native_status 0) fresh
     = (Panicked (DLLError "iphlpapi.dll"), fresh).
Proof. repeat split; vm_compute; reflexivity. Qed.

(** C3 on a host with HCN: the native code succeeds and stores a result
    pointer; the wrapper returns [nil] and the caller finds the pointer. *)
Lemma nonnegative_status_is_success_witness :
  invoked AMD64 every_dll every_proc (native_result 0x7700)
          (Call_hcnDeleteNetwork 1 2) fresh 0x1000 [Uintptr 1; Uintptr 2]
  /\ 0 <= int32 (status_word AMD64 (native_result 0x7700) 0x1000 [Uintptr 1; Uintptr 2]
                             (mem fresh))
  /\ fst (run AMD64 every_dll every_proc (native_result 0x7700)
              (Call_hcnDeleteNetwork 1 2) fresh)
     = Returned None
  /\ mem (snd (run AMD64 every_dll every_proc (native_result 0x7700)
                   (Call_hcnDeleteNetwork 1 2) fresh)) !! 2
     = Some 0x7700.
Proof.
  assert (H1 : invoked AMD64 every_dll every_proc (native_result 0x7700)
                       (Call_hcnDeleteNetwork 1 2) fresh 0x1000 [Uintptr 1; Uintptr 2])
    by (vm_compute; reflexivity).
  assert (H2 : 0 <= int32 (status_word AMD64 (native_result 0x7700) 0x1000
                                       [Uintptr 1; Uintptr 2] (mem fresh)))
    by (vm_compute; discriminate).
  split; [exact H1|]. split; [exact H2|].
  destruct (nonnegative_status_is_success AMD64 every_dll every_proc
              (native_result 0x7700) (Call_hcnDeleteNetwork 1 2) fresh
              0x1000 [Uintptr 1; Uintptr 2] H1 H2) as (Hnil & _ & Hres).
  split; [exact Hnil|]. rewrite Hres. vm_compute. reflexivity.
Defined.

(** C4 on a host with HCN: a path with a NUL in it stops [_hnsCall] before
    anything else happens. *)
Lemma strings_converted_before_call_witness :
  run AMD64 every_dll every_proc (native_status 0)
      (Call__hnsCall "GET" text_with_nul "{}" 9) fresh
  = (Returned (Some EINVAL), fresh).
Proof.
  apply (proj1 (proj2 (strings_converted_before_call AMD64 every_dll every_proc
                         (native_status 0)
                         (Call__hnsCall "GET" text_with_nul "{}" 9) fresh))
               text_with_nul).
  - cbn. auto.
  - vm_compute. reflexivity.
Defined.

(** C5 on a host with HCN: a handle that was never opened goes to
    [HcnCloseNetwork] as it is, and the status the native code answers
    (E_HANDLE) comes back decoded. *)
Lemma handle_forwarded_witness :
  handle_of (Call_hcnCloseNetwork 0xdead) = Some 0xdead
  /\ 0 <= 0xdead < 2 ^ ptr_bits AMD64
  /\ exists rest,
       invoked AMD64 every_dll every_proc (native_status 0x80070006)
               (Call_hcnCloseNetwork 0xdead) fresh 0x1000 (Uintptr 0xdead :: rest)
       /\ fst (run AMD64 every_dll every_proc (native_status 0x80070006)
                   (Call_hcnCloseNetwork 0xdead) fresh)
          = Returned (Some (Errno 6)).
Proof.
  split; [reflexivity|]. split; [cbn; lia|].
  destruct (handle_forwarded AMD64 every_dll every_proc (native_status 0x80070006)
              (Call_hcnCloseNetwork 0xdead) 0xdead fresh 0x1000
              eq_refl ltac:(cbn; lia) eq_refl eq_refl) as (rest & Hinv & Hrun).
  exists rest. split; [exact Hinv|]. rewrite Hrun. vm_compute. reflexivity.
Defined.

(** C6 on a host with HCN: resolving [HcnCreateNetwork] twice binds it
    once. *)
Lemma resolving_twice_is_resolving_once_witness :
  Find every_dll every_proc procHcnCreateNetwork
       (snd (Find every_dll every_proc procHcnCreateNetwork fresh))
  = Find every_dll every_proc procHcnCreateNetwork fresh.
Proof.
  exact (proj1 (resolving_twice_is_resolving_once AMD64 every_dll every_proc
                  (native_status 0) procHcnCreateNetwork fresh)).
Defined.

(** C8 on a host with HCN: one failing call, one invocation. *)
Lemma native_called_at_most_once_witness :
  trace (snd (run AMD64 every_dll every_proc (native_status 0x80070005)
                  (Call___hnsCall None None None 9) fresh))
  = trace fresh ++ [(0x1000, args_of AMD64 (Call___hnsCall None None None 9))].
Proof.
  apply (proj1 (proj2 (native_called_at_most_once AMD64 every_dll every_proc
                         (native_status 0x80070005)
                         (Call___hnsCall None None None 9) fresh)));
    reflexivity.
Defined.

(** C9 on a host with HCN: [HcnCloseEndpoint] and
    [SetCurrentThreadCompartmentId] decode the same word to the same
    error. *)
Lemma wrappers_share_decode_witness :
  fst (run AMD64 every_dll every_proc (native_status 0x80070005)
           (Call_hcnCloseEndpoint 7) fresh)
  = fst (run AMD64 every_dll every_proc (native_status 0x80070005)
             (Call_SetCurrentThreadCompartmentId 1) fresh).
Proof.
  assert (H1 : invoked AMD64 every_dll every_proc (native_status 0x80070005)
                       (Call_hcnCloseEndpoint 7) fresh 0x1000 [Uintptr 7])
    by (vm_compute; reflexivity).
  assert (H2 : invoked AMD64 every_dll every_proc (native_status 0x80070005)
                       (Call_SetCurrentThreadCompartmentId 1) fresh 0x1000 [Uintptr 1])
    by (vm_compute; reflexivity).
  exact (proj2 (wrappers_share_decode AMD64 every_dll every_proc
                  (native_status 0x80070005) _ _ _ _ _ _ _ _ H1 H2) eq_refl).
Defined.

(** C10 on a 64-bit host: the register holds [0x180000005]; its low 32 bits
    are negative, and the error number is the whole register. *)
Lemma raw_status_keeps_high_bits_witness :
  invoked AMD64 every_dll every_proc (native_status 0x180000005)
          (Call_hcnCloseEndpoint 7) fresh 0x1000 [Uintptr 7]
  /\ fst (run AMD64 every_dll every_proc (native_status 0x180000005)
              (Call_hcnCloseEndpoint 7) fresh)
     = Returned (Some (Errno 0x180000005))
  /\ fst (run AMD64 every_dll every_proc (native_status 0x180000005)
              (Call_hcnCloseEndpoint 7) fresh)
     <> Returned (Some (Errno 0x80000005)).
Proof.
  assert (H1 : invoked AMD64 every_dll every_proc (native_status 0x180000005)
                       (Call_hcnCloseEndpoint 7) fresh 0x1000 [Uintptr 7])
    by (vm_compute; reflexivity).
  split; [exact H1|].
  destruct (raw_status_keeps_high_bits AMD64 every_dll every_proc
              (native_status 0x180000005) (Call_hcnCloseEndpoint 7) fresh
              0x1000 [Uintptr 7] H1
              ltac:(vm_compute; reflexivity) ltac:(vm_compute; discriminate))
    as (_ & Hrun & Hlow).
  split; [exact Hrun|]. apply Hlow. vm_compute. discriminate.
Defined.

(** C7 on text with runes of every width. *)
Lemma utf16_round_trip_witness :
  ValidString sample_text = true
  /\ has_nul sample_text = false
  /\ UTF16ToString (fst (UTF16FromString sample_text)) = sample_text.
Proof.
  split; [vm_compute; reflexivity|]. split; [vm_compute; reflexivity|].
  destruct (utf16_round_trip sample_text) as (units & Heq & _ & _ & Hrt);
    [vm_compute; reflexivity|vm_compute; reflexivity|].
  rewrite Heq. exact Hrt.
Defined.

(** C7 as first stated fails for valid text with a NUL in it: the conversion
    refuses it, so no buffer decodes back to it. *)
Lemma nul_text_does_not_round_trip :
  ValidString text_with_nul = true
  /\ UTF16FromString text_with_nul = ([], Some EINVAL)
  /\ UTF16PtrFromString text_with_nul = (None, Some EINVAL)
  /\ UTF16ToString (fst (UTF16FromString text_with_nul)) <> text_with_nul.
Proof.
  repeat split; try (vm_compute; reflexivity). vm_compute. discriminate.
Qed.

(** X1 on a host where no library loads: [SetCurrentThreadCompartmentId]
    panics, and the panic names iphlpapi.dll. *)
Lemma only_unresolved_Set_panics_witness :
  proc_of (Call_SetCurrentThreadCompartmentId 1) = procSetCurrentThreadCompartmentId
  /\ resolve no_dll every_proc (proc_of (Call_SetCurrentThreadCompartmentId 1)) fresh
     = inr (DLLError "iphlpapi.dll")
  /\ trace fresh = trace fresh /\ mem fresh = mem fresh.
Proof.
  apply (only_unresolved_Set_panics AMD64 no_dll every_proc (native_status 0)
           (Call_SetCurrentThreadCompartmentId 1) fresh fresh (DLLError "iphlpapi.dll")).
  vm_compute. reflexivity.
Defined.

(** X2 on a 64-bit host whose native code answers a word with high bits set:
    the compartment id is the low half. *)
Lemma compartment_id_is_low_32_bits_witness :
  fst (GetCurrentThreadCompartmentId AMD64 every_dll every_proc
         (native_status 0xFFFFFFFF80000007) fresh)
  = Returned 0x80000007.
Proof.
  etransitivity.
  - apply (compartment_id_is_low_32_bits AMD64 every_dll every_proc
             (native_status 0xFFFFFFFF80000007) fresh 0x1000).
    vm_compute. reflexivity.
  - vm_compute. reflexivity.
Defined.

(** X3 on a host with HCN: a failure of another facility than Win32 is
    reported with its whole status word. *)
Lemma reported_error_number_range_witness :
  0 <= 0x80040005 < 2 ^ 16
  \/ (2 ^ 31 <= 0x80040005 < 2 ^ ptr_bits AMD64
      /\ 0x80040005 = status_word AMD64 (native_status 0x80040005) 0x1000 [Uintptr 7]
                                  (mem fresh)).
Proof.
  apply (reported_error_number_range AMD64 every_dll every_proc (native_status 0x80040005)
           (Call_hcnCloseNetwork 7) fresh 0x1000 [Uintptr 7] 0x80040005).
  - vm_compute. reflexivity.
  - vm_compute. reflexivity.
Defined.

(** X4 on a 64-bit host: ERROR_ACCESS_DENIED is read off a status word with
    bits 29 and 30 and the upper half set. *)
Lemma win32_facility_decoded_witness :
  fst (run AMD64 every_dll every_proc (native_status 0xFFFFFFFFE0070005)
         (Call_hcnCloseNetwork 7) fresh)
  = Returned (Some (Errno 5)).
Proof.
  apply (win32_facility_decoded AMD64 every_dll every_proc
           (native_status 0xFFFFFFFFE0070005)
           (Call_hcnCloseNetwork 7) fresh 0x1000 [Uintptr 7] 3 5).
  - vm_compute. reflexivity.
  - vm_compute. reflexivity.
  - lia.
  - lia.
Defined.


(** X8 on a 32-bit host: the largest compartment id goes through. *)
Lemma compartment_id_forwarded_witness :
  invoked I386 every_dll every_proc (native_status 0)
          (Call_SetCurrentThreadCompartmentId 0xFFFFFFFF) fresh 0x1000
          [Uintptr 0xFFFFFFFF]
  /\ fst (run I386 every_dll every_proc (native_status 0)
              (Call_SetCurrentThreadCompartmentId 0xFFFFFFFF) fresh)
     = Returned (decode_status
                   (status_word I386 (native_status 0) 0x1000 [Uintptr 0xFFFFFFFF]
                                (mem fresh))).
Proof.
  apply (compartment_id_forwarded I386 every_dll every_proc (native_status 0)
           0xFFFFFFFF fresh 0x1000).
  - lia.
  - vm_compute. reflexivity.
Defined.

(** X9 on a host with HCN: the three strings of [_hnsCall], one of them a
    lone continuation byte, arrive as three terminated buffers. *)
Lemma native_strings_are_terminated_witness :
  exists bodies : list (list Z),
    utf16_args (args_of AMD64 (Call__hnsCall "GET" (String "191" "/x") sample_text 9))
    = map (fun body => Some (body ++ [0])) bodies
    /\ Forall2 (fun s body => Forall (fun u => 0 < u < 2 ^ 16) body
                              /\ (length body <= length (bytes s))%nat)
               (strings_of (Call__hnsCall "GET" (String "191" "/x") sample_text 9))
               bodies.
Proof.
  apply (native_strings_are_terminated AMD64 every_dll every_proc (native_status 0)
           (Call__hnsCall "GET" (String "191" "/x") sample_text 9) fresh 0x1000).
  - vm_compute. reflexivity.
  - discriminate.
Defined.
